(** * Crypto-payment lifecycle of the e-commerce backend

  A shallow embedding of [apps/payments] (models, API endpoints, Celery
  tasks and the two ledger processors) together with the part of
  [apps/orders/models.py] that the payment workflow writes to.

  - Python [Decimal] values are sign/coefficient/exponent triples; the
    arithmetic context is Python's default one (28 significant digits,
    ROUND_HALF_EVEN).
  - Database tables are finite maps from primary key to row.
  - [timezone.now()] is an explicit clock argument of every entry point.
  - Celery [.delay] / [.apply_async] calls are recorded in a task queue. *)

From Stdlib Require Import ZArith QArith Qround Lia Lqa Bool Ascii String List.
From stdpp Require Import base option list gmap strings.

Local Open Scope Z_scope.

(** ** Python's [decimal] module, default context

    The operations follow the reference implementation of the module
    ([_pydecimal]), which the C implementation agrees with: finite numbers
    only, precision 28, ROUND_HALF_EVEN, DivisionByZero and
    InvalidOperation trapped (they raise). *)

Module PyDecimal.

(** [Decimal._sign], [Decimal._int] (as a number) and [Decimal._exp]. *)
Record Decimal : Type := mkDecimal { dsign : bool; dint : Z; dexp : Z }.

(** [getcontext().prec] *)
Definition prec : Z := 28.

Fixpoint ndigits_fuel (fuel : nat) (n : Z) : Z :=
  match fuel with
  | O => 1
  | S f => if n <? 10 then 1 else 1 + ndigits_fuel f (n / 10)
  end.

(** [len(self._int)]: the number of decimal digits of a coefficient. *)
Definition ndigits (n : Z) : Z := ndigits_fuel (Z.to_nat (Z.log2 n)) n.

(** ROUND_HALF_EVEN applied to the quotient [x / d] of two non-negative
    integers: the discarded digits are [x mod d]. *)
Definition round_half_even (x d : Z) : Z :=
  let q := x / d in
  let r := x mod d in
  if 2 * r <? d then q
  else if d <? 2 * r then q + 1
  else if Z.even q then q else q + 1.

(** [Decimal._fix]: round to the context precision.  The exponent limits
    [Emin]/[Emax] (about 10^6 in magnitude) are not modelled. *)
Definition _fix (d : Decimal) : Decimal :=
  if dint d =? 0 then d
  else
    let exp_min := ndigits (dint d) + dexp d - prec in
    if dexp d <? exp_min then
      let coeff := round_half_even (dint d) (10 ^ (exp_min - dexp d)) in
      if prec <? ndigits coeff
      then mkDecimal (dsign d) (coeff / 10) (exp_min + 1)
      else mkDecimal (dsign d) coeff exp_min
    else d.

(** The loop of an exact division:
    [while exp < ideal_exp and coeff % 10 == 0: coeff //= 10; exp += 1];
    the fuel is [ideal_exp - exp]. *)
Fixpoint strip_zeros (fuel : nat) (coeff exp : Z) : Z * Z :=
  match fuel with
  | O => (coeff, exp)
  | S f => if coeff mod 10 =? 0 then strip_zeros f (coeff / 10) (exp + 1)
           else (coeff, exp)
  end.

(** [Decimal.__truediv__]; [None] is the raised [DivisionByZero] (or
    [DivisionUndefined]) signal. *)
Definition truediv (x y : Decimal) : option Decimal :=
  let sign := xorb (dsign x) (dsign y) in
  if dint y =? 0 then None
  else if dint x =? 0 then Some (_fix (mkDecimal sign 0 (dexp x - dexp y)))
  else
    let shift := ndigits (dint y) - ndigits (dint x) + prec + 1 in
    let exp := dexp x - dexp y - shift in
    let num := if 0 <=? shift then dint x * 10 ^ shift else dint x in
    let den := if 0 <=? shift then dint y else dint y * 10 ^ (- shift) in
    let coeff := num / den in
    let remainder := num mod den in
    let '(coeff, exp) :=
      if negb (remainder =? 0)
      then (if coeff mod 5 =? 0 then coeff + 1 else coeff, exp)
      else strip_zeros (Z.to_nat (dexp x - dexp y - exp)) coeff exp in
    Some (_fix (mkDecimal sign coeff exp)).

(** [Decimal.__mul__] *)
Definition mul (x y : Decimal) : Decimal :=
  _fix (mkDecimal (xorb (dsign x) (dsign y)) (dint x * dint y) (dexp x + dexp y)).

(** [Decimal._rescale(exp, ROUND_HALF_EVEN)] *)
Definition _rescale (d : Decimal) (exp : Z) : Decimal :=
  if dint d =? 0 then mkDecimal (dsign d) 0 exp
  else if exp <=? dexp d
  then mkDecimal (dsign d) (dint d * 10 ^ (dexp d - exp)) exp
  else mkDecimal (dsign d) (round_half_even (dint d) (10 ^ (exp - dexp d))) exp.

(** [Decimal.quantize(e)]; [None] is the raised [InvalidOperation]. *)
Definition quantize (d e : Decimal) : option Decimal :=
  if dint d =? 0 then Some (mkDecimal (dsign d) 0 (dexp e))
  else if prec <? ndigits (dint d) + dexp d - dexp e then None
  else
    let ans := _rescale d (dexp e) in
    if prec <? ndigits (dint ans) then None else Some ans.

(** The signed coefficient. *)
Definition signed (d : Decimal) : Z := if dsign d then - dint d else dint d.

(** [Decimal.__ge__]: exact comparison of the two values. *)
Definition ge (x y : Decimal) : bool :=
  let m := Z.min (dexp x) (dexp y) in
  signed y * 10 ^ (dexp y - m) <=? signed x * 10 ^ (dexp x - m).

(** The rational number a [Decimal] denotes. *)
Definition to_Q (d : Decimal) : Q :=
  if 0 <=? dexp d then inject_Z (signed d * 10 ^ dexp d)
  else Qmake (signed d) (Z.to_pos (10 ^ (- dexp d))).

(** [Decimal(str(n))] for a Python [int] [n]. *)
Definition of_int (n : Z) : Decimal := mkDecimal (n <? 0) (Z.abs n) 0.

End PyDecimal.

Import PyDecimal.

(** ** [apps/payments/crypto/bitcoin.py] *)

Module BitcoinPaymentProcessor.

(** [get_btc_price]: [Decimal('35000.00')] *)
Definition get_btc_price : Decimal := mkDecimal false 3500000 (-2).

(** The body of [calculate_crypto_amount] once the price has been read:
    [(Decimal(str(eur_amount)) / btc_price).quantize(Decimal('0.00000001'))].
    [eur_amount] is already a [Decimal] (a [DecimalField] value), on which
    [Decimal(str(_))] is the identity. *)
Definition calculate_crypto_amount_at (btc_price eur_amount : Decimal)
  : option Decimal :=
  q ← truediv eur_amount btc_price;
  quantize q (mkDecimal false 1 (-8)).

Definition calculate_crypto_amount (eur_amount : Decimal) : option Decimal :=
  calculate_crypto_amount_at get_btc_price eur_amount.

(** What [service.getaddresstxs] returns: transactions with their outputs,
    output values in satoshi. *)
Record Output : Type := mkOutput { out_address : string; out_value : Z }.
Record Transaction : Type := mkTransaction { txid : string; outputs : list Output }.

(** [amount_btc = Decimal(str(output.value)) / Decimal('100000000')] *)
Definition amount_btc (value : Z) : option Decimal :=
  truediv (of_int value) (mkDecimal false 100000000 0).

(** The test [amount_btc >= expected_amount * Decimal('0.99')] of
    [monitor_address]. *)
Definition amount_accepted (value : Z) (expected_amount : Decimal) : bool :=
  match amount_btc value with
  | Some a => ge a (mul expected_amount (mkDecimal false 99 (-2)))
  | None => false
  end.

(** The inner [for output in tx.outputs] loop: does some output to our
    address carry an accepted amount? *)
Definition tx_pays (address : string) (expected_amount : Decimal)
    (tx : Transaction) : bool :=
  existsb (fun o => bool_decide (out_address o = address)
                    && amount_accepted (out_value o) expected_amount)
          (outputs tx).

(** One pass of the [while True] loop of [monitor_address] over the
    transactions the ledger reports: the hash handed to the callback (if
    any) and the updated [checked_txs].  Between two passes the coroutine
    sleeps 30 seconds. *)
Fixpoint monitor_address_pass (address : string) (expected_amount : Decimal)
    (checked_txs : gset string) (txs : list Transaction)
  : option string * gset string :=
  match txs with
  | [] => (None, checked_txs)
  | tx :: rest =>
      if decide (txid tx ∈ checked_txs)
      then monitor_address_pass address expected_amount checked_txs rest
      else
        let checked_txs := {[ txid tx ]} ∪ checked_txs in
        if tx_pays address expected_amount tx
        then (Some (txid tx), checked_txs)
        else monitor_address_pass address expected_amount checked_txs rest
  end.

(** What [service.gettransaction] returns, as far as [check_transaction]
    reads it. *)
Record LedgerTransaction : Type :=
  mkLedgerTransaction { ledger_confirmations : Z; output_total : Z; fee : Z }.

(** The dictionary [check_transaction] returns. *)
Record TxInfo : Type := mkTxInfo {
  info_confirmed : bool;
  info_confirmations : Z;
  info_amount : Z;
  info_fee : Z
}.

(** [check_transaction]; [tx] is [None] when the service raised or
    returned nothing. *)
Definition check_transaction (tx : option LedgerTransaction) : option TxInfo :=
  match tx with
  | Some tx => Some (mkTxInfo (0 <? ledger_confirmations tx) (ledger_confirmations tx)
                       (output_total tx) (fee tx))
  | None => None
  end.

End BitcoinPaymentProcessor.

(** ** [apps/payments/crypto/ethereum.py] *)

Module EthereumPaymentProcessor.

(** [get_eth_price]: [Decimal('2500.00')] *)
Definition get_eth_price : Decimal := mkDecimal false 250000 (-2).

(** [(Decimal(str(eur_amount)) / eth_price).quantize(Decimal('0.000001'))] *)
Definition calculate_crypto_amount_at (eth_price eur_amount : Decimal)
  : option Decimal :=
  q ← truediv eur_amount eth_price;
  quantize q (mkDecimal false 1 (-6)).

Definition calculate_crypto_amount (eur_amount : Decimal) : option Decimal :=
  calculate_crypto_amount_at get_eth_price eur_amount.

(** [Web3.from_wei(number, 'ether')]: the library divides by 10^18 at 999
    digits of precision, which is exact; only the value of the result is
    observed (through [>=]). *)
Definition from_wei (number : Z) : Decimal := mkDecimal false number (-18).

(** The test [value >= expected_amount * Decimal('0.99')] of
    [monitor_address], with [value = Web3.from_wei(tx['value'], 'ether')]. *)
Definition amount_accepted (value : Z) (expected_amount : Decimal) : bool :=
  ge (from_wei value) (mul expected_amount (mkDecimal false 99 (-2))).

(** [str.lower()] on the ASCII letters of an address. *)
Definition lower_ascii (c : ascii) : ascii :=
  let n := nat_of_ascii c in
  if ((65 <=? n) && (n <=? 90))%nat then ascii_of_nat (n + 32) else c.

Fixpoint lower (s : string) : string :=
  match s with
  | EmptyString => EmptyString
  | String c rest => String (lower_ascii c) (lower rest)
  end.

(** A transaction of a block fetched with [full_transactions=True]:
    [tx['hash'].hex()], [tx['to']] ([None] for a contract creation) and
    [tx['value']] in wei. *)
Record Transaction : Type :=
  mkTransaction { tx_hash : string; tx_to : option string; tx_value : Z }.

(** The test of the innermost loop of [monitor_address]. *)
Definition tx_pays (address : string) (expected_amount : Decimal)
    (tx : Transaction) : bool :=
  match tx_to tx with
  | Some to => bool_decide (lower to = lower address)
               && amount_accepted (tx_value tx) expected_amount
  | None => false
  end.

(** One pass of the [while True] loop of [monitor_address] over the
    transactions of the blocks mined since the previous pass, in block
    order: the hash handed to the callback, if any.  Between two passes
    the coroutine sleeps 10 seconds. *)
Definition monitor_address_pass (address : string) (expected_amount : Decimal)
    (new_blocks : list (list Transaction)) : option string :=
  tx_hash <$> List.find (tx_pays address expected_amount) (concat new_blocks).

(** What [w3.eth.get_transaction] and [w3.eth.get_transaction_receipt]
    return, as far as [check_transaction] reads them. *)
Record LedgerTransaction : Type :=
  mkLedgerTransaction { lt_from : string; lt_to : option string; lt_value : Z }.

Record Receipt : Type := mkReceipt { blockNumber : Z; receipt_status : Z }.

(** The dictionary [check_transaction] returns. *)
Record TxInfo : Type := mkTxInfo {
  info_confirmed : bool;
  info_confirmations : Z;
  info_from_address : string;
  info_to_address : option string;
  info_value : Decimal
}.

(** [check_transaction]; [block_number] is [w3.eth.block_number], [tx] and
    [receipt] are [None] when the node raised (unknown or pending
    transaction) or returned nothing. *)
Definition check_transaction (block_number : Z) (tx : option LedgerTransaction)
    (receipt : option Receipt) : option TxInfo :=
  match tx, receipt with
  | Some tx, Some receipt =>
      Some (mkTxInfo (receipt_status receipt =? 1)
              (block_number - blockNumber receipt)
              (lt_from tx) (lt_to tx) (from_wei (lt_value tx)))
  | _, _ => None
  end.

End EthereumPaymentProcessor.

(** ** [apps/orders/models.py] and [apps/payments/models.py] *)

Module Models.

(** [Order.STATUS_CHOICES] *)
Inductive OrderStatus : Type :=
| OPending | OProcessing | OPaid | OShipped | ODelivered | OCancelled | ORefunded.

(** [Payment.STATUS_CHOICES] *)
Inductive PaymentStatus : Type :=
| Pending | Processing | Confirmed | Failed | Expired | Refunded.

(** [Payment.PAYMENT_METHODS] *)
Inductive PaymentMethod : Type :=
| crypto_btc | crypto_eth | crypto_usdt | stripe | paypal.

#[global] Instance OrderStatus_eq_dec : EqDecision OrderStatus.
Proof. solve_decision. Defined.
#[global] Instance PaymentStatus_eq_dec : EqDecision PaymentStatus.
Proof. solve_decision. Defined.
#[global] Instance PaymentMethod_eq_dec : EqDecision PaymentMethod.
Proof. solve_decision. Defined.

(** The columns of [Order] that the payment workflow reads or writes; the
    shipping and totals-breakdown columns are never touched by it.  Rows
    of the table have been saved before, so [order_number] is set and
    [Order.save] does not generate one. *)
Record Order : Type := mkOrder {
  order_user : Z;
  order_number : string;
  order_status : OrderStatus;
  total : Decimal;
  order_updated_at : Z;
  paid_at : option Z
}.

Record Payment : Type := mkPayment {
  order : Z;
  user : Z;
  payment_method : PaymentMethod;
  status : PaymentStatus;
  amount : Decimal;
  currency : string;
  crypto_amount : option Decimal;
  crypto_currency : string;
  wallet_address : string;
  transaction_hash : string;
  confirmations : Z;
  required_confirmations : Z;
  external_id : string;
  created_at : Z;
  updated_at : Z;
  confirmed_at : option Z;
  expires_at : option Z
}.

Record CryptoWallet : Type := mkCryptoWallet {
  payment : Z;
  wallet_currency : string;
  address : string;
  private_key_encrypted : string;
  derivation_path : string;
  is_used : bool;
  wallet_created_at : Z
}.

(** Celery messages sent by the workflow. *)
Inductive Task : Type :=
| monitor_crypto_payment_task (payment_id : Z)
| monitor_transaction_confirmations_task (payment_id countdown : Z)
| send_payment_confirmation_email_task (payment_id : Z).

(** The database tables, keyed by primary key, and the broker queue. *)
Record World : Type := mkWorld {
  orders : gmap Z Order;
  payments : gmap Z Payment;
  wallets : gmap Z CryptoWallet;
  queue : list Task
}.

(** Attribute assignments on model instances. *)
Definition set_status (s : PaymentStatus) (p : Payment) : Payment :=
  mkPayment (order p) (user p) (payment_method p) s (amount p) (currency p)
    (crypto_amount p) (crypto_currency p) (wallet_address p)
    (transaction_hash p) (confirmations p) (required_confirmations p)
    (external_id p) (created_at p) (updated_at p) (confirmed_at p)
    (expires_at p).

Definition set_transaction_hash (h : string) (p : Payment) : Payment :=
  mkPayment (order p) (user p) (payment_method p) (status p) (amount p)
    (currency p) (crypto_amount p) (crypto_currency p) (wallet_address p)
    h (confirmations p) (required_confirmations p) (external_id p)
    (created_at p) (updated_at p) (confirmed_at p) (expires_at p).

Definition set_confirmations (c : Z) (p : Payment) : Payment :=
  mkPayment (order p) (user p) (payment_method p) (status p) (amount p)
    (currency p) (crypto_amount p) (crypto_currency p) (wallet_address p)
    (transaction_hash p) c (required_confirmations p) (external_id p)
    (created_at p) (updated_at p) (confirmed_at p) (expires_at p).

Definition set_confirmed_at (t : option Z) (p : Payment) : Payment :=
  mkPayment (order p) (user p) (payment_method p) (status p) (amount p)
    (currency p) (crypto_amount p) (crypto_currency p) (wallet_address p)
    (transaction_hash p) (confirmations p) (required_confirmations p)
    (external_id p) (created_at p) (updated_at p) t (expires_at p).

Definition set_updated_at (t : Z) (p : Payment) : Payment :=
  mkPayment (order p) (user p) (payment_method p) (status p) (amount p)
    (currency p) (crypto_amount p) (crypto_currency p) (wallet_address p)
    (transaction_hash p) (confirmations p) (required_confirmations p)
    (external_id p) (created_at p) t (confirmed_at p) (expires_at p).

Definition set_order_status (s : OrderStatus) (o : Order) : Order :=
  mkOrder (order_user o) (order_number o) s (total o) (order_updated_at o)
    (paid_at o).

Definition set_paid_at (t : option Z) (o : Order) : Order :=
  mkOrder (order_user o) (order_number o) (order_status o) (total o)
    (order_updated_at o) t.

Definition set_order_updated_at (t : Z) (o : Order) : Order :=
  mkOrder (order_user o) (order_number o) (order_status o) (total o) t
    (paid_at o).

Definition set_is_used (b : bool) (c : CryptoWallet) : CryptoWallet :=
  mkCryptoWallet (payment c) (wallet_currency c) (address c)
    (private_key_encrypted c) (derivation_path c) b (wallet_created_at c).

(** What a column stores.  An [IntegerField] is a 32-bit column; a
    [CharField(max_length=n)] holds at most [n] characters, none of them
    NUL (a [string] stands for a Python [str], one [ascii] per character).
    A [save()] that carries a value outside raises (DataError or
    ValueError from the PostgreSQL driver). *)
Definition integer_field (n : Z) : bool :=
  (-2147483648 <=? n) && (n <=? 2147483647).

Fixpoint no_nul (s : string) : bool :=
  match s with
  | EmptyString => true
  | String c rest => negb (Ascii.eqb c Ascii.zero) && no_nul rest
  end.

Definition char_field (max_length : nat) (s : string) : bool :=
  (String.length s <=? max_length)%nat && no_nul s.

(** The two columns of [Payment] that receive values from a request body:
    [transaction_hash = CharField(max_length=200)] and
    [confirmations = IntegerField()]. *)
Definition payment_fits_columns (p : Payment) : bool :=
  char_field 200 (transaction_hash p) && integer_field (confirmations p).

(** [payment.save()]: writes every column of the instance to its row;
    [updated_at] is [auto_now]. *)
Definition save_payment (now id : Z) (p : Payment) (w : World) : World :=
  mkWorld (orders w) (<[ id := set_updated_at now p ]> (payments w))
    (wallets w) (queue w).

(** [order.save()] *)
Definition save_order (now id : Z) (o : Order) (w : World) : World :=
  mkWorld (<[ id := set_order_updated_at now o ]> (orders w)) (payments w)
    (wallets w) (queue w).

(** [task.delay(...)] / [task.apply_async(...)] *)
Definition send_task (t : Task) (w : World) : World :=
  mkWorld (orders w) (payments w) (wallets w) (queue w ++ [t]).

(** [order.payment], the reverse accessor of the one-to-one field
    [Payment.order]: the payment row that references the order, if any
    ([hasattr(order, 'payment')] is false when there is none). *)
Definition order_payment (oid : Z) (w : World) : option (Z * Payment) :=
  head (map_to_list (filter (fun kv : Z * Payment => order kv.2 = oid) (payments w))).

(** [payment.wallets.update(is_used=b)]: one UPDATE over the wallets whose
    foreign key is the payment. *)
Definition update_wallets_is_used (pid : Z) (b : bool) (w : World) : World :=
  mkWorld (orders w) (payments w)
    ((fun c => if decide (payment c = pid) then set_is_used b c else c) <$> wallets w)
    (queue w).

End Models.

Import Models.

(** ** [apps/payments/api.py] *)

Module Api.

(** A handler's outcome: the JSON body of a 200 response, or the status
    code and [detail] of an error response (422 for a request body the
    schema refuses, 500 for an exception that leaves the handler). *)
Inductive Response (A : Type) : Type :=
| Ok (body : A)
| Error (code : Z) (detail : string).
Arguments Ok {A} body.
Arguments Error {A} code detail.

Record PaymentInitiateSchema : Type := mkPaymentInitiate {
  order_id : Z;
  pi_payment_method : PaymentMethod
}.

Record CryptoPaymentResponseSchema : Type := mkCryptoPaymentResponse {
  r_payment_id : Z;
  r_order_number : string;
  r_amount_eur : Decimal;
  r_crypto_amount : Decimal;
  r_crypto_currency : string;
  r_wallet_address : string;
  r_expires_at : Z
}.

Record WebhookPayloadSchema : Type := mkWebhookPayload {
  payment_id : Z;
  wh_transaction_hash : string;
  wh_confirmations : Z;
  wh_amount : Decimal;
  from_address : string
}.

(** The dictionary [processor.generate_wallet()] returns; the Ethereum
    processor gives no ['derivation_path']. *)
Record WalletData : Type := mkWalletData {
  wd_address : string;
  wd_private_key : string;
  wd_derivation_path : option string
}.

(** Which processor a payment method selects, and the currency code. *)
Inductive Processor : Type := BitcoinProcessor | EthereumProcessor.

Definition select_processor (m : PaymentMethod) : option (Processor * string) :=
  match m with
  | crypto_btc => Some (BitcoinProcessor, "BTC"%string)
  | crypto_eth => Some (EthereumProcessor, "ETH"%string)
  | crypto_usdt => Some (EthereumProcessor, "USDT"%string)
  | _ => None
  end.

Definition calculate_crypto_amount (p : Processor) (eur_amount : Decimal)
  : option Decimal :=
  match p with
  | BitcoinProcessor => BitcoinPaymentProcessor.calculate_crypto_amount eur_amount
  | EthereumProcessor => EthereumPaymentProcessor.calculate_crypto_amount eur_amount
  end.

(** [Payment.objects.create(...)] as called by [initiate_payment]: column
    defaults filled in, a fresh primary key, and the UNIQUE constraint of
    the one-to-one column [order] checked ([None] is IntegrityError). *)
Definition create_payment (now oid uid : Z) (m : PaymentMethod)
    (total_eur crypto : Decimal) (cur addr : string) (w : World)
  : option (Z * Payment * World) :=
  match order_payment oid w with
  | Some _ => None
  | None =>
      let id := fresh (dom (payments w)) in
      let p := mkPayment oid uid m Pending total_eur "EUR" (Some crypto) cur
                 addr "" 0 3 "" now now None (Some (now + 30 * 60)) in
      Some (id, p, mkWorld (orders w) (<[ id := p ]> (payments w)) (wallets w) (queue w))
  end.

(** [CryptoWallet.objects.create(...)]; [address] is UNIQUE. *)
Definition create_wallet (now pid : Z) (cur : string) (wd : WalletData)
    (w : World) : option World :=
  if decide (map_Exists (fun _ c => address c = wd_address wd) (wallets w))
  then None
  else
    let id := fresh (dom (wallets w)) in
    let c := mkCryptoWallet pid cur (wd_address wd) (wd_private_key wd)
               (default ""%string (wd_derivation_path wd)) false now in
    Some (mkWorld (orders w) (payments w) (<[ id := c ]> (wallets w)) (queue w)).

(** [PaymentInitiateSchema.payment_method] is a [Literal] of the three
    crypto methods: a body with another method is refused before the view
    runs. *)
Definition schema_accepts (m : PaymentMethod) : bool :=
  match m with
  | crypto_btc | crypto_eth | crypto_usdt => true
  | stripe | paypal => false
  end.

(** [initiate_payment], under [@transaction.atomic]: an exception rolls
    every write back and surfaces as a 500.  [auth] is [request.auth],
    [wallet_data] what [processor.generate_wallet()] returned, [now] the
    clock (in seconds).  The two early returns call
    [router.create_response], which [ninja.Router] does not have: they
    raise AttributeError and are answered with a 500 as well.  The QR
    image is a rendering of the response fields and is left out. *)
Definition initiate_payment (now auth : Z) (data : PaymentInitiateSchema)
    (wallet_data : WalletData) (w : World)
  : Response CryptoPaymentResponseSchema * World :=
  if negb (schema_accepts (pi_payment_method data))
  then (Error 422 "Unprocessable Entity", w)
  else
  match orders w !! order_id data with
  | None => (Error 404 "Not Found", w)
  | Some o =>
    if negb (bool_decide (order_user o = auth)) then (Error 404 "Not Found", w)
    else
      let has_active_payment :=
        match order_payment (order_id data) w with
        | Some (_, p) => negb (bool_decide (status p = Failed))
        | None => false
        end in
      if has_active_payment
      then (Error 500 "Internal Server Error", w)
      else
        match select_processor (pi_payment_method data) with
        | None => (Error 500 "Internal Server Error", w)
        | Some (processor, crypto_currency) =>
          match calculate_crypto_amount processor (total o) with
          | None => (Error 500 "Internal Server Error", w)
          | Some crypto =>
            match create_payment now (order_id data) auth (pi_payment_method data)
                    (total o) crypto crypto_currency (wd_address wallet_data) w with
            | None => (Error 500 "Internal Server Error", w)
            | Some (pid, p, w1) =>
              match create_wallet now pid crypto_currency wallet_data w1 with
              | None => (Error 500 "Internal Server Error", w)
              | Some w2 =>
                (Ok (mkCryptoPaymentResponse pid (order_number o) (total o) crypto
                       crypto_currency (wd_address wallet_data) (now + 30 * 60)),
                 send_task (monitor_crypto_payment_task pid) w2)
              end
            end
          end
        end
  end.

(** The block shared by the webhook and the confirmation task once the
    threshold is reached:
    [payment.status = 'confirmed'; payment.confirmed_at = now;
     payment.order.status = 'paid'; payment.order.paid_at = now;
     payment.order.save(); send_payment_confirmation_email.delay(id)].
    [None] when [payment.order] cannot be loaded (an exception). *)
Definition mark_confirmed (now id : Z) (p : Payment) (w : World)
  : option (Payment * World) :=
  o ← orders w !! order p;
  Some (set_confirmed_at (Some now) (set_status Confirmed p),
        send_task (send_payment_confirmation_email_task id)
          (save_order now (order p)
             (set_paid_at (Some now) (set_order_status OPaid o)) w)).

(** The [payment.save()] that ends the webhook's [try] block: it raises
    when the assigned hash or count does not fit its column. *)
Definition webhook_save (now id : Z) (p : Payment) (w : World)
  : Response bool * World :=
  if payment_fits_columns p
  then (Ok true, save_payment now id p w)
  else (Error 500 "Internal Server Error", w).

(** [payment_webhook].  The view is not atomic: what was saved and queued
    before an exception stays.  Both [except] clauses call
    [router.create_response], which [ninja.Router] does not have, so every
    exception of the [try] block (unknown payment, failing [save()]) ends
    in AttributeError and is answered with a 500. *)
Definition payment_webhook (now : Z) (provider : string)
    (data : WebhookPayloadSchema) (w : World) : Response bool * World :=
  match payments w !! payment_id data with
  | None => (Error 500 "Internal Server Error", w)
  | Some p =>
    let p := set_transaction_hash (wh_transaction_hash data) p in
    let p := set_confirmations (wh_confirmations data) p in
    if required_confirmations p <=? wh_confirmations data then
      match mark_confirmed now (payment_id data) p w with
      | None => (Error 500 "Internal Server Error", w)
      | Some (p, w) => webhook_save now (payment_id data) p w
      end
    else webhook_save now (payment_id data) p w
  end.

Record PaymentStatusSchema : Type := mkPaymentStatus {
  s_payment_id : Z;
  s_status : PaymentStatus;
  s_confirmations : Z;
  s_required_confirmations : Z;
  s_transaction_hash : string;
  s_confirmed_at : option Z
}.

(** [get_payment_status]: [get_object_or_404(Payment, id=payment_id,
    user=request.auth)], then the row's columns. *)
Definition get_payment_status (auth payment_id : Z) (w : World)
  : Response PaymentStatusSchema :=
  match payments w !! payment_id with
  | None => Error 404 "Not Found"
  | Some p =>
      if bool_decide (user p = auth)
      then Ok (mkPaymentStatus payment_id (status p) (confirmations p)
                 (required_confirmations p) (transaction_hash p) (confirmed_at p))
      else Error 404 "Not Found"
  end.

End Api.

(** ** [apps/payments/tasks.py] *)

Module Tasks.

(** The head of [monitor_crypto_payment]: the instance the task loads and
    keeps while [processor.monitor_address] polls the ledger; [None] when
    the task returns at once (unknown id, not pending, or expired; a
    payment without [expires_at] makes the comparison raise, which is
    logged and the task is re-queued by its handler). *)
Definition monitor_crypto_payment (now payment_id : Z) (w : World)
  : option Payment * World :=
  match payments w !! payment_id with
  | None => (None, w)
  | Some p =>
    if negb (bool_decide (status p = Pending)) then (None, w)
    else
      match expires_at p with
      | None => (None, send_task (monitor_crypto_payment_task payment_id) w)
      | Some t => if t <? now then (None, w) else (Some p, w)
      end
  end.

(** The callback [payment_detected(tx_hash)] of [monitor_crypto_payment],
    run on the instance [p] the task loaded when it started.  It is a
    coroutine awaited inside [loop.run_until_complete], so its
    [payment.save()] is a database call under a running event loop and
    raises SynchronousOnlyOperation: the two assignments stay on the
    instance in memory, no row is written and the confirmation task is not
    queued.  The result is the database and the queue after the call. *)
Definition payment_detected (now payment_id : Z) (p : Payment)
    (tx_hash : string) (w : World) : World := w.

(** [monitor_transaction_confirmations]; [tx_info] is the confirmation
    count in what [processor.check_transaction] returned ([None] when it
    returned [None]): a depth in the chain, which fits the column. *)
Definition monitor_transaction_confirmations (now payment_id : Z)
    (tx_info : option Z) (w : World) : World :=
  match payments w !! payment_id with
  | None => w
  | Some p =>
    if negb (bool_decide (status p = Processing))
       || bool_decide (transaction_hash p = ""%string)
    then w
    else
      match tx_info with
      | None => w
      | Some confs =>
        let p := set_confirmations confs p in
        if required_confirmations p <=? confs then
          match Api.mark_confirmed now payment_id p w with
          | None => w
          | Some (p, w) => save_payment now payment_id p w
          end
        else
          send_task (monitor_transaction_confirmations_task payment_id 60)
            (save_payment now payment_id p w)
      end
  end.

(** The filter [status='pending', expires_at__lt=now] of
    [check_expired_payments] (a NULL [expires_at] never matches). *)
Definition is_expired_pending (now : Z) (p : Payment) : bool :=
  bool_decide (status p = Pending)
  && match expires_at p with Some t => t <? now | None => false end.

Definition expired_payments (now : Z) (w : World) : list (Z * Payment) :=
  map_to_list (filter (fun kv : Z * Payment => is_expired_pending now kv.2 = true)
                      (payments w)).

(** The body of the [for payment in expired_payments] loop. *)
Definition expire_payment (now : Z) (w : World) (kv : Z * Payment) : World :=
  update_wallets_is_used kv.1 false
    (save_payment now kv.1 (set_status Expired kv.2) w).

(** [check_expired_payments].  The rows are visited in key order rather
    than by [-created_at]; each step writes only its own payment row and
    that payment's wallets, so the order does not show in the result. *)
Definition check_expired_payments (now : Z) (w : World) : World :=
  foldl (expire_payment now) w (expired_payments now w).

(** The two ledgers as the processors query them. *)
Record Ledger : Type := mkLedger {
  btc_gettransaction : string -> option BitcoinPaymentProcessor.LedgerTransaction;
  eth_block_number : Z;
  eth_get_transaction : string -> option EthereumPaymentProcessor.LedgerTransaction;
  eth_get_transaction_receipt : string -> option EthereumPaymentProcessor.Receipt
}.

(** The processor choice of the tasks ([crypto_currency == 'BTC'] or not)
    followed by [processor.check_transaction(tx_hash)]; of the dictionary
    only ['confirmations'] is read by the caller. *)
Definition check_transaction (ledger : Ledger) (crypto_currency tx_hash : string)
  : option Z :=
  if bool_decide (crypto_currency = "BTC"%string)
  then BitcoinPaymentProcessor.info_confirmations
         <$> BitcoinPaymentProcessor.check_transaction (btc_gettransaction ledger tx_hash)
  else EthereumPaymentProcessor.info_confirmations
         <$> EthereumPaymentProcessor.check_transaction (eth_block_number ledger)
               (eth_get_transaction ledger tx_hash)
               (eth_get_transaction_receipt ledger tx_hash).

(** [monitor_transaction_confirmations] with its ledger query: the task as
    Celery runs it. *)
Definition run_monitor_transaction_confirmations (ledger : Ledger)
    (now payment_id : Z) (w : World) : World :=
  match payments w !! payment_id with
  | None => w
  | Some p =>
      monitor_transaction_confirmations now payment_id
        (check_transaction ledger (crypto_currency p) (transaction_hash p)) w
  end.

(** The processor choice of both tasks: [BitcoinPaymentProcessor] when
    [crypto_currency == 'BTC'], [EthereumPaymentProcessor] otherwise. *)
Definition task_processor (crypto_currency : string) : Api.Processor :=
  if bool_decide (crypto_currency = "BTC"%string)
  then Api.BitcoinProcessor else Api.EthereumProcessor.

(** One pass of [processor.monitor_address(payment.wallet_address,
    payment.crypto_amount, payment_detected)] for the processor
    [monitor_crypto_payment] chose: over the transactions listed for the
    address (Bitcoin) or over the newly mined blocks (Ethereum); the hash
    handed to the callback, if any. *)
Definition watcher_pass (crypto_currency address : string)
    (expected_amount : Decimal) (checked_txs : gset string)
    (txs : list BitcoinPaymentProcessor.Transaction)
    (new_blocks : list (list EthereumPaymentProcessor.Transaction))
  : option string :=
  match task_processor crypto_currency with
  | Api.BitcoinProcessor =>
      (BitcoinPaymentProcessor.monitor_address_pass address expected_amount
         checked_txs txs).1
  | Api.EthereumProcessor =>
      EthereumPaymentProcessor.monitor_address_pass address expected_amount new_blocks
  end.

(** What [monitor_crypto_payment] makes of a pass that hands [tx_hash] to
    the callback.  The Bitcoin processor awaits the callback inside the
    [try] of its polling loop: the callback's exception is logged there and
    the loop goes on, the transaction staying in [checked_txs].  The
    Ethereum processor has no [try]: the exception leaves
    [monitor_address] and reaches the [except Exception] of the task,
    which queues the task again. *)
Definition monitor_crypto_payment_detection (now payment_id : Z) (p : Payment)
    (tx_hash : string) (w : World) : World :=
  let w := payment_detected now payment_id p tx_hash w in
  match task_processor (crypto_currency p) with
  | Api.BitcoinProcessor => w
  | Api.EthereumProcessor => send_task (monitor_crypto_payment_task payment_id) w
  end.

(** [send_payment_confirmation_email]: loads the payment and writes a log
    line; no row and no queue entry changes. *)
Definition send_payment_confirmation_email (payment_id : Z) (w : World) : World := w.

End Tasks.

Import Api Tasks.

(** ** The specification's arithmetic, over the rationals *)

Module Spec.

(** The integer nearest to [q], the even one of the two when [q] lies
    half-way. *)
Definition Qround_half_even (q : Q) : Z :=
  let f := Qfloor q in
  match Qcompare (q - inject_Z f) (1 # 2) with
  | Lt => f
  | Gt => f + 1
  | Eq => if Z.even f then f else f + 1
  end.

(** [round(q, places)] as a decimal with [places] fractional digits. *)
Definition round_places (q : Q) (places : Z) : Decimal :=
  let z := Qround_half_even (q * inject_Z (10 ^ places)) in
  mkDecimal (z <? 0) (Z.abs z) (- places).

(** [crypto_amount = round(fiat_total / spot_price, currency_precision)] *)
Definition crypto_amount (fiat_total spot_price : Decimal) (precision : Z)
  : Decimal :=
  round_places (to_Q fiat_total / to_Q spot_price) precision.

(** [received >= expected_amount * (1 - tolerance)], tolerance = 1%. *)
Definition within_tolerance (received expected_amount : Q) : Prop :=
  (expected_amount * (1 - (1 # 100)) <= received)%Q.

(** A ledger value in the currency's unit: satoshi and wei. *)
Definition btc_of_satoshi (value : Z) : Q := value # 100000000.
Definition eth_of_wei (value : Z) : Q := value # 1000000000000000000.

End Spec.

Module ProcessorFacts.

(** The spot price and the rounding precision that go with a processor. *)
Definition spot_price (p : Api.Processor) : Decimal :=
  match p with
  | Api.BitcoinProcessor => BitcoinPaymentProcessor.get_btc_price
  | Api.EthereumProcessor => EthereumPaymentProcessor.get_eth_price
  end.

Definition currency_precision (p : Api.Processor) : Z :=
  match p with
  | Api.BitcoinProcessor => 8
  | Api.EthereumProcessor => 6
  end.

End ProcessorFacts.

(** ** Vocabulary of the statements, and a worked scenario *)

Module Facts.

(** The order row [mark_confirmed] saves. *)
Definition paid_order (now : Z) (o : Order) : Order :=
  set_order_updated_at now (set_paid_at (Some now) (set_order_status OPaid o)).

(** The payment row a webhook delivery saves. *)
Definition webhook_row (now : Z) (data : WebhookPayloadSchema) (p : Payment)
  : Payment :=
  let p := set_confirmations (wh_confirmations data)
             (set_transaction_hash (wh_transaction_hash data) p) in
  if required_confirmations p <=? wh_confirmations data
  then set_updated_at now (set_confirmed_at (Some now) (set_status Confirmed p))
  else set_updated_at now p.

(** The payload's hash and count fit the columns they are assigned to. *)
Definition payload_fits (data : WebhookPayloadSchema) : bool :=
  char_field 200 (wh_transaction_hash data) && integer_field (wh_confirmations data).

(** The three tables agree (the task queue may differ). *)
Definition same_tables (w w' : World) : Prop :=
  orders w = orders w' /\ payments w = payments w' /\ wallets w = wallets w'.

(** Going from [w] to [w'], no wallet acquires [is_used = True]. *)
Definition no_wallet_marked_used (w w' : World) : Prop :=
  forall k c', wallets w' !! k = Some c' -> is_used c' = true ->
    wallets w !! k = Some c'.

(** The wallets of one payment. *)
Definition wallets_of (pid : Z) (w : World) : gmap Z CryptoWallet :=
  filter (fun kc : Z * CryptoWallet => payment kc.2 = pid) (wallets w).

(** A row with its timestamps blanked: what is left is the state proper. *)
Definition forget_payment_times (p : Payment) : Payment :=
  set_updated_at 0 (set_confirmed_at None p).

Definition forget_order_times (o : Order) : Order :=
  set_order_updated_at 0 (set_paid_at None o).

(** Order statuses from ['paid'] onwards. *)
Definition paid_or_beyond (s : OrderStatus) : Prop :=
  s = OPaid \/ s = OShipped \/ s = ODelivered.

End Facts.

Module Scenario.

(** One customer (user 7) with one order of EUR 49.00, paying in BTC. *)
Definition order1 : Order :=
  mkOrder 7 "ORD-1A2B3C4D" OPending (mkDecimal false 4900 (-2)) 0 None.

Definition w_order : World := mkWorld {[ 1 := order1 ]} ∅ ∅ [].

Definition wallet1 : WalletData :=
  mkWalletData "tb1qreceive" "wif" (Some "m/84'/1'/0'/0/1"%string).

Definition wallet2 : WalletData :=
  mkWalletData "tb1qretry" "wif2" (Some "m/84'/1'/0'/0/2"%string).

Definition request1 : PaymentInitiateSchema := mkPaymentInitiate 1 crypto_btc.

(** The payment is initiated at t = 0 and gets primary key [pid]. *)
Definition w_initiated : World :=
  (initiate_payment 0 7 request1 wallet1 w_order).2.

Definition pid : Z := fresh (dom (payments w_order)).

Definition payload (tx_hash : string) (confs : Z) : WebhookPayloadSchema :=
  mkWebhookPayload pid tx_hash confs (mkDecimal false 141000 (-8)) "tb1qsender".

(** The payment's row, up to the columns that change in the scenario. *)
Definition row (st : PaymentStatus) (tx_hash : string) (confs updated : Z)
    (confirmed : option Z) : Payment :=
  mkPayment 1 7 crypto_btc st (mkDecimal false 4900 (-2)) "EUR"
    (Some (mkDecimal false 140000 (-8))) "BTC" "tb1qreceive" tx_hash confs 3 ""
    0 updated confirmed (Some 1800).

(** A webhook reports transaction 0xabc with one, then two confirmations. *)
Definition w_seen : World :=
  (payment_webhook 60 "provider" (payload "0xabc" 1) w_initiated).2.

Definition w_seen_twice : World :=
  (payment_webhook 120 "provider" (payload "0xabc" 2) w_seen).2.

(** The sweep runs 31 minutes after initiation. *)
Definition w_swept : World := check_expired_payments 1860 w_seen.

(** Instead, the payment's row is put in status processing with
    transaction 0xabc at t = 60 and the confirmation task is queued (by an
    operator: the watcher's callback stores nothing). *)
Definition w_processing : World :=
  send_task (monitor_transaction_confirmations_task pid 0)
    (save_payment 60 pid
       (set_status Processing (set_transaction_hash "0xabc" (row Pending "" 0 0 None)))
       w_initiated).

(** Instead, a webhook reports three confirmations at t = 100. *)
Definition w_confirmed : World :=
  (payment_webhook 100 "provider" (payload "0xabc" 3) w_initiated).2.

(** Fulfilment (outside the payment workflow) ships the paid order. *)
Definition w_shipped : World :=
  mkWorld (alter (set_order_status OShipped) 1 (orders w_confirmed))
    (payments w_confirmed) (wallets w_confirmed) (queue w_confirmed).

(** Instead, an operator fails the pending payment. *)
Definition w_failed : World :=
  mkWorld (orders w_initiated) (alter (set_status Failed) pid (payments w_initiated))
    (wallets w_initiated) (queue w_initiated).

End Scenario.

(** ** Vocabulary of the further properties *)

Module Invariants.

(** The one-to-one column [Payment.order]: no two payment rows reference
    the same order. *)
Definition one_payment_per_order (w : World) : Prop :=
  forall i j p q, payments w !! i = Some p -> payments w !! j = Some q ->
    order p = order q -> i = j.

(** A payment row with the five columns blanked that the webhook and the
    tasks write ([status], [transaction_hash], [confirmations],
    [updated_at], [confirmed_at]). *)
Definition fixed_columns (p : Payment) : Payment :=
  set_status Pending
    (set_transaction_hash ""
       (set_confirmations 0 (set_updated_at 0 (set_confirmed_at None p)))).

(** An order row with [status], [paid_at] and [updated_at] blanked. *)
Definition fixed_order_columns (o : Order) : Order :=
  set_order_status OPending (set_paid_at None (set_order_updated_at 0 o)).

(** No payment row is in status processing. *)
Definition no_processing (w : World) : Prop :=
  forall i p, payments w !! i = Some p -> status p <> Processing.

(** What the expiry sweep does to one payment row and to one wallet row. *)
Definition sweep_row (now : Z) (p : Payment) : Payment :=
  if is_expired_pending now p then set_updated_at now (set_status Expired p) else p.

Definition sweep_wallet (now : Z) (w : World) (c : CryptoWallet) : CryptoWallet :=
  match payments w !! payment c with
  | Some p => if is_expired_pending now p then set_is_used false c else c
  | None => c
  end.

End Invariants.

Module LedgerScenario.

(** An account-style ledger whose head is block 105 and which holds
    transaction 0xabc, mined in block 100 but reverted (status 0). *)
Definition ledger105 : Ledger :=
  mkLedger (fun _ => None) 105
    (fun h => if bool_decide (h = "0xabc"%string)
              then Some (EthereumPaymentProcessor.mkLedgerTransaction
                           "0xsender" (Some "0xReceive"%string) 19600000000000000)
              else None)
    (fun h => if bool_decide (h = "0xabc"%string)
              then Some (EthereumPaymentProcessor.mkReceipt 100 0)
              else None).

(** A processing ETH payment (id 5, order 2) for transaction 0xabc. *)
Definition eth_row : Payment :=
  mkPayment 2 7 crypto_eth Processing (mkDecimal false 4900 (-2)) "EUR"
    (Some (mkDecimal false 19600 (-6))) "ETH" "0xReceive" "0xabc" 0 3 ""
    0 60 None (Some 1800).

Definition w_eth : World :=
  mkWorld {[ 2 := mkOrder 7 "ORD-5E6F7A8B" OPending (mkDecimal false 4900 (-2)) 0 None ]}
    {[ 5 := eth_row ]} ∅ [].

(** Three Bitcoin transactions as an explorer lists them for the address
    of the scenario: one to another address, one paying 0.00138 BTC (short
    of 99% of 0.0014), one paying 0.00141 BTC. *)
Definition btc_txs : list BitcoinPaymentProcessor.Transaction :=
  [ BitcoinPaymentProcessor.mkTransaction "aa"
      [BitcoinPaymentProcessor.mkOutput "tb1qother" 500000];
    BitcoinPaymentProcessor.mkTransaction "bb"
      [BitcoinPaymentProcessor.mkOutput "tb1qreceive" 138000];
    BitcoinPaymentProcessor.mkTransaction "cc"
      [BitcoinPaymentProcessor.mkOutput "tb1qchange" 77000;
       BitcoinPaymentProcessor.mkOutput "tb1qreceive" 141000] ].

(** The same ledger before 0xabc is mined: the transaction is known to
    the node, its receipt is not. *)
Definition ledger_pending : Ledger :=
  mkLedger (fun _ => None) 105
    (fun h => if bool_decide (h = "0xabc"%string)
              then Some (EthereumPaymentProcessor.mkLedgerTransaction
                           "0xsender" (Some "0xReceive"%string) 19600000000000000)
              else None)
    (fun _ => None).

(** A UTXO-style ledger on which 0xabc has two confirmations. *)
Definition ledger_btc : Ledger :=
  mkLedger (fun h => if bool_decide (h = "0xabc"%string)
                     then Some (BitcoinPaymentProcessor.mkLedgerTransaction 2 141000 200)
                     else None)
    0 (fun _ => None) (fun _ => None).

(** The customer of the scenario pays order 1 in USDT instead. *)
Definition request_usdt : PaymentInitiateSchema := mkPaymentInitiate 1 crypto_usdt.

Definition wallet_eth : WalletData := mkWalletData "0xReceive" "key" None.

Definition w_usdt : World :=
  (initiate_payment 0 7 request_usdt wallet_eth Scenario.w_order).2.

End LedgerScenario.

(** * Properties *)

(** ** Decimal arithmetic *)

Section DecimalFacts.

Lemma pow10_pos (k : Z) : 0 <= k -> 0 < 10 ^ k.
Proof. intros; apply Z.pow_pos_nonneg; lia. Qed.

Lemma pow10_succ (k : Z) : 0 <= k -> 10 ^ (k + 1) = 10 * 10 ^ k.
Proof. intros; rewrite Z.pow_add_r by lia; lia. Qed.

Lemma pow10_le (a b : Z) : 0 <= a <= b -> 10 ^ a <= 10 ^ b.
Proof. intros; apply Z.pow_le_mono_r; lia. Qed.

Lemma pow10_lt (a b : Z) : 0 <= a < b -> 10 ^ a < 10 ^ b.
Proof. intros; apply Z.pow_lt_mono_r; lia. Qed.

Lemma pow10_split (a b : Z) : 0 <= a -> 0 <= b -> 10 ^ (a + b) = 10 ^ a * 10 ^ b.
Proof. intros; apply Z.pow_add_r; lia. Qed.

Lemma ndigits_fuel_pos (f : nat) (n : Z) : 1 <= ndigits_fuel f n.
Proof.
  revert n; induction f as [|f IH]; intros n; simpl; [lia|].
  destruct (n <? 10); [lia|]. specialize (IH (n / 10)); lia.
Qed.

Lemma ndigits_fuel_spec (f : nat) :
  forall n, 0 < n -> n < 10 * 8 ^ Z.of_nat f ->
    10 ^ (ndigits_fuel f n - 1) <= n < 10 ^ ndigits_fuel f n.
Proof.
  induction f as [|f IH]; intros n Hpos Hlt.
  - simpl in *. lia.
  - cbn [ndigits_fuel]. destruct (Z.ltb_spec n 10) as [Hs|Hs].
    + simpl. lia.
    + assert (H8 : 8 ^ Z.of_nat (S f) = 8 * 8 ^ Z.of_nat f).
      { rewrite Nat2Z.inj_succ, Z.pow_succ_r by lia. reflexivity. }
      assert (H8pos : 0 < 8 ^ Z.of_nat f) by (apply Z.pow_pos_nonneg; lia).
      pose proof (Z.div_mod n 10 ltac:(lia)) as Hdm.
      pose proof (Z.mod_pos_bound n 10 ltac:(lia)) as Hmb.
      destruct (IH (n / 10)) as [Hlo Hhi]; [lia | lia |].
      pose proof (ndigits_fuel_pos f (n / 10)) as Hd.
      set (d := ndigits_fuel f (n / 10)) in *.
      replace (1 + d - 1) with ((d - 1) + 1) by lia.
      replace (1 + d) with (d + 1) by lia.
      rewrite !pow10_succ by lia. lia.
Qed.

(** [ndigits] counts decimal digits. *)
Lemma ndigits_spec (n : Z) :
  0 < n -> 1 <= ndigits n /\ 10 ^ (ndigits n - 1) <= n < 10 ^ ndigits n.
Proof.
  intros Hpos. unfold ndigits. split; [apply ndigits_fuel_pos|].
  apply ndigits_fuel_spec; [lia|].
  destruct (Z.log2_spec n Hpos) as [_ Hhi].
  pose proof (Z.log2_nonneg n) as Hnn.
  rewrite Z2Nat.id by lia.
  rewrite Z.pow_succ_r in Hhi by lia.
  assert (2 ^ Z.log2 n <= 8 ^ Z.log2 n) by (apply Z.pow_le_mono_l; lia).
  lia.
Qed.

Lemma ndigits_unique (n k : Z) :
  1 <= k -> 10 ^ (k - 1) <= n < 10 ^ k -> ndigits n = k.
Proof.
  intros Hk [Hlo Hhi].
  assert (Hpos : 0 < n) by (pose proof (pow10_pos (k - 1)); lia).
  destruct (ndigits_spec n Hpos) as (Hd & Hdlo & Hdhi).
  destruct (Z.lt_trichotomy (ndigits n) k) as [Hc|[Hc|Hc]]; [|exact Hc|].
  - pose proof (pow10_le (ndigits n) (k - 1)); lia.
  - pose proof (pow10_le k (ndigits n - 1)); lia.
Qed.

Lemma ndigits_le (n k : Z) : 0 <= k -> 0 < n < 10 ^ k -> ndigits n <= k.
Proof.
  intros Hk [Hpos Hlt].
  destruct (ndigits_spec n Hpos) as (Hd & Hdlo & _).
  destruct (Z.le_gt_cases (ndigits n) k) as [Hc|Hc]; [exact Hc|].
  pose proof (pow10_le k (ndigits n - 1)); lia.
Qed.

Lemma ndigits_small (n : Z) : n < 10 -> ndigits n = 1.
Proof.
  intros Hn. unfold ndigits. destruct (Z.to_nat (Z.log2 n)); simpl; [reflexivity|].
  destruct (Z.ltb_spec n 10); [reflexivity | lia].
Qed.

(** *** Rounding to nearest, ties to even *)

Lemma round_half_even_cases (x d : Z) :
  0 < d ->
  let q := x / d in let r := x mod d in
  (2 * r < d /\ round_half_even x d = q)
  \/ (d < 2 * r /\ round_half_even x d = q + 1)
  \/ (2 * r = d /\ round_half_even x d = (if Z.even q then q else q + 1)).
Proof.
  intros Hd q r. unfold round_half_even. fold q r.
  destruct (Z.ltb_spec (2 * r) d); [left; auto|].
  destruct (Z.ltb_spec d (2 * r)); [right; left; auto|].
  right; right; split; [lia | reflexivity].
Qed.

(** The result is within half a unit of the exact quotient, and even when
    exactly half a unit away. *)
Lemma round_half_even_spec (x d : Z) :
  0 < d ->
  let z := round_half_even x d in
  - d < 2 * (x - d * z) < d
  \/ ((2 * (x - d * z) = d \/ 2 * (x - d * z) = - d) /\ Z.even z = true).
Proof.
  intros Hd z. subst z.
  pose proof (Z.div_mod x d ltac:(lia)) as Hdm.
  pose proof (Z.mod_pos_bound x d Hd) as Hmb.
  destruct (round_half_even_cases x d Hd) as [[H ->]|[[H ->]|[H ->]]].
  - left; lia.
  - left; lia.
  - right. destruct (Z.even (x / d)) eqn:He.
    + split; [left; lia | exact He].
    + split; [right; lia|].
      rewrite Z.even_add, He. reflexivity.
Qed.

Lemma round_half_even_unique (x d z : Z) :
  0 < d ->
  - d < 2 * (x - d * z) < d
  \/ ((2 * (x - d * z) = d \/ 2 * (x - d * z) = - d) /\ Z.even z = true) ->
  round_half_even x d = z.
Proof.
  intros Hd Hz.
  pose proof (Z.div_mod x d ltac:(lia)) as Hdm.
  pose proof (Z.mod_pos_bound x d Hd) as Hmb.
  set (q := x / d) in *. set (r := x mod d) in *.
  assert (Hq : z = q \/ z = q + 1) by nia.
  destruct (round_half_even_cases x d Hd) as [[H E]|[[H E]|[H E]]];
    fold q r in H, E; rewrite E; clear E.
  - destruct Hq as [->| ->]; [reflexivity | nia].
  - destruct Hq as [->| ->]; [nia | reflexivity].
  - destruct Hz as [Hz|[Hz He]]; [nia|].
    destruct Hq as [->| ->].
    + rewrite He. reflexivity.
    + rewrite Z.even_add in He. destruct (Z.even q); [discriminate | reflexivity].
Qed.

Lemma round_half_even_exact (d z : Z) : 0 < d -> round_half_even (d * z) d = z.
Proof. intros Hd. apply round_half_even_unique; [exact Hd | left; lia]. Qed.

Lemma round_half_even_scale (x d k : Z) :
  0 < d -> 0 < k -> round_half_even (x * k) (d * k) = round_half_even x d.
Proof.
  intros Hd Hk. apply round_half_even_unique; [nia|].
  destruct (round_half_even_spec x d Hd) as [H|[[H|H] He]].
  - left; nia.
  - right; split; [left; nia | exact He].
  - right; split; [right; nia | exact He].
Qed.

Lemma round_half_even_nonneg (x d : Z) : 0 <= x -> 0 < d -> 0 <= round_half_even x d.
Proof.
  intros Hx Hd. pose proof (Z.div_pos x d Hx Hd).
  destruct (round_half_even_cases x d Hd) as [[_ ->]|[[_ ->]|[_ ->]]];
    [lia | lia | destruct (Z.even _); lia].
Qed.

(** Rounding twice is rounding once when the first rounding keeps more
    digits than the divisor has: [T] is the (even) scale of the first
    rounding. *)
Lemma round_half_even_twice (A m T : Z) :
  0 < m < T -> Z.even T = true ->
  round_half_even (round_half_even (A * T) m) T = round_half_even A m.
Proof.
  intros [Hm HT] HTe.
  apply round_half_even_unique; [lia|].
  set (z := round_half_even A m).
  set (c := round_half_even (A * T) m).
  destruct (Z.even_spec T) as [HT2 _]. destruct (HT2 HTe) as [h Hh]. clear HT2.
  destruct (round_half_even_spec A m Hm) as [Hz|[Hz He]]; fold z in Hz |- *.
  - left.
    destruct (round_half_even_spec (A * T) m Hm) as [Hc|[Hc _]]; fold c in Hc; nia.
  - fold z in He. right. split; [|exact He].
    assert (Hc : c = h * (2 * z + 1) \/ c = h * (2 * z - 1)).
    { destruct Hz as [Hz|Hz]; [left|right]; unfold c.
      - replace (A * T) with (m * (h * (2 * z + 1))) by nia.
        apply round_half_even_exact; lia.
      - replace (A * T) with (m * (h * (2 * z - 1))) by nia.
        apply round_half_even_exact; lia. }
    destruct Hz as [Hz|Hz], Hc as [Hc|Hc]; first [left; nia | right; nia].
Qed.

(** *** [_fix] *)

Lemma fix_small (s : bool) (c e : Z) :
  0 <= c < 10 ^ 28 -> _fix (mkDecimal s c e) = mkDecimal s c e.
Proof.
  intros [Hc0 Hc]. unfold _fix; cbn [dint dexp dsign].
  destruct (Z.eqb_spec c 0) as [|Hnz]; [reflexivity|].
  pose proof (ndigits_le c 28 ltac:(lia) ltac:(lia)) as Hd.
  unfold prec. destruct (Z.ltb_spec e (ndigits c + e - 28)); [lia | reflexivity].
Qed.

Lemma fix_round (s : bool) (c e : Z) :
  10 ^ 28 <= c ->
  exists c' j,
    _fix (mkDecimal s c e) = mkDecimal s c' (e + j)
    /\ 1 <= j <= ndigits c - 27
    /\ 10 ^ 27 <= c' < 10 ^ 28
    /\ c' = round_half_even c (10 ^ j).
Proof.
  intros Hc.
  assert (Hpos : 0 < c) by (pose proof (pow10_pos 28); lia).
  destruct (ndigits_spec c Hpos) as (HL1 & HLlo & HLhi).
  set (L := ndigits c) in *.
  assert (HL : 29 <= L).
  { destruct (Z.le_gt_cases 29 L) as [Hle|Hgt]; [exact Hle|].
    pose proof (pow10_le L 28); lia. }
  set (D := 10 ^ (L - 28)).
  assert (HD : 0 < D) by (apply pow10_pos; lia).
  assert (Hlo : 10 ^ (L - 1) = 10 ^ 27 * D).
  { unfold D. rewrite <- pow10_split by lia. f_equal; lia. }
  assert (Hhi : 10 ^ L = 10 ^ 28 * D).
  { unfold D. rewrite <- pow10_split by lia. f_equal; lia. }
  assert (H2827 : 10 ^ 28 = 10 * 10 ^ 27) by (vm_compute; reflexivity).
  pose proof (pow10_pos 27 ltac:(lia)) as H27.
  set (c2 := round_half_even c D).
  assert (Hc2 : 10 ^ 27 <= c2 <= 10 ^ 28).
  { destruct (round_half_even_spec c D HD) as [H|[[H|H] _]]; fold c2 in H; nia. }
  unfold _fix; cbn [dint dexp dsign]. fold L.
  destruct (Z.eqb_spec c 0) as [|_]; [lia|].
  unfold prec. destruct (Z.ltb_spec e (L + e - 28)) as [_|]; [|lia].
  replace (L + e - 28 - e) with (L - 28) by lia. fold D c2.
  destruct (Z.eq_dec c2 (10 ^ 28)) as [Heq|Hne].
  - (* the rounding carried into a 29th digit *)
    assert (Hnd : ndigits c2 = 29).
    { apply ndigits_unique; [lia|]. rewrite Heq. split; [reflexivity|].
      apply pow10_lt; lia. }
    rewrite Hnd. simpl (28 <? 29).
    exists (10 ^ 27), (L - 28 + 1). split; [|split; [|split]].
    + f_equal; [|lia]. rewrite Heq. reflexivity.
    + lia.
    + lia.
    + symmetry. apply round_half_even_unique; [apply pow10_pos; lia|].
      rewrite pow10_succ by lia. fold D.
      destruct (round_half_even_spec c D HD) as [H|[[H|H] _]];
        fold c2 in H; rewrite Heq in H; left; nia.
  - assert (Hnd : ndigits c2 = 28) by (apply ndigits_unique; simpl; lia).
    rewrite Hnd. simpl (28 <? 28).
    exists c2, (L - 28). split; [|split; [|split]].
    + f_equal; lia.
    + lia.
    + lia.
    + reflexivity.
Qed.

(** *** [__truediv__] *)

Lemma strip_zeros_spec (f : nat) :
  forall c e, exists z,
    0 <= z <= Z.of_nat f
    /\ (strip_zeros f c e).1 * 10 ^ z = c
    /\ (strip_zeros f c e).2 = e + z.
Proof.
  induction f as [|f IH]; intros c e.
  - exists 0. simpl. lia.
  - cbn [strip_zeros]. destruct (Z.eqb_spec (c mod 10) 0) as [H0|H0].
    + destruct (IH (c / 10) (e + 1)) as (z & Hz & Hc & He).
      exists (z + 1). rewrite pow10_succ by lia.
      pose proof (Z.div_mod c 10 ltac:(lia)). split; [lia|]. split; [nia | lia].
    + exists 0. simpl. lia.
Qed.

(** The sticky digit of an inexact division makes the rounding of the
    truncated quotient the rounding of the exact one. *)
Lemma sticky_round (c0 r m D' : Z) :
  0 < r < m -> 0 < D' ->
  let c1 := if c0 mod 5 =? 0 then c0 + 1 else c0 in
  let z := round_half_even c1 (10 * D') in
  - (m * (10 * D')) < 2 * (m * c0 + r - m * (10 * D') * z) < m * (10 * D').
Proof.
  intros Hr HD' c1 z.
  assert (Hrange : - (10 * D') <= 2 * (c0 - 10 * D' * z) <= 10 * D' - 2).
  { pose proof (round_half_even_spec c1 (10 * D') ltac:(lia)) as Hs.
    fold z in Hs. clearbody z. unfold c1 in Hs. clear c1. revert Hs.
    pose proof (Z.div_mod c0 5 ltac:(lia)) as Hdm.
    pose proof (Z.mod_pos_bound c0 5 ltac:(lia)) as Hmb.
    destruct (Z.eqb_spec (c0 mod 5) 0) as [H5|H5];
      intros [Hs|[[Hs|Hs] _]]; lia. }
  nia.
Qed.

(** Division of two positive coefficients, when the dividend has at most
    25 digits more than the divisor: the quotient is the exact quotient
    rounded half-even at some scale [10^k]; either it is exact, or at
    least [ndigits m - ndigits n + 26] fractional digits were kept. *)
Lemma truediv_correct (s1 s2 : bool) (n m ex ey : Z) :
  0 < n -> 0 < m -> ndigits n <= ndigits m + 25 ->
  exists c k,
    truediv (mkDecimal s1 n ex) (mkDecimal s2 m ey)
    = Some (mkDecimal (xorb s1 s2) c (ex - ey + k))
    /\ k <= 0
    /\ 0 < c < 10 ^ 28
    /\ c = round_half_even (n * 10 ^ (- k)) m
    /\ (m * c = n * 10 ^ (- k) \/ ndigits m - ndigits n + 26 <= - k).
Proof.
  intros Hn Hm Hlen.
  destruct (ndigits_spec n Hn) as (Hla1 & Hnlo & Hnhi).
  destruct (ndigits_spec m Hm) as (Hlb1 & Hmlo & Hmhi).
  unfold truediv; cbn [dint dexp dsign].
  set (la := ndigits n) in *. set (lb := ndigits m) in *.
  unfold prec. replace (lb - la + 28 + 1) with (lb - la + 29) by lia.
  set (shift := lb - la + 29).
  assert (Hshift : 4 <= shift) by (unfold shift; lia).
  destruct (Z.eqb_spec m 0) as [|_]; [lia|].
  destruct (Z.eqb_spec n 0) as [|_]; [lia|].
  destruct (Z.leb_spec 0 shift) as [_|]; [|lia].
  replace (ex - ey - (ex - ey - shift)) with shift by lia.
  set (N := n * 10 ^ shift).
  pose proof (pow10_pos 28 ltac:(lia)) as H28.
  assert (HNlo : 10 ^ 28 * m < N).
  { assert (E : 10 ^ (la - 1) * 10 ^ shift = 10 ^ 28 * 10 ^ lb).
    { rewrite <- !pow10_split by lia. f_equal; unfold shift; lia. }
    pose proof (pow10_pos shift ltac:(lia)). unfold N. nia. }
  assert (HNhi : N < 10 ^ 30 * m).
  { assert (E : 10 ^ la * 10 ^ shift = 10 ^ 30 * 10 ^ (lb - 1)).
    { rewrite <- !pow10_split by lia. f_equal; unfold shift; lia. }
    pose proof (pow10_pos shift ltac:(lia)).
    pose proof (pow10_pos 30 ltac:(lia)). unfold N. nia. }
  pose proof (Z.div_mod N m ltac:(lia)) as Hdm.
  pose proof (Z.mod_pos_bound N m Hm) as Hmb.
  set (c0 := N / m) in *. set (r := N mod m) in *.
  assert (Hc0 : 10 ^ 28 <= c0 < 10 ^ 30) by nia.
  assert (E30 : 10 ^ 30 = 5 * (2 * 10 ^ 29)) by (vm_compute; reflexivity).
  destruct (Z.eqb_spec r 0) as [Hr|Hr]; cbn [negb].
  - (* exact at this scale: trailing zeros are stripped *)
    destruct (strip_zeros_spec (Z.to_nat shift) c0 (ex - ey - shift))
      as (z & Hz & Hcz & Hez).
    destruct (strip_zeros (Z.to_nat shift) c0 (ex - ey - shift)) as [c' e'].
    cbn [fst snd] in Hcz, Hez. rewrite Z2Nat.id in Hz by lia.
    pose proof (pow10_pos z ltac:(lia)) as Hpz.
    assert (Hc' : 0 < c') by nia.
    assert (HX : n * 10 ^ (shift - z) * 10 ^ z = N).
    { unfold N. rewrite <- Z.mul_assoc, <- pow10_split by lia.
      do 2 f_equal; lia. }
    destruct (Z.lt_ge_cases c' (10 ^ 28)) as [Hsm|Hbig].
    + rewrite fix_small by lia.
      exists c', (- shift + z).
      replace (- (- shift + z)) with (shift - z) by lia.
      assert (Hex : m * c' = n * 10 ^ (shift - z)) by nia.
      split; [do 2 f_equal; lia|]. split; [lia|]. split; [lia|].
      split; [|left; exact Hex].
      rewrite <- Hex. symmetry. apply round_half_even_exact; lia.
    + destruct (fix_round (xorb s1 s2) c' e' Hbig) as (c'' & j & Hfix & Hj & Hc'' & Hrnd).
      rewrite Hfix.
      assert (HL : ndigits c' + z <= 30).
      { destruct (ndigits_spec c' Hc') as (HL1 & HLlo & _).
        destruct (Z.le_gt_cases (ndigits c' + z) 30) as [Hle|Hgt]; [exact Hle|].
        assert (10 ^ 30 <= 10 ^ (ndigits c' - 1 + z)) by (apply pow10_le; lia).
        rewrite pow10_split in * by lia. nia. }
      exists c'', (- shift + z + j).
      replace (- (- shift + z + j)) with (shift - z - j) by lia.
      pose proof (pow10_pos j ltac:(lia)) as Hpj.
      assert (HXj : n * 10 ^ (shift - z - j) * 10 ^ j = m * c').
      { assert (n * 10 ^ (shift - z - j) * 10 ^ j = n * 10 ^ (shift - z)).
        { rewrite <- Z.mul_assoc, <- pow10_split by lia. do 2 f_equal; lia. }
        nia. }
      split; [do 2 f_equal; lia|]. split; [lia|]. split; [lia|].
      split; [|right; fold la lb; unfold shift; lia].
      rewrite <- (round_half_even_scale _ m (10 ^ j)) by lia.
      rewrite HXj, (Z.mul_comm m c'), (Z.mul_comm m (10 ^ j)).
      rewrite round_half_even_scale by lia. exact Hrnd.
  - (* inexact: a sticky digit is added before rounding *)
    set (c1 := if c0 mod 5 =? 0 then c0 + 1 else c0).
    assert (Hc1 : 10 ^ 28 <= c1 < 10 ^ 30).
    { pose proof (Z.div_mod c0 5 ltac:(lia)).
      pose proof (Z.mod_pos_bound c0 5 ltac:(lia)).
      unfold c1. destruct (Z.eqb_spec (c0 mod 5) 0); lia. }
    destruct (fix_round (xorb s1 s2) c1 (ex - ey - shift) ltac:(lia))
      as (c' & j & Hfix & Hj & Hc' & Hrnd).
    rewrite Hfix.
    pose proof (ndigits_le c1 30 ltac:(lia) ltac:(lia)) as HL.
    exists c', (- shift + j).
    replace (- (- shift + j)) with (shift - j) by lia.
    pose proof (pow10_pos j ltac:(lia)) as Hpj.
    pose proof (pow10_pos (j - 1) ltac:(lia)) as Hpj1.
    assert (Ej : 10 ^ j = 10 * 10 ^ (j - 1)).
    { rewrite <- pow10_succ by lia. f_equal; lia. }
    assert (HX : n * 10 ^ (shift - j) * 10 ^ j = N).
    { unfold N. rewrite <- Z.mul_assoc, <- pow10_split by lia.
      do 2 f_equal; lia. }
    split; [do 2 f_equal; lia|]. split; [lia|]. split; [lia|].
    split; [|right; fold la lb; unfold shift; lia].
    symmetry. apply round_half_even_unique; [lia|]. left.
    pose proof (sticky_round c0 r m (10 ^ (j - 1)) ltac:(lia) Hpj1) as Hst.
    cbv zeta in Hst. fold c1 in Hst. rewrite <- Ej in Hst.
    rewrite <- Hrnd in Hst. nia.
Qed.

(** *** [quantize] after a division: the quoted crypto amount *)

Lemma ndigits_bound (c : Z) : 0 <= c < 10 ^ 28 -> ndigits c <= 28.
Proof.
  intros [H0 H]. destruct (Z.eq_dec c 0) as [->|Hnz]; [rewrite ndigits_small; lia|].
  apply ndigits_le; lia.
Qed.

Lemma even_pow10 (t : Z) : 0 < t -> Z.even (10 ^ t) = true.
Proof.
  intros Ht. replace t with (t - 1 + 1) by lia.
  rewrite pow10_succ by lia. rewrite Z.even_mul. reflexivity.
Qed.

Lemma round_half_even_le (A m : Z) : 0 <= A -> 0 < m -> round_half_even A m <= A + 1.
Proof.
  intros HA Hm. pose proof (Z.div_le_upper_bound A m A Hm ltac:(nia)) as Hq.
  destruct (round_half_even_cases A m Hm) as [[_ ->]|[[_ ->]|[_ ->]]];
    [lia | lia | destruct (Z.even _); lia].
Qed.

(** A total of at most ten digits divided by a price with the same
    exponent and quantized to [P <= 8] places is the exact quotient
    rounded once, half-even, at [P] places. *)
Lemma quote_correct (n m e P : Z) :
  0 <= n < 10 ^ 10 -> 0 < m -> 0 <= P <= 8 ->
  (q ← truediv (mkDecimal false n e) (mkDecimal false m e);
   quantize q (mkDecimal false 1 (- P)))
  = Some (mkDecimal false (round_half_even (n * 10 ^ P) m) (- P)).
Proof.
  intros [Hn0 Hn] Hm HP.
  pose proof (pow10_pos P ltac:(lia)) as HpP.
  assert (HP18 : 10 ^ 10 * 10 ^ P <= 10 ^ 18).
  { rewrite <- pow10_split by lia. apply pow10_le; lia. }
  assert (H1828 : 10 ^ 18 + 1 < 10 ^ 28) by (vm_compute; reflexivity).
  set (A := n * 10 ^ P).
  assert (HA : 0 <= A < 10 ^ 18) by (unfold A; nia).
  assert (Hres : 0 <= round_half_even A m < 10 ^ 28).
  { pose proof (round_half_even_nonneg A m ltac:(lia) Hm).
    pose proof (round_half_even_le A m ltac:(lia) Hm). lia. }
  destruct (Z.eq_dec n 0) as [->|Hnz].
  - (* a zero total *)
    unfold truediv, quantize; cbn [dint dexp dsign mbind option_bind].
    destruct (Z.eqb_spec m 0) as [|_]; [lia|]. cbn.
    f_equal. f_equal. unfold A. rewrite Z.mul_0_l.
    symmetry. replace 0 with (m * 0) at 1 by lia.
    apply round_half_even_exact; exact Hm.
  - destruct (ndigits_spec m Hm) as (Hlb1 & Hmlo & Hmhi).
    pose proof (ndigits_le n 10 ltac:(lia) ltac:(lia)) as Hla.
    destruct (truediv_correct false false n m e e ltac:(lia) Hm ltac:(lia))
      as (c & k & Hdiv & Hk & Hc & Hrnd & Hex).
    rewrite Hdiv. cbn [mbind option_bind xorb].
    replace (e - e + k) with k by lia.
    pose proof (pow10_pos (- k) ltac:(lia)) as Hpk.
    unfold quantize, _rescale; cbn [dint dexp dsign].
    destruct (Z.eqb_spec c 0) as [|_]; [lia|].
    unfold prec. replace (ndigits c + k - - P) with (ndigits c + k + P) by lia.
    replace (k - - P) with (k + P) by lia.
    pose proof (ndigits_bound c ltac:(lia)) as Hndc.
    assert (Hfit : ndigits c + k + P <= 28).
    { destruct Hex as [Hex|Hex]; [|lia].
      assert (ndigits c <= 10 - k); [|lia].
      apply ndigits_le; [lia|]. split; [lia|].
      replace (10 - k) with (10 + - k) by lia.
      rewrite (pow10_split 10 (- k)) by lia. nia. }
    destruct (Z.ltb_spec 28 (ndigits c + k + P)) as [|_]; [lia|].
    destruct (Z.leb_spec (- P) k) as [Hge|Hlt]; cbn [dint].
    + (* the quotient already has at most [P] places: it is exact *)
      destruct Hex as [Hex|Hex]; [|lia].
      assert (HE : c * 10 ^ (k + P) = round_half_even A m).
      { symmetry. replace A with (m * (c * 10 ^ (k + P))).
        - apply round_half_even_exact; exact Hm.
        - unfold A. replace P with (- k + (k + P)) at 2 by lia.
          rewrite (pow10_split (- k) (k + P)) by lia.
          rewrite !Z.mul_assoc, Hex. reflexivity. }
      rewrite HE.
      pose proof (ndigits_bound _ Hres).
      destruct (Z.ltb_spec 28 (ndigits (round_half_even A m))); [lia | reflexivity].
    + replace (- P - k) with (- k - P) by lia.
      set (T := 10 ^ (- k - P)).
      assert (HT : 0 < T) by (apply pow10_pos; lia).
      assert (HAT : n * 10 ^ (- k) = A * T).
      { unfold A, T. rewrite <- Z.mul_assoc, <- pow10_split by lia.
        do 2 f_equal; lia. }
      assert (HE : round_half_even c T = round_half_even A m).
      { destruct Hex as [Hex|Hex].
        - rewrite <- (round_half_even_scale c T m) by lia.
          rewrite (Z.mul_comm c m), Hex, HAT, (Z.mul_comm T m).
          apply round_half_even_scale; lia.
        - rewrite Hrnd, HAT. apply round_half_even_twice.
          + split; [exact Hm|].
            assert (10 ^ ndigits m <= T); [|lia].
            apply pow10_le. lia.
          + apply even_pow10; lia. }
      rewrite HE.
      pose proof (ndigits_bound _ Hres).
      destruct (Z.ltb_spec 28 (ndigits (round_half_even A m))); [lia | reflexivity].
Qed.

(** *** Decimals as rationals *)

Lemma Qround_half_even_make (a : Z) (b : positive) :
  Spec.Qround_half_even (a # b) = round_half_even a (Zpos b).
Proof.
  unfold Spec.Qround_half_even, round_half_even.
  change (Qfloor (a # b)) with (a / Zpos b).
  set (f := a / Zpos b).
  assert (Hcmp : Qcompare ((a # b) - inject_Z f) (1 # 2) = (2 * (a mod Zpos b) ?= Zpos b)).
  { unfold Qcompare, Qminus, Qplus, Qopp, inject_Z; cbn [Qnum Qden].
    rewrite Pos.mul_1_r, Z.mod_eq by lia. fold f. f_equal; ring. }
  rewrite Hcmp.
  destruct (Z.compare_spec (2 * (a mod Zpos b)) (Zpos b)) as [H|H|H].
  - destruct (Z.ltb_spec (2 * (a mod Zpos b)) (Zpos b)); [lia|].
    destruct (Z.ltb_spec (Zpos b) (2 * (a mod Zpos b))); [lia | reflexivity].
  - destruct (Z.ltb_spec (2 * (a mod Zpos b)) (Zpos b)); [reflexivity | lia].
  - destruct (Z.ltb_spec (2 * (a mod Zpos b)) (Zpos b)); [lia|].
    destruct (Z.ltb_spec (Zpos b) (2 * (a mod Zpos b))); [reflexivity | lia].
Qed.

Lemma Qround_half_even_comp (q q' : Q) :
  (q == q')%Q -> Spec.Qround_half_even q = Spec.Qround_half_even q'.
Proof.
  intros H. unfold Spec.Qround_half_even.
  rewrite <- (Qfloor_comp _ _ H).
  assert (Hc : Qcompare (q - inject_Z (Qfloor q)) (1 # 2)
               = Qcompare (q' - inject_Z (Qfloor q)) (1 # 2)).
  { apply Qcompare_comp; [|reflexivity].
    unfold Qminus. apply Qplus_comp; [exact H | reflexivity]. }
  rewrite Hc. reflexivity.
Qed.

Lemma to_pos_pow10 (k : Z) : 0 <= k -> Zpos (Z.to_pos (10 ^ k)) = 10 ^ k.
Proof. intros Hk. apply Z2Pos.id. apply pow10_pos; exact Hk. Qed.

(** Two decimals with the same exponent: the ratio of their values is the
    ratio of their coefficients. *)
Lemma to_Q_ratio (n m e : Z) :
  0 < m ->
  (to_Q (mkDecimal false n e) / to_Q (mkDecimal false m e) == n # Z.to_pos m)%Q.
Proof.
  intros Hm. destruct m as [|p|p]; try lia. clear Hm.
  unfold to_Q, signed; cbn [dsign dint dexp].
  destruct (Z.leb_spec 0 e) as [He|He].
  - pose proof (pow10_pos e He) as Hp.
    destruct (10 ^ e) as [|d|d] eqn:Ed; try lia.
    unfold Qdiv, Qinv, Qmult, Qeq, inject_Z; cbn [Qnum Qden].
    change (Z.pos p * Z.pos d) with (Z.pos (p * d)). cbn [Qnum Qden Z.to_pos].
    rewrite !Pos2Z.inj_mul. ring.
  - pose proof (to_pos_pow10 (- e) ltac:(lia)) as Hp.
    set (d := Z.to_pos (10 ^ (- e))) in *.
    unfold Qdiv, Qinv, Qmult, Qeq; cbn. lia.
Qed.

Lemma crypto_amount_spec_eq (n m e P : Z) :
  0 <= n -> 0 < m -> 0 <= P ->
  Spec.crypto_amount (mkDecimal false n e) (mkDecimal false m e) P
  = mkDecimal false (round_half_even (n * 10 ^ P) m) (- P).
Proof.
  intros Hn Hm HP. unfold Spec.crypto_amount, Spec.round_places.
  pose proof (pow10_pos P HP) as HpP.
  assert (Hq : (to_Q (mkDecimal false n e) / to_Q (mkDecimal false m e)
                * inject_Z (10 ^ P) == (n * 10 ^ P) # Z.to_pos m)%Q).
  { rewrite (to_Q_ratio n m e Hm). unfold Qmult, Qeq, inject_Z; cbn. lia. }
  rewrite (Qround_half_even_comp _ _ Hq), Qround_half_even_make.
  rewrite Z2Pos.id by lia.
  pose proof (round_half_even_nonneg (n * 10 ^ P) m ltac:(nia) Hm) as Hr.
  destruct (Z.ltb_spec (round_half_even (n * 10 ^ P) m) 0); [lia|].
  rewrite Z.abs_eq by lia. reflexivity.
Qed.

End DecimalFacts.

(** ** Quoting the crypto amount *)

Section CryptoAmount.

Import ProcessorFacts.

Lemma calculate_crypto_amount_at_btc (n m : Z) :
  0 <= n < 10 ^ 10 -> 0 < m ->
  BitcoinPaymentProcessor.calculate_crypto_amount_at
    (mkDecimal false m (-2)) (mkDecimal false n (-2))
  = Some (Spec.crypto_amount (mkDecimal false n (-2)) (mkDecimal false m (-2)) 8).
Proof.
  intros Hn Hm. rewrite crypto_amount_spec_eq by lia.
  apply (quote_correct n m (-2) 8); lia.
Qed.

Lemma calculate_crypto_amount_at_eth (n m : Z) :
  0 <= n < 10 ^ 10 -> 0 < m ->
  EthereumPaymentProcessor.calculate_crypto_amount_at
    (mkDecimal false m (-2)) (mkDecimal false n (-2))
  = Some (Spec.crypto_amount (mkDecimal false n (-2)) (mkDecimal false m (-2)) 6).
Proof.
  intros Hn Hm. rewrite crypto_amount_spec_eq by lia.
  apply (quote_correct n m (-2) 6); lia.
Qed.

Lemma calculate_crypto_amount_processor (p : Processor) (n : Z) :
  0 <= n < 10 ^ 10 ->
  Api.calculate_crypto_amount p (mkDecimal false n (-2))
  = Some (Spec.crypto_amount (mkDecimal false n (-2)) (spot_price p)
            (currency_precision p)).
Proof.
  intros Hn. destruct p; cbn [Api.calculate_crypto_amount spot_price currency_precision].
  - apply calculate_crypto_amount_at_btc; lia.
  - apply calculate_crypto_amount_at_eth; lia.
Qed.

(** What a successful [initiate_payment] did. *)
Lemma initiate_payment_ok now auth data wallet_data w body w' :
  initiate_payment now auth data wallet_data w = (Ok body, w') ->
  exists o processor cur crypto pid p w1 w2,
    orders w !! order_id data = Some o
    /\ order_user o = auth
    /\ select_processor (pi_payment_method data) = Some (processor, cur)
    /\ Api.calculate_crypto_amount processor (total o) = Some crypto
    /\ create_payment now (order_id data) auth (pi_payment_method data)
         (total o) crypto cur (wd_address wallet_data) w = Some (pid, p, w1)
    /\ create_wallet now pid cur wallet_data w1 = Some w2
    /\ body = mkCryptoPaymentResponse pid (order_number o) (total o) crypto cur
                (wd_address wallet_data) (now + 30 * 60)
    /\ w' = send_task (monitor_crypto_payment_task pid) w2.
Proof.
  unfold initiate_payment. intros H.
  destruct (schema_accepts (pi_payment_method data)); cbn [negb] in H; [|discriminate].
  destruct (orders w !! order_id data) as [o|]; [|discriminate].
  destruct (bool_decide (order_user o = auth)) eqn:Hu; cbn [negb] in H; [|discriminate].
  apply bool_decide_eq_true in Hu.
  destruct (match order_payment (order_id data) w with
            | Some (_, p) => negb (bool_decide (status p = Failed))
            | None => false end); [discriminate|].
  destruct (select_processor (pi_payment_method data)) as [[processor cur]|];
    [|discriminate].
  destruct (Api.calculate_crypto_amount processor (total o)) as [crypto|] eqn:Hc;
    [|discriminate].
  destruct (create_payment _ _ _ _ _ _ _ _ _) as [[[pid p] w1]|] eqn:Hp; [|discriminate].
  destruct (create_wallet _ _ _ _ _) as [w2|] eqn:Hw; [|discriminate].
  inversion H; subst. exists o, processor, cur, crypto, pid, p, w1, w2.
  repeat split; auto.
Qed.

(** C5.  For every order total of at most ten digits in cents and every
    positive spot price in cents, the Bitcoin processor quotes the total
    divided by the price rounded (half-even) to 8 decimal places and the
    Ethereum processor the same rounded to 6; so do the processors at
    their own prices, and a payment that [initiate_payment] creates
    carries that amount in its response; EUR 49.00 at EUR 35000.00 is
    0.00140000 BTC. *)
Theorem crypto_amount_rounded_quotient (n m : Z) :
  0 <= n < 10 ^ 10 -> 0 < m ->
  let fiat_total := mkDecimal false n (-2) in
  let spot := mkDecimal false m (-2) in
  BitcoinPaymentProcessor.calculate_crypto_amount_at spot fiat_total
  = Some (Spec.crypto_amount fiat_total spot 8)
  /\ EthereumPaymentProcessor.calculate_crypto_amount_at spot fiat_total
     = Some (Spec.crypto_amount fiat_total spot 6)
  /\ BitcoinPaymentProcessor.calculate_crypto_amount fiat_total
     = Some (Spec.crypto_amount fiat_total BitcoinPaymentProcessor.get_btc_price 8)
  /\ EthereumPaymentProcessor.calculate_crypto_amount fiat_total
     = Some (Spec.crypto_amount fiat_total EthereumPaymentProcessor.get_eth_price 6)
  /\ (forall now auth data wallet_data w body w' o,
        orders w !! order_id data = Some o ->
        total o = fiat_total ->
        initiate_payment now auth data wallet_data w = (Ok body, w') ->
        exists processor cur,
          select_processor (pi_payment_method data) = Some (processor, cur)
          /\ r_crypto_amount body
             = Spec.crypto_amount fiat_total (spot_price processor)
                 (currency_precision processor))
  /\ BitcoinPaymentProcessor.calculate_crypto_amount (mkDecimal false 4900 (-2))
     = Some (mkDecimal false 140000 (-8)).
Proof.
  intros Hn Hm fiat_total spot. subst fiat_total spot.
  split; [apply calculate_crypto_amount_at_btc; assumption|].
  split; [apply calculate_crypto_amount_at_eth; assumption|].
  split; [apply calculate_crypto_amount_at_btc; [assumption | lia]|].
  split; [apply calculate_crypto_amount_at_eth; [assumption | lia]|].
  split; [|vm_compute; reflexivity].
  intros now auth data wallet_data w body w' o Ho Ht Hinit.
  destruct (initiate_payment_ok _ _ _ _ _ _ _ Hinit)
    as (o' & processor & cur & crypto & pid & p & w1 & w2
        & Ho' & _ & Hsel & Hcalc & _ & _ & -> & _).
  rewrite Ho in Ho'. inversion Ho'; subst o'. clear Ho'.
  exists processor, cur. split; [exact Hsel|]. cbn [r_crypto_amount].
  rewrite Ht, calculate_crypto_amount_processor in Hcalc by assumption.
  inversion Hcalc. reflexivity.
Qed.

Lemma crypto_amount_rounded_quotient_witness :
  (0 <= 4900 < 10 ^ 10 /\ 0 < 3500000)
  /\ BitcoinPaymentProcessor.calculate_crypto_amount_at
       (mkDecimal false 3500000 (-2)) (mkDecimal false 4900 (-2))
     = Some (Spec.crypto_amount (mkDecimal false 4900 (-2))
               (mkDecimal false 3500000 (-2)) 8).
Proof.
  split.
  - vm_compute. repeat split; discriminate.
  - apply (crypto_amount_rounded_quotient 4900 3500000).
    + vm_compute. split; [discriminate | reflexivity].
    + reflexivity.
Defined.

End CryptoAmount.

(** ** The amount-matching policy *)

Section AmountMatching.

Lemma to_Q_scaled (d : Decimal) (m : Z) :
  m <= dexp d -> m <= 0 ->
  (to_Q d == (signed d * 10 ^ (dexp d - m)) # Z.to_pos (10 ^ (- m)))%Q.
Proof.
  intros Hm Hm0. unfold to_Q.
  pose proof (to_pos_pow10 (- m) ltac:(lia)) as HD.
  destruct (Z.leb_spec 0 (dexp d)) as [He|He].
  - unfold Qeq, inject_Z; cbn [Qnum Qden]. rewrite HD.
    replace (dexp d - m) with (dexp d + - m) by lia.
    rewrite pow10_split by lia. ring.
  - unfold Qeq; cbn [Qnum Qden]. rewrite HD, to_pos_pow10 by lia.
    replace (- m) with ((dexp d - m) + - dexp d) at 1 by lia.
    rewrite pow10_split by lia. ring.
Qed.

(** [>=] on decimals compares the values they denote. *)
Lemma ge_spec (x y : Decimal) : ge x y = true <-> (to_Q y <= to_Q x)%Q.
Proof.
  set (m := Z.min (dexp x) (dexp y)). set (m0 := Z.min m 0).
  pose proof (to_Q_scaled x m0 ltac:(lia) ltac:(lia)) as Hx.
  pose proof (to_Q_scaled y m0 ltac:(lia) ltac:(lia)) as Hy.
  assert (HQ : (to_Q y <= to_Q x)%Q
               <-> signed y * 10 ^ (dexp y - m0) <= signed x * 10 ^ (dexp x - m0)).
  { split; intros H.
    - assert (H' := H). rewrite Hx, Hy in H'.
      unfold Qle in H'; cbn [Qnum Qden] in H'.
      pose proof (Pos2Z.is_pos (Z.to_pos (10 ^ (- m0)))). nia.
    - rewrite Hx, Hy. unfold Qle; cbn [Qnum Qden].
      pose proof (Pos2Z.is_pos (Z.to_pos (10 ^ (- m0)))). nia. }
  rewrite HQ. unfold ge. fold m. rewrite Z.leb_le.
  pose proof (pow10_pos (m - m0) ltac:(lia)) as HK.
  replace (dexp y - m0) with ((dexp y - m) + (m - m0)) by lia.
  replace (dexp x - m0) with ((dexp x - m) + (m - m0)) by lia.
  rewrite !pow10_split by lia.
  set (K := 10 ^ (m - m0)) in *.
  set (u := 10 ^ (dexp y - m)). set (v := 10 ^ (dexp x - m)).
  split; intros H; nia.
Qed.

Lemma mul_tolerance (e ee : Z) :
  0 <= e -> e * 99 < 10 ^ 28 ->
  mul (mkDecimal false e ee) (mkDecimal false 99 (-2))
  = mkDecimal false (e * 99) (ee + -2).
Proof.
  intros He Hlt. unfold mul; cbn [dint dexp dsign xorb].
  apply fix_small. lia.
Qed.

Lemma to_Q_mul_tolerance (e ee : Z) :
  (to_Q (mkDecimal false (e * 99) (ee + -2))
   == to_Q (mkDecimal false e ee) * (1 - (1 # 100)))%Q.
Proof.
  set (m := Z.min (ee + -2) 0).
  rewrite (to_Q_scaled (mkDecimal false (e * 99) (ee + -2)) m) by (cbn; lia).
  rewrite (to_Q_scaled (mkDecimal false e ee) m) by (cbn; lia).
  unfold signed; cbn [dsign dint dexp].
  assert (E : 10 ^ (ee - m) = 10 ^ (ee + -2 - m) * 100).
  { replace (ee - m) with ((ee + -2 - m) + 2) by lia.
    rewrite pow10_split by lia. reflexivity. }
  rewrite E. unfold Qeq, Qmult, Qminus, Qplus, Qopp; cbn [Qnum Qden].
  rewrite !Pos2Z.inj_mul. ring.
Qed.

Lemma to_Q_nonneg (e ee : Z) : 0 <= e -> (0 <= to_Q (mkDecimal false e ee))%Q.
Proof.
  intros He. unfold to_Q, signed; cbn [dsign dint dexp].
  destruct (Z.leb_spec 0 ee) as [H|H]; unfold Qle, inject_Z; cbn [Qnum Qden].
  - pose proof (pow10_pos ee H). nia.
  - lia.
Qed.

Lemma to_Q_pos (e ee : Z) : 0 < e -> (0 < to_Q (mkDecimal false e ee))%Q.
Proof.
  intros He. unfold to_Q, signed; cbn [dsign dint dexp].
  destruct (Z.leb_spec 0 ee) as [H|H]; unfold Qlt, inject_Z; cbn [Qnum Qden].
  - pose proof (pow10_pos ee H). nia.
  - lia.
Qed.

(** Dividing a satoshi value by 10^8 loses nothing. *)
Lemma amount_btc_exact (value : Z) :
  0 <= value < 10 ^ 27 ->
  exists a, BitcoinPaymentProcessor.amount_btc value = Some a
            /\ (to_Q a == Spec.btc_of_satoshi value)%Q.
Proof.
  intros [H0 Hlt]. unfold BitcoinPaymentProcessor.amount_btc, of_int.
  destruct (Z.eq_dec value 0) as [->|Hnz].
  - eexists. split; [vm_compute; reflexivity | reflexivity].
  - destruct (Z.ltb_spec value 0) as [|_]; [lia|]. rewrite Z.abs_eq by lia.
    assert (Hnd : ndigits 100000000 = 9) by (vm_compute; reflexivity).
    pose proof (ndigits_le value 27 ltac:(lia) ltac:(lia)) as Hla.
    destruct (truediv_correct false false value 100000000 0 0
                ltac:(lia) ltac:(lia) ltac:(lia))
      as (c & k & Hdiv & Hk & Hc & Hrnd & Hex).
    rewrite Hdiv. eexists. split; [reflexivity|].
    assert (Hexact : 100000000 * c = value * 10 ^ (- k)).
    { destruct Hex as [Hex|Hex]; [exact Hex|].
      rewrite Hnd in Hex.
      assert (E : 10 ^ (- k) = 100000000 * 10 ^ (- k - 8)).
      { replace (- k) with (8 + (- k - 8)) at 1 by lia.
        rewrite pow10_split by lia. reflexivity. }
      rewrite Hrnd, E.
      replace (value * (100000000 * 10 ^ (- k - 8)))
        with (100000000 * (value * 10 ^ (- k - 8))) by ring.
      rewrite round_half_even_exact by lia. reflexivity. }
    rewrite (to_Q_scaled _ k) by (cbn; lia).
    unfold signed, Spec.btc_of_satoshi; cbn [dsign dint dexp xorb].
    replace (0 - 0 + k - k) with 0 by lia.
    unfold Qeq; cbn [Qnum Qden]. rewrite to_pos_pow10 by lia.
    change (Z.pos 100000000) with 100000000. rewrite Z.pow_0_r. lia.
Qed.

Lemma amount_accepted_btc (value e ee : Z) :
  0 <= value < 10 ^ 27 -> 0 <= e < 10 ^ 26 ->
  BitcoinPaymentProcessor.amount_accepted value (mkDecimal false e ee) = true
  <-> Spec.within_tolerance (Spec.btc_of_satoshi value) (to_Q (mkDecimal false e ee)).
Proof.
  intros Hv He. unfold BitcoinPaymentProcessor.amount_accepted, Spec.within_tolerance.
  destruct (amount_btc_exact value Hv) as (a & -> & Ha).
  assert (H99 : e * 99 < 10 ^ 28).
  { assert (10 ^ 26 * 99 < 10 ^ 28) by (vm_compute; reflexivity). lia. }
  rewrite mul_tolerance by lia.
  rewrite ge_spec, to_Q_mul_tolerance, Ha. reflexivity.
Qed.

Lemma amount_accepted_eth (value e ee : Z) :
  0 <= e < 10 ^ 26 ->
  EthereumPaymentProcessor.amount_accepted value (mkDecimal false e ee) = true
  <-> Spec.within_tolerance (Spec.eth_of_wei value) (to_Q (mkDecimal false e ee)).
Proof.
  intros He. unfold EthereumPaymentProcessor.amount_accepted, Spec.within_tolerance.
  assert (H99 : e * 99 < 10 ^ 28).
  { assert (10 ^ 26 * 99 < 10 ^ 28) by (vm_compute; reflexivity). lia. }
  rewrite mul_tolerance by lia.
  rewrite ge_spec, to_Q_mul_tolerance. reflexivity.
Qed.

(** A Bitcoin transaction is taken as the payment exactly when one of its
    outputs to the payment's address is within tolerance. *)
Lemma btc_tx_pays_iff (address : string) (e ee : Z)
    (tx : BitcoinPaymentProcessor.Transaction) :
  Forall (fun o => 0 <= BitcoinPaymentProcessor.out_value o < 10 ^ 27)
         (BitcoinPaymentProcessor.outputs tx) ->
  0 <= e < 10 ^ 26 ->
  BitcoinPaymentProcessor.tx_pays address (mkDecimal false e ee) tx = true
  <-> exists o, o ∈ BitcoinPaymentProcessor.outputs tx
                /\ BitcoinPaymentProcessor.out_address o = address
                /\ Spec.within_tolerance
                     (Spec.btc_of_satoshi (BitcoinPaymentProcessor.out_value o))
                     (to_Q (mkDecimal false e ee)).
Proof.
  intros Hall He. unfold BitcoinPaymentProcessor.tx_pays.
  rewrite existsb_exists. rewrite Forall_forall in Hall.
  split.
  - intros (o & Hin & Ho). apply andb_true_iff in Ho. destruct Ho as [Ha Hv].
    apply bool_decide_eq_true in Ha. apply list_elem_of_In in Hin.
    exists o. split; [exact Hin|]. split; [exact Ha|].
    apply amount_accepted_btc; auto.
  - intros (o & Hin & Ha & Hv). exists o.
    split; [apply list_elem_of_In; exact Hin|].
    apply andb_true_iff. split; [apply bool_decide_eq_true; exact Ha|].
    apply amount_accepted_btc; auto.
Qed.

Lemma within_tolerance_cases (received expected : Q) :
  ((0 <= expected)%Q -> (received == expected * (995 # 1000))%Q ->
   Spec.within_tolerance received expected)
  /\ ((0 < expected)%Q -> (received == expected * (98 # 100))%Q ->
      ~ Spec.within_tolerance received expected)
  /\ ((0 <= expected)%Q -> (expected <= received)%Q ->
      Spec.within_tolerance received expected).
Proof.
  unfold Spec.within_tolerance. repeat split; intros; lra.
Qed.

(** C6.  For every expected amount (a non-negative decimal of at most 26
    digits) and every incoming value (satoshi below 10^27, any wei), both
    processors accept the value exactly when
    [received >= expected_amount * 0.99]; hence a value of 0.995 times the
    expected amount is accepted, a value of 0.98 times a positive expected
    amount is rejected, and every overpayment is accepted. *)
Theorem amount_matching_policy (satoshi wei e ee : Z) :
  0 <= satoshi < 10 ^ 27 -> 0 <= wei -> 0 <= e < 10 ^ 26 ->
  let expected_amount := mkDecimal false e ee in
  let accepted_btc := BitcoinPaymentProcessor.amount_accepted satoshi expected_amount in
  let accepted_eth := EthereumPaymentProcessor.amount_accepted wei expected_amount in
  let received_btc := Spec.btc_of_satoshi satoshi in
  let received_eth := Spec.eth_of_wei wei in
  (accepted_btc = true <-> (to_Q expected_amount * (99 # 100) <= received_btc)%Q)
  /\ (accepted_eth = true <-> (to_Q expected_amount * (99 # 100) <= received_eth)%Q)
  /\ ((received_btc == to_Q expected_amount * (995 # 1000))%Q -> accepted_btc = true)
  /\ ((received_eth == to_Q expected_amount * (995 # 1000))%Q -> accepted_eth = true)
  /\ (0 < e -> (received_btc == to_Q expected_amount * (98 # 100))%Q ->
      accepted_btc = false)
  /\ (0 < e -> (received_eth == to_Q expected_amount * (98 # 100))%Q ->
      accepted_eth = false)
  /\ ((to_Q expected_amount <= received_btc)%Q -> accepted_btc = true)
  /\ ((to_Q expected_amount <= received_eth)%Q -> accepted_eth = true).
Proof.
  intros Hs Hw He expected_amount accepted_btc accepted_eth received_btc received_eth.
  pose proof (amount_accepted_btc satoshi e ee Hs He) as Hb.
  pose proof (amount_accepted_eth wei e ee He) as Hh.
  fold expected_amount accepted_btc received_btc in Hb.
  fold expected_amount accepted_eth received_eth in Hh.
  pose proof (to_Q_nonneg e ee ltac:(lia)) as Hnn. fold expected_amount in Hnn.
  destruct (within_tolerance_cases received_btc (to_Q expected_amount))
    as (Hb1 & Hb2 & Hb3).
  destruct (within_tolerance_cases received_eth (to_Q expected_amount))
    as (Hh1 & Hh2 & Hh3).
  unfold Spec.within_tolerance in *.
  repeat split.
  - intros H. apply Hb in H. lra.
  - intros H. apply Hb. lra.
  - intros H. apply Hh in H. lra.
  - intros H. apply Hh. lra.
  - intros H. apply Hb. auto.
  - intros H. apply Hh. auto.
  - intros Hpos H. apply not_true_is_false. intros Hacc. apply Hb in Hacc.
    pose proof (to_Q_pos e ee Hpos) as Hp. fold expected_amount in Hp.
    exact (Hb2 Hp H Hacc).
  - intros Hpos H. apply not_true_is_false. intros Hacc. apply Hh in Hacc.
    pose proof (to_Q_pos e ee Hpos) as Hp. fold expected_amount in Hp.
    exact (Hh2 Hp H Hacc).
  - intros H. apply Hb. auto.
  - intros H. apply Hh. auto.
Qed.

(** 0.00141 BTC and 0.0196 ETH against an expected 0.00140000 and 0.019600. *)
Lemma amount_matching_policy_witness :
  (0 <= 141000 < 10 ^ 27 /\ 0 <= 19600000000000000 /\ 0 <= 140000 < 10 ^ 26)
  /\ BitcoinPaymentProcessor.amount_accepted 141000 (mkDecimal false 140000 (-8)) = true.
Proof.
  split.
  - vm_compute. repeat split; discriminate.
  - apply (amount_matching_policy 141000 19600000000000000 140000 (-8)).
    + vm_compute. split; [discriminate | reflexivity].
    + vm_compute. discriminate.
    + vm_compute. split; [discriminate | reflexivity].
    + unfold Qle; cbn. lia.
Defined.

End AmountMatching.


(** ** The expiry sweep *)

Section ExpirySweep.

Import Facts Scenario.

Lemma is_expired_pending_true (now : Z) (p : Payment) :
  is_expired_pending now p = true
  <-> status p = Pending /\ exists t, expires_at p = Some t /\ t < now.
Proof.
  unfold is_expired_pending. rewrite andb_true_iff, bool_decide_eq_true.
  split.
  - intros [Hs Ht]. split; [exact Hs|].
    destruct (expires_at p) as [t|]; [|discriminate].
    exists t. split; [reflexivity | lia].
  - intros [Hs (t & -> & Ht)]. split; [exact Hs | lia].
Qed.

Lemma expired_payments_elem (now : Z) (w : World) (id : Z) (p : Payment) :
  (id, p) ∈ expired_payments now w
  <-> payments w !! id = Some p /\ is_expired_pending now p = true.
Proof.
  unfold expired_payments.
  rewrite elem_of_map_to_list, map_lookup_filter_Some. reflexivity.
Qed.

Lemma expired_payments_keys (now : Z) (w : World) (id : Z) :
  id ∈ (expired_payments now w).*1
  <-> exists p, payments w !! id = Some p /\ is_expired_pending now p = true.
Proof.
  rewrite list_elem_of_fmap. split.
  - intros ([i p] & -> & Hin). exists p. apply expired_payments_elem. exact Hin.
  - intros (p & Hp). exists (id, p). split; [reflexivity|].
    apply expired_payments_elem. exact Hp.
Qed.

Lemma foldl_expire_orders (now : Z) (l : list (Z * Payment)) :
  forall w, orders (foldl (expire_payment now) w l) = orders w
            /\ queue (foldl (expire_payment now) w l) = queue w.
Proof.
  induction l as [|kv l IH]; intros w; [split; reflexivity|].
  cbn [foldl]. destruct (IH (expire_payment now w kv)) as [-> ->].
  split; reflexivity.
Qed.

Lemma foldl_expire_payments_other (now : Z) (l : list (Z * Payment)) :
  forall w id, id ∉ l.*1 ->
    payments (foldl (expire_payment now) w l) !! id = payments w !! id.
Proof.
  induction l as [|[i q] l IH]; intros w id Hid; [reflexivity|].
  cbn [foldl]. rewrite fmap_cons, not_elem_of_cons in Hid. destruct Hid as [Hne Hid].
  rewrite IH by exact Hid. cbn. apply lookup_insert_ne. cbn in Hne. congruence.
Qed.

Lemma foldl_expire_payments_in (now : Z) (l : list (Z * Payment)) :
  forall w id p, NoDup l.*1 -> (id, p) ∈ l ->
    payments (foldl (expire_payment now) w l) !! id
    = Some (set_updated_at now (set_status Expired p)).
Proof.
  induction l as [|[i q] l IH]; intros w id p Hnd Hin.
  - apply elem_of_nil in Hin. contradiction.
  - rewrite fmap_cons in Hnd. apply NoDup_cons in Hnd. destruct Hnd as [Hni Hnd].
    cbn [foldl]. apply elem_of_cons in Hin. destruct Hin as [Heq|Hin].
    + inversion Heq; subst i q.
      rewrite foldl_expire_payments_other by exact Hni.
      cbn. apply lookup_insert_eq.
    + apply IH; assumption.
Qed.

Lemma foldl_expire_wallets (now : Z) (l : list (Z * Payment)) :
  forall w k,
    wallets (foldl (expire_payment now) w l) !! k
    = (fun c => if decide (payment c ∈ l.*1) then set_is_used false c else c)
        <$> wallets w !! k.
Proof.
  induction l as [|[i q] l IH]; intros w k.
  - cbn [foldl]. destruct (wallets w !! k) as [c|]; [|reflexivity].
    cbn. destruct (decide (payment c ∈ [])) as [H|_]; [|reflexivity].
    apply elem_of_nil in H. contradiction.
  - cbn [foldl]. rewrite IH. cbn [expire_payment update_wallets_is_used save_payment wallets fst snd].
    rewrite lookup_fmap. destruct (wallets w !! k) as [c|]; [|reflexivity].
    cbn. f_equal.
    destruct (decide (payment c = i)) as [Hi|Hi]; cbn [payment set_is_used];
      destruct (decide (payment c ∈ l.*1)) as [Hl|Hl];
      destruct (decide (payment c ∈ i :: l.*1)) as [Hc|Hc];
      try reflexivity; exfalso; rewrite elem_of_cons in Hc; tauto.
Qed.

(** What the sweep does to the payment table ... *)
Lemma sweep_payment_expired (now : Z) (w : World) (id : Z) (p : Payment) :
  payments w !! id = Some p -> is_expired_pending now p = true ->
  payments (check_expired_payments now w) !! id
  = Some (set_updated_at now (set_status Expired p)).
Proof.
  intros Hp He. unfold check_expired_payments.
  apply foldl_expire_payments_in.
  - apply NoDup_fst_map_to_list.
  - apply expired_payments_elem. split; assumption.
Qed.

Lemma sweep_payment_kept (now : Z) (w : World) (id : Z) :
  (forall p, payments w !! id = Some p -> is_expired_pending now p = false) ->
  payments (check_expired_payments now w) !! id = payments w !! id.
Proof.
  intros H. unfold check_expired_payments.
  apply foldl_expire_payments_other.
  rewrite expired_payments_keys. intros (p & Hp & He).
  rewrite (H p Hp) in He. discriminate.
Qed.

(** ... and to the wallet table. *)
Lemma sweep_wallets (now : Z) (w : World) (k : Z) :
  wallets (check_expired_payments now w) !! k
  = (fun c => if decide (payment c ∈ (expired_payments now w).*1)
              then set_is_used false c else c)
      <$> wallets w !! k.
Proof. apply foldl_expire_wallets. Qed.

Lemma world_eq (w1 w2 : World) :
  orders w1 = orders w2 -> payments w1 = payments w2 ->
  wallets w1 = wallets w2 -> queue w1 = queue w2 -> w1 = w2.
Proof. destruct w1, w2; cbn; congruence. Qed.

(** The order in which the loop visits the selected payments does not show
    in the result: any ordering of the query's rows, [-created_at]
    included, gives the world [check_expired_payments] computes. *)
Lemma check_expired_payments_order_irrelevant (now : Z) (w : World)
    (l : list (Z * Payment)) :
  l ≡ₚ expired_payments now w ->
  foldl (expire_payment now) w l = check_expired_payments now w.
Proof.
  intros Hperm. unfold check_expired_payments.
  set (l0 := expired_payments now w) in *.
  assert (Hnd0 : NoDup l0.*1) by apply NoDup_fst_map_to_list.
  assert (Hnd : NoDup l.*1) by (rewrite Hperm; exact Hnd0).
  destruct (foldl_expire_orders now l w) as [Ho Hq].
  destruct (foldl_expire_orders now l0 w) as [Ho0 Hq0].
  apply world_eq; [congruence | | | congruence].
  - apply map_eq. intros id.
    destruct (decide (id ∈ l.*1)) as [Hin|Hin].
    + apply list_elem_of_fmap in Hin. destruct Hin as ([i q] & -> & Hin).
      cbn [fst].
      rewrite (foldl_expire_payments_in now l w i q Hnd Hin).
      rewrite Hperm in Hin.
      rewrite (foldl_expire_payments_in now l0 w i q Hnd0 Hin). reflexivity.
    + rewrite (foldl_expire_payments_other now l w id Hin).
      rewrite Hperm in Hin.
      rewrite (foldl_expire_payments_other now l0 w id Hin). reflexivity.
  - apply map_eq. intros k. rewrite !foldl_expire_wallets.
    destruct (wallets w !! k) as [c|]; [|reflexivity]. cbn. f_equal.
    destruct (decide (payment c ∈ l.*1)) as [H|H];
      destruct (decide (payment c ∈ l0.*1)) as [H0|H0];
      try reflexivity; exfalso; rewrite Hperm in H; contradiction.
Qed.

Lemma sweep_no_wallet_marked_used (now : Z) (w : World) :
  no_wallet_marked_used w (check_expired_payments now w).
Proof.
  intros k c' Hk Hu. rewrite sweep_wallets in Hk.
  destruct (wallets w !! k) as [c|]; [|discriminate].
  cbn in Hk. inversion Hk as [Hc]. clear Hk.
  destruct (decide (payment c ∈ (expired_payments now w).*1)); [|reflexivity].
  subst c'. cbn in Hu. discriminate.
Qed.

(** C4.  A payment in status processing is not touched by the expiry
    sweep, whatever its [expires_at]: its row, every order and the wallets
    that belong to it are the same after the sweep as before, and nothing
    is queued. *)
Theorem expiry_sweep_skips_processing (now : Z) (w : World) (id : Z) (p : Payment) :
  payments w !! id = Some p -> status p = Processing ->
  let w' := check_expired_payments now w in
  payments w' !! id = Some p
  /\ orders w' = orders w
  /\ wallets_of id w' = wallets_of id w
  /\ queue w' = queue w.
Proof.
  intros Hp Hs w'. subst w'.
  assert (Hnot : id ∉ (expired_payments now w).*1).
  { rewrite expired_payments_keys. intros (q & Hq & He).
    rewrite Hp in Hq. inversion Hq; subst q.
    apply is_expired_pending_true in He. destruct He as [He _]. congruence. }
  split; [|split; [|split]].
  - rewrite <- Hp. apply foldl_expire_payments_other. exact Hnot.
  - apply foldl_expire_orders.
  - unfold wallets_of. apply map_eq. intros k.
    rewrite !map_lookup_filter, sweep_wallets.
    destruct (wallets w !! k) as [c|]; [|reflexivity]. cbn.
    destruct (decide (payment c ∈ (expired_payments now w).*1)) as [Hin|Hin];
      [|reflexivity].
    cbn [set_is_used payment].
    destruct (decide (payment c = id)) as [Heq|Hne].
    + rewrite Heq in Hin. contradiction.
    + rewrite !option_guard_False by exact Hne. reflexivity.
  - apply foldl_expire_orders.
Qed.

Lemma expiry_sweep_skips_processing_witness :
  (payments w_processing !! pid
   = Some (mkPayment 1 7 crypto_btc Processing (mkDecimal false 4900 (-2)) "EUR"
             (Some (mkDecimal false 140000 (-8))) "BTC" "tb1qreceive" "0xabc" 0 3 ""
             0 60 None (Some 1800))
   /\ Processing = Processing)
  /\ payments (check_expired_payments 1860 w_processing) !! pid
     = payments w_processing !! pid.
Proof.
  assert (H : payments w_processing !! pid
              = Some (mkPayment 1 7 crypto_btc Processing (mkDecimal false 4900 (-2))
                        "EUR" (Some (mkDecimal false 140000 (-8))) "BTC"
                        "tb1qreceive" "0xabc" 0 3 "" 0 60 None (Some 1800))).
  { vm_compute. reflexivity. }
  split; [split; [exact H | reflexivity]|].
  rewrite H.
  apply (expiry_sweep_skips_processing 1860 w_processing pid _ H eq_refl).
Defined.

End ExpirySweep.

(** ** The webhook endpoint and the confirmation task *)

Section Webhook.

Import Facts Scenario.

Lemma payment_webhook_unknown now provider data w :
  payments w !! payment_id data = None ->
  payment_webhook now provider data w = (Error 500 "Internal Server Error", w).
Proof. intros H. unfold payment_webhook. rewrite H. reflexivity. Qed.

(** What the assigned instance carries is the payload's hash and count. *)
Lemma payment_fits_payload data p :
  payment_fits_columns
    (set_confirmations (wh_confirmations data)
       (set_transaction_hash (wh_transaction_hash data) p))
  = payload_fits data.
Proof. reflexivity. Qed.

Lemma payment_fits_confirmed now data p :
  payment_fits_columns
    (set_confirmed_at (Some now)
       (set_status Confirmed
          (set_confirmations (wh_confirmations data)
             (set_transaction_hash (wh_transaction_hash data) p))))
  = payload_fits data.
Proof. reflexivity. Qed.

Lemma payment_webhook_below now provider data w p :
  payments w !! payment_id data = Some p ->
  wh_confirmations data < required_confirmations p ->
  payload_fits data = true ->
  payment_webhook now provider data w
  = (Ok true,
     mkWorld (orders w) (<[ payment_id data := webhook_row now data p ]> (payments w))
       (wallets w) (queue w)).
Proof.
  intros Hp Hlt Hfit. unfold payment_webhook, webhook_row, webhook_save. rewrite Hp.
  cbn [required_confirmations set_confirmations set_transaction_hash].
  destruct (Z.leb_spec (required_confirmations p) (wh_confirmations data)); [lia|].
  rewrite payment_fits_payload, Hfit. reflexivity.
Qed.

Lemma payment_webhook_below_refused now provider data w p :
  payments w !! payment_id data = Some p ->
  wh_confirmations data < required_confirmations p ->
  payload_fits data = false ->
  payment_webhook now provider data w = (Error 500 "Internal Server Error", w).
Proof.
  intros Hp Hlt Hfit. unfold payment_webhook, webhook_save. rewrite Hp.
  cbn [required_confirmations set_confirmations set_transaction_hash].
  destruct (Z.leb_spec (required_confirmations p) (wh_confirmations data)); [lia|].
  rewrite payment_fits_payload, Hfit. reflexivity.
Qed.

Lemma payment_webhook_reached now provider data w p o :
  payments w !! payment_id data = Some p ->
  orders w !! order p = Some o ->
  required_confirmations p <= wh_confirmations data ->
  payload_fits data = true ->
  payment_webhook now provider data w
  = (Ok true,
     mkWorld (<[ order p := paid_order now o ]> (orders w))
       (<[ payment_id data := webhook_row now data p ]> (payments w))
       (wallets w)
       (queue w ++ [send_payment_confirmation_email_task (payment_id data)])).
Proof.
  intros Hp Ho Hle Hfit.
  unfold payment_webhook, webhook_row, mark_confirmed, webhook_save. rewrite Hp.
  cbn [required_confirmations set_confirmations set_transaction_hash order].
  destruct (Z.leb_spec (required_confirmations p) (wh_confirmations data)); [|lia].
  rewrite Ho. cbn [mbind option_bind]. rewrite payment_fits_confirmed, Hfit. reflexivity.
Qed.

(** The order is saved and the e-mail queued before [payment.save()]
    raises. *)
Lemma payment_webhook_reached_refused now provider data w p o :
  payments w !! payment_id data = Some p ->
  orders w !! order p = Some o ->
  required_confirmations p <= wh_confirmations data ->
  payload_fits data = false ->
  payment_webhook now provider data w
  = (Error 500 "Internal Server Error",
     mkWorld (<[ order p := paid_order now o ]> (orders w)) (payments w) (wallets w)
       (queue w ++ [send_payment_confirmation_email_task (payment_id data)])).
Proof.
  intros Hp Ho Hle Hfit.
  unfold payment_webhook, mark_confirmed, webhook_save. rewrite Hp.
  cbn [required_confirmations set_confirmations set_transaction_hash order].
  destruct (Z.leb_spec (required_confirmations p) (wh_confirmations data)); [|lia].
  rewrite Ho. cbn [mbind option_bind]. rewrite payment_fits_confirmed, Hfit. reflexivity.
Qed.

Lemma payment_webhook_no_order now provider data w p :
  payments w !! payment_id data = Some p ->
  orders w !! order p = None ->
  required_confirmations p <= wh_confirmations data ->
  payment_webhook now provider data w = (Error 500 "Internal Server Error", w).
Proof.
  intros Hp Ho Hle. unfold payment_webhook, mark_confirmed. rewrite Hp.
  cbn [required_confirmations set_confirmations set_transaction_hash order].
  destruct (Z.leb_spec (required_confirmations p) (wh_confirmations data)); [|lia].
  rewrite Ho. reflexivity.
Qed.

(** The payment table after a delivery: the named row replaced by
    [webhook_row] when the payload fits (and the order can be loaded once
    the threshold is reached), untouched otherwise. *)
Lemma payment_webhook_payments now provider data w :
  payments (payment_webhook now provider data w).2 = payments w
  \/ exists p, payments w !! payment_id data = Some p
               /\ payload_fits data = true
               /\ payments (payment_webhook now provider data w).2
                  = <[ payment_id data := webhook_row now data p ]> (payments w).
Proof.
  destruct (payments w !! payment_id data) as [p|] eqn:Hp.
  2:{ left. rewrite payment_webhook_unknown by exact Hp. reflexivity. }
  destruct (payload_fits data) eqn:Hfit;
    destruct (Z.le_gt_cases (required_confirmations p) (wh_confirmations data))
      as [Hle|Hgt].
  - destruct (orders w !! order p) as [o|] eqn:Ho.
    + right. exists p. rewrite (payment_webhook_reached _ _ _ _ _ _ Hp Ho Hle Hfit).
      repeat split.
    + left. rewrite (payment_webhook_no_order _ _ _ _ _ Hp Ho Hle). reflexivity.
  - right. exists p. rewrite (payment_webhook_below _ _ _ _ _ Hp) by (lia || exact Hfit).
    repeat split.
  - destruct (orders w !! order p) as [o|] eqn:Ho.
    + left. rewrite (payment_webhook_reached_refused _ _ _ _ _ _ Hp Ho Hle Hfit).
      reflexivity.
    + left. rewrite (payment_webhook_no_order _ _ _ _ _ Hp Ho Hle). reflexivity.
  - left. rewrite (payment_webhook_below_refused _ _ _ _ _ Hp) by (lia || exact Hfit).
    reflexivity.
Qed.

(** The order table after a delivery: the payment's order saved as paid
    when the threshold is reached, untouched otherwise. *)
Lemma payment_webhook_orders now provider data w :
  orders (payment_webhook now provider data w).2 = orders w
  \/ exists p o, payments w !! payment_id data = Some p
                 /\ orders w !! order p = Some o
                 /\ required_confirmations p <= wh_confirmations data
                 /\ orders (payment_webhook now provider data w).2
                    = <[ order p := paid_order now o ]> (orders w).
Proof.
  destruct (payments w !! payment_id data) as [p|] eqn:Hp.
  2:{ left. rewrite payment_webhook_unknown by exact Hp. reflexivity. }
  destruct (Z.le_gt_cases (required_confirmations p) (wh_confirmations data))
    as [Hle|Hgt].
  - destruct (orders w !! order p) as [o|] eqn:Ho.
    + right. exists p, o. split; [reflexivity|]. split; [exact Ho|]. split; [exact Hle|].
      destruct (payload_fits data) eqn:Hfit.
      * rewrite (payment_webhook_reached _ _ _ _ _ _ Hp Ho Hle Hfit). reflexivity.
      * rewrite (payment_webhook_reached_refused _ _ _ _ _ _ Hp Ho Hle Hfit). reflexivity.
    + left. rewrite (payment_webhook_no_order _ _ _ _ _ Hp Ho Hle). reflexivity.
  - left. destruct (payload_fits data) eqn:Hfit.
    + rewrite (payment_webhook_below _ _ _ _ _ Hp) by (lia || exact Hfit). reflexivity.
    + rewrite (payment_webhook_below_refused _ _ _ _ _ Hp) by (lia || exact Hfit).
      reflexivity.
Qed.

Lemma payment_webhook_wallets now provider data w :
  wallets (payment_webhook now provider data w).2 = wallets w.
Proof.
  unfold payment_webhook, mark_confirmed, webhook_save.
  destruct (payments w !! payment_id data) as [p|]; [|reflexivity].
  destruct (_ <=? _).
  - cbn [order set_confirmations set_transaction_hash].
    destruct (orders w !! order p); [|reflexivity].
    cbn [mbind option_bind]. destruct (payment_fits_columns _); reflexivity.
  - destruct (payment_fits_columns _); reflexivity.
Qed.

(** The saved row carries the payload's hash and count, whatever the row
    held before. *)
Lemma webhook_row_fields now data p :
  transaction_hash (webhook_row now data p) = wh_transaction_hash data
  /\ confirmations (webhook_row now data p) = wh_confirmations data
  /\ required_confirmations (webhook_row now data p) = required_confirmations p
  /\ order (webhook_row now data p) = order p
  /\ expires_at (webhook_row now data p) = expires_at p
  /\ status (webhook_row now data p)
     = (if required_confirmations p <=? wh_confirmations data
        then Confirmed else status p).
Proof.
  unfold webhook_row.
  cbn [required_confirmations set_confirmations set_transaction_hash].
  destruct (required_confirmations p <=? wh_confirmations data); repeat split.
Qed.

Lemma webhook_row_twice now1 now2 data p :
  webhook_row now2 data (webhook_row now1 data p) = webhook_row now2 data p.
Proof.
  unfold webhook_row.
  cbn [required_confirmations set_confirmations set_transaction_hash].
  destruct (required_confirmations p <=? wh_confirmations data) eqn:E;
    cbn [required_confirmations set_confirmations set_transaction_hash set_updated_at
         set_confirmed_at set_status];
    rewrite E; reflexivity.
Qed.

Lemma paid_order_twice now1 now2 o :
  paid_order now2 (paid_order now1 o) = paid_order now2 o.
Proof. reflexivity. Qed.

(** What a run of the confirmation task that got a ledger answer does. *)
Lemma monitor_transaction_confirmations_applied now id confs w p :
  payments w !! id = Some p ->
  status p = Processing -> transaction_hash p <> ""%string ->
  monitor_transaction_confirmations now id (Some confs) w
  = (if required_confirmations p <=? confs then
       match orders w !! order p with
       | Some o =>
           mkWorld (<[ order p := paid_order now o ]> (orders w))
             (<[ id := set_updated_at now
                         (set_confirmed_at (Some now)
                            (set_status Confirmed (set_confirmations confs p))) ]>
                (payments w))
             (wallets w)
             (queue w ++ [send_payment_confirmation_email_task id])
       | None => w
       end
     else
       mkWorld (orders w)
         (<[ id := set_updated_at now (set_confirmations confs p) ]> (payments w))
         (wallets w)
         (queue w ++ [monitor_transaction_confirmations_task id 60])).
Proof.
  intros Hp Hs Hh. unfold monitor_transaction_confirmations, mark_confirmed.
  rewrite Hp, Hs. rewrite bool_decide_eq_true_2 by reflexivity.
  rewrite bool_decide_eq_false_2 by exact Hh.
  cbn [negb orb required_confirmations set_confirmations order].
  destruct (required_confirmations p <=? confs); [|reflexivity].
  destruct (orders w !! order p); reflexivity.
Qed.

Lemma forget_webhook_row now1 now2 data p :
  forget_payment_times (webhook_row now2 data p)
  = forget_payment_times (webhook_row now1 data p).
Proof.
  unfold webhook_row, forget_payment_times.
  destruct (required_confirmations _ <=? wh_confirmations data); reflexivity.
Qed.

(** *** C1 *)

(** C1, as stated, fails: the webhook lowers a stored count of 2 to 1. *)
Lemma confirmations_can_decrease :
  ~ (forall now provider data w p p',
       payments w !! payment_id data = Some p ->
       payments (payment_webhook now provider data w).2 !! payment_id data = Some p' ->
       confirmations p <= confirmations p').
Proof.
  intros H. pose (d := payload "0xabc" 1).
  destruct (payments w_seen_twice !! payment_id d) as [p|] eqn:E1;
    [|vm_compute in E1; discriminate].
  destruct (payments (payment_webhook 180 "provider" d w_seen_twice).2 !! payment_id d)
    as [p'|] eqn:E2; [|vm_compute in E2; discriminate].
  specialize (H _ _ _ _ _ _ E1 E2).
  vm_compute in E1, E2. inversion E1; inversion E2; subst p p'.
  vm_compute in H. apply H. reflexivity.
Qed.

(** C1, amended.  Every confirmation update that is applied overwrites the
    stored count with the reported one: after a webhook delivery for an
    existing payment, with a payload whose hash and count fit their
    columns, the stored count is the payload's, and after a run of the
    confirmation task on a processing payment with a recorded hash the
    stored count is the ledger's, lower or not. *)
Theorem confirmations_follow_last_report now provider data w p o :
  payments w !! payment_id data = Some p ->
  orders w !! order p = Some o ->
  payload_fits data = true ->
  confirmations <$> payments (payment_webhook now provider data w).2 !! payment_id data
  = Some (wh_confirmations data)
  /\ (status p = Processing -> transaction_hash p <> ""%string ->
      forall confs,
        confirmations
          <$> payments (monitor_transaction_confirmations now (payment_id data)
                          (Some confs) w) !! payment_id data
        = Some confs).
Proof.
  intros Hp Ho Hfit. split.
  - destruct (Z.le_gt_cases (required_confirmations p) (wh_confirmations data)).
    + rewrite (payment_webhook_reached _ _ _ _ _ _ Hp Ho) by assumption.
      cbn [snd payments]. rewrite lookup_insert_eq. cbn.
      f_equal. apply webhook_row_fields.
    + rewrite (payment_webhook_below _ _ _ _ _ Hp) by (lia || exact Hfit).
      cbn [snd payments]. rewrite lookup_insert_eq. cbn.
      f_equal. apply webhook_row_fields.
  - intros Hs Hh confs.
    rewrite (monitor_transaction_confirmations_applied _ _ _ _ _ Hp Hs Hh), Ho.
    destruct (required_confirmations p <=? confs);
      cbn [payments]; rewrite lookup_insert_eq; reflexivity.
Qed.

Lemma confirmations_follow_last_report_witness :
  (payments w_seen_twice !! payment_id (payload "0xabc" 1)
   = Some (row Pending "0xabc" 2 120 None)
   /\ orders w_seen_twice !! order (row Pending "0xabc" 2 120 None) = Some order1
   /\ payload_fits (payload "0xabc" 1) = true)
  /\ confirmations
       <$> payments (payment_webhook 180 "provider" (payload "0xabc" 1) w_seen_twice).2
           !! payment_id (payload "0xabc" 1)
     = Some 1.
Proof.
  assert (Hp : payments w_seen_twice !! payment_id (payload "0xabc" 1)
               = Some (row Pending "0xabc" 2 120 None)) by (vm_compute; reflexivity).
  assert (Ho : orders w_seen_twice !! order (row Pending "0xabc" 2 120 None)
               = Some order1) by (vm_compute; reflexivity).
  assert (Hfit : payload_fits (payload "0xabc" 1) = true) by (vm_compute; reflexivity).
  split; [split; [exact Hp | split; [exact Ho | exact Hfit]]|].
  exact (proj1 (confirmations_follow_last_report 180 "provider" (payload "0xabc" 1)
                  w_seen_twice _ _ Hp Ho Hfit)).
Defined.

(** *** C2 *)

(** C2, as stated, fails: a payload with a foreign hash delivered for an
    expired payment is applied. *)
Lemma webhook_accepts_foreign_hash :
  ~ (forall now provider data w p,
       payments w !! payment_id data = Some p ->
       status p <> Processing \/ transaction_hash p <> wh_transaction_hash data ->
       payments (payment_webhook now provider data w).2 !! payment_id data = Some p).
Proof.
  intros H. pose (d := payload "0xdef" 3).
  destruct (payments w_swept !! payment_id d) as [p|] eqn:E1;
    [|vm_compute in E1; discriminate].
  assert (Hs : status p <> Processing \/ transaction_hash p <> wh_transaction_hash d).
  { vm_compute in E1. inversion E1; subst p. left. discriminate. }
  specialize (H 2000 "provider"%string d w_swept p E1 Hs).
  vm_compute in E1. inversion E1; subst p.
  vm_compute in H. discriminate.
Qed.

(** C2, amended.  For every existing payment and every payload whose hash
    and count fit their columns, the update is applied, whatever the
    payment's status and recorded hash: the endpoint answers success and
    the stored row carries the payload's hash and count (and status
    confirmed once the count reaches the threshold). *)
Theorem webhook_applies_to_any_payment now provider data w p o :
  payments w !! payment_id data = Some p ->
  orders w !! order p = Some o ->
  payload_fits data = true ->
  exists w',
    payment_webhook now provider data w = (Ok true, w')
    /\ payments w' !! payment_id data = Some (webhook_row now data p)
    /\ transaction_hash (webhook_row now data p) = wh_transaction_hash data
    /\ confirmations (webhook_row now data p) = wh_confirmations data
    /\ status (webhook_row now data p)
       = (if required_confirmations p <=? wh_confirmations data
          then Confirmed else status p).
Proof.
  intros Hp Ho Hfit.
  destruct (webhook_row_fields now data p) as (Hh & Hc & _ & _ & _ & Hs).
  destruct (Z.le_gt_cases (required_confirmations p) (wh_confirmations data)).
  - rewrite (payment_webhook_reached _ _ _ _ _ _ Hp Ho) by assumption.
    eexists. split; [reflexivity|]. cbn [payments]. rewrite lookup_insert_eq. auto.
  - rewrite (payment_webhook_below _ _ _ _ _ Hp) by (lia || exact Hfit).
    eexists. split; [reflexivity|]. cbn [payments]. rewrite lookup_insert_eq. auto.
Qed.

Lemma webhook_applies_to_any_payment_witness :
  (payments w_swept !! payment_id (payload "0xdef" 3)
   = Some (row Expired "0xabc" 1 1860 None)
   /\ orders w_swept !! order (row Expired "0xabc" 1 1860 None) = Some order1
   /\ payload_fits (payload "0xdef" 3) = true)
  /\ exists w',
       payment_webhook 2000 "provider" (payload "0xdef" 3) w_swept = (Ok true, w')
       /\ payments w' !! payment_id (payload "0xdef" 3)
          = Some (webhook_row 2000 (payload "0xdef" 3) (row Expired "0xabc" 1 1860 None)).
Proof.
  assert (Hp : payments w_swept !! payment_id (payload "0xdef" 3)
               = Some (row Expired "0xabc" 1 1860 None)) by (vm_compute; reflexivity).
  assert (Ho : orders w_swept !! order (row Expired "0xabc" 1 1860 None)
               = Some order1) by (vm_compute; reflexivity).
  assert (Hfit : payload_fits (payload "0xdef" 3) = true) by (vm_compute; reflexivity).
  split; [split; [exact Hp | split; [exact Ho | exact Hfit]]|].
  destruct (webhook_applies_to_any_payment 2000 "provider" (payload "0xdef" 3)
              w_swept _ _ Hp Ho Hfit) as (w' & Hw & Hrow & _).
  exists w'. split; assumption.
Defined.

(** *** C8 *)

(** C8, as stated, fails: a second delivery of a confirming payload, 100
    seconds after the first, moves [confirmed_at] from 100 to 200. *)
Lemma redelivery_restamps_confirmed_at :
  ~ (forall now1 now2 provider data w,
       let once := (payment_webhook now1 provider data w).2 in
       let twice := (payment_webhook now2 provider data once).2 in
       payments twice = payments once /\ orders twice = orders once).
Proof.
  intros H.
  destruct (H 100 200 "provider"%string (payload "0xabc" 3) w_initiated) as [Hp _].
  apply (f_equal (fun m : gmap Z Payment => confirmed_at <$> m !! pid)) in Hp.
  vm_compute in Hp. discriminate.
Qed.

Lemma webhook_second_delivery now1 now2 provider data w :
  same_tables (payment_webhook now2 provider data
                 (payment_webhook now1 provider data w).2).2
              (payment_webhook now2 provider data w).2.
Proof.
  destruct (payments w !! payment_id data) as [p|] eqn:Hp.
  2:{ rewrite (payment_webhook_unknown now1) by exact Hp. repeat split. }
  destruct (webhook_row_fields now1 data p) as (_ & _ & Hreq & Hord & _ & _).
  destruct (Z.le_gt_cases (required_confirmations p) (wh_confirmations data)) as [Hle|Hgt].
  - destruct (orders w !! order p) as [o|] eqn:Ho.
    2:{ rewrite (payment_webhook_no_order now1 provider data w p Hp Ho Hle). repeat split. }
    destruct (payload_fits data) eqn:Hfit.
    + rewrite (payment_webhook_reached now1 _ _ _ _ _ Hp Ho Hle Hfit). cbn [snd].
      rewrite (payment_webhook_reached now2 _ _ _ _ _ Hp Ho Hle Hfit). cbn [snd].
      erewrite (payment_webhook_reached now2 _ _ _ (webhook_row now1 data p)
                  (paid_order now1 o)).
      * cbn [snd]. unfold same_tables; cbn [orders payments wallets].
        rewrite Hord, !insert_insert_eq, webhook_row_twice, paid_order_twice.
        repeat split.
      * cbn [payments]. apply lookup_insert_eq.
      * cbn [orders]. rewrite Hord. apply lookup_insert_eq.
      * rewrite Hreq. exact Hle.
      * exact Hfit.
    + rewrite (payment_webhook_reached_refused now1 _ _ _ _ _ Hp Ho Hle Hfit). cbn [snd].
      rewrite (payment_webhook_reached_refused now2 _ _ _ _ _ Hp Ho Hle Hfit). cbn [snd].
      erewrite (payment_webhook_reached_refused now2 _ _ _ p (paid_order now1 o)).
      * cbn [snd]. unfold same_tables; cbn [orders payments wallets].
        rewrite !insert_insert_eq, paid_order_twice. repeat split.
      * cbn [payments]. exact Hp.
      * cbn [orders]. apply lookup_insert_eq.
      * exact Hle.
      * exact Hfit.
  - destruct (payload_fits data) eqn:Hfit.
    + rewrite (payment_webhook_below now1 _ _ _ _ Hp) by (lia || exact Hfit). cbn [snd].
      rewrite (payment_webhook_below now2 _ _ _ _ Hp) by (lia || exact Hfit). cbn [snd].
      erewrite (payment_webhook_below now2 _ _ _ (webhook_row now1 data p)).
      * cbn [snd]. unfold same_tables; cbn [orders payments wallets].
        rewrite !insert_insert_eq, webhook_row_twice. repeat split.
      * cbn [payments]. apply lookup_insert_eq.
      * rewrite Hreq. lia.
      * exact Hfit.
    + rewrite (payment_webhook_below_refused now1 _ _ _ _ Hp) by (lia || exact Hfit).
      repeat split.
Qed.

Lemma webhook_forget_times now1 now2 provider data w :
  forget_payment_times <$> payments (payment_webhook now2 provider data w).2
  = forget_payment_times <$> payments (payment_webhook now1 provider data w).2
  /\ forget_order_times <$> orders (payment_webhook now2 provider data w).2
     = forget_order_times <$> orders (payment_webhook now1 provider data w).2.
Proof.
  destruct (payments w !! payment_id data) as [p|] eqn:Hp.
  2:{ rewrite !payment_webhook_unknown by exact Hp. split; reflexivity. }
  destruct (Z.le_gt_cases (required_confirmations p) (wh_confirmations data)) as [Hle|Hgt].
  - destruct (orders w !! order p) as [o|] eqn:Ho.
    2:{ rewrite !(payment_webhook_no_order _ provider data w p Hp Ho Hle). split; reflexivity. }
    destruct (payload_fits data) eqn:Hfit.
    + rewrite (payment_webhook_reached now1 _ _ _ _ _ Hp Ho Hle Hfit).
      rewrite (payment_webhook_reached now2 _ _ _ _ _ Hp Ho Hle Hfit).
      cbn [snd payments orders]. rewrite !fmap_insert.
      rewrite (forget_webhook_row now1 now2). split; reflexivity.
    + rewrite (payment_webhook_reached_refused now1 _ _ _ _ _ Hp Ho Hle Hfit).
      rewrite (payment_webhook_reached_refused now2 _ _ _ _ _ Hp Ho Hle Hfit).
      cbn [snd payments orders]. rewrite !fmap_insert. split; reflexivity.
  - destruct (payload_fits data) eqn:Hfit.
    + rewrite (payment_webhook_below now1 _ _ _ _ Hp) by (lia || exact Hfit).
      rewrite (payment_webhook_below now2 _ _ _ _ Hp) by (lia || exact Hfit).
      cbn [snd payments orders]. rewrite !fmap_insert.
      rewrite (forget_webhook_row now1 now2). split; reflexivity.
    + rewrite !(payment_webhook_below_refused _ provider data w p Hp) by (lia || exact Hfit).
      split; reflexivity.
Qed.

(** C8, amended.  Applying a payload twice yields the payment, order and
    wallet tables of a single application made at the time of the second
    delivery; hence, timestamps ([confirmed_at], [paid_at], [updated_at])
    apart, the rows are those of applying it once, and two deliveries at
    the same instant give exactly the tables of one. *)
Theorem webhook_redelivery now1 now2 provider data w :
  let once := (payment_webhook now1 provider data w).2 in
  let twice := (payment_webhook now2 provider data once).2 in
  same_tables twice (payment_webhook now2 provider data w).2
  /\ forget_payment_times <$> payments twice = forget_payment_times <$> payments once
  /\ forget_order_times <$> orders twice = forget_order_times <$> orders once
  /\ wallets twice = wallets once
  /\ same_tables (payment_webhook now1 provider data once).2 once.
Proof.
  intros once twice. subst once twice.
  pose proof (webhook_second_delivery now1 now2 provider data w) as Hsame.
  destruct (webhook_forget_times now1 now2 provider data w) as [Hfp Hfo].
  split; [exact Hsame|].
  destruct Hsame as (Ho & Hp & Hw).
  split; [rewrite Hp; exact Hfp|].
  split; [rewrite Ho; exact Hfo|].
  split; [rewrite !payment_webhook_wallets; reflexivity|].
  apply webhook_second_delivery.
Qed.

(** *** C9 *)

(** C9, as stated, fails: a confirming payload delivered for a shipped
    order puts the order back to paid and overwrites [paid_at]. *)
Lemma confirmation_regresses_shipped_order :
  ~ (forall now provider data w p o o',
       payments w !! payment_id data = Some p ->
       orders w !! order p = Some o ->
       paid_or_beyond (order_status o) ->
       required_confirmations p <= wh_confirmations data ->
       orders (payment_webhook now provider data w).2 !! order p = Some o' ->
       order_status o' = order_status o /\ paid_at o' = paid_at o).
Proof.
  intros H.
  assert (Hp : payments w_shipped !! payment_id (payload "0xabc" 3)
               = Some (row Confirmed "0xabc" 3 100 (Some 100)))
    by (vm_compute; reflexivity).
  assert (Ho : orders w_shipped !! order (row Confirmed "0xabc" 3 100 (Some 100))
               = Some (mkOrder 7 "ORD-1A2B3C4D" OShipped (mkDecimal false 4900 (-2))
                         100 (Some 100)))
    by (vm_compute; reflexivity).
  assert (Ho' : orders (payment_webhook 200 "provider" (payload "0xabc" 3) w_shipped).2
                  !! order (row Confirmed "0xabc" 3 100 (Some 100))
                = Some (mkOrder 7 "ORD-1A2B3C4D" OPaid (mkDecimal false 4900 (-2))
                          200 (Some 200)))
    by (vm_compute; reflexivity).
  assert (Hb : paid_or_beyond OShipped) by (right; left; reflexivity).
  assert (Hle : required_confirmations (row Confirmed "0xabc" 3 100 (Some 100))
                <= wh_confirmations (payload "0xabc" 3))
    by (vm_compute; discriminate).
  destruct (H 200 "provider"%string (payload "0xabc" 3) w_shipped _ _ _
              Hp Ho Hb Hle Ho') as [Hs _].
  discriminate.
Qed.

(** C9, amended.  A payment reaching its confirmation threshold, through
    the webhook or through the confirmation task, sets the order's status
    to paid and stamps [paid_at] with the current time whatever the
    order's status was: an order already paid, shipped or delivered is put
    back to paid and its [paid_at] is overwritten. *)
Theorem confirmation_marks_order_paid now provider data w p o :
  payments w !! payment_id data = Some p ->
  orders w !! order p = Some o ->
  required_confirmations p <= wh_confirmations data ->
  orders (payment_webhook now provider data w).2 !! order p = Some (paid_order now o)
  /\ order_status (paid_order now o) = OPaid
  /\ paid_at (paid_order now o) = Some now
  /\ (status p = Processing -> transaction_hash p <> ""%string ->
      orders (monitor_transaction_confirmations now (payment_id data)
                (Some (wh_confirmations data)) w) !! order p
      = Some (paid_order now o)).
Proof.
  intros Hp Ho Hle. split; [|split; [reflexivity|split; [reflexivity|]]].
  - destruct (payload_fits data) eqn:Hfit.
    + rewrite (payment_webhook_reached _ _ _ _ _ _ Hp Ho Hle Hfit).
      cbn [snd orders]. apply lookup_insert_eq.
    + rewrite (payment_webhook_reached_refused _ _ _ _ _ _ Hp Ho Hle Hfit).
      cbn [snd orders]. apply lookup_insert_eq.
  - intros Hs Hh.
    rewrite (monitor_transaction_confirmations_applied _ _ _ _ _ Hp Hs Hh), Ho.
    destruct (Z.leb_spec (required_confirmations p) (wh_confirmations data)); [|lia].
    cbn [orders]. apply lookup_insert_eq.
Qed.

Lemma confirmation_marks_order_paid_witness :
  (payments w_shipped !! payment_id (payload "0xabc" 3)
   = Some (row Confirmed "0xabc" 3 100 (Some 100))
   /\ orders w_shipped !! order (row Confirmed "0xabc" 3 100 (Some 100))
      = Some (mkOrder 7 "ORD-1A2B3C4D" OShipped (mkDecimal false 4900 (-2))
                100 (Some 100))
   /\ required_confirmations (row Confirmed "0xabc" 3 100 (Some 100))
      <= wh_confirmations (payload "0xabc" 3))
  /\ orders (payment_webhook 200 "provider" (payload "0xabc" 3) w_shipped).2
       !! order (row Confirmed "0xabc" 3 100 (Some 100))
     = Some (paid_order 200
               (mkOrder 7 "ORD-1A2B3C4D" OShipped (mkDecimal false 4900 (-2))
                  100 (Some 100))).
Proof.
  assert (Hp : payments w_shipped !! payment_id (payload "0xabc" 3)
               = Some (row Confirmed "0xabc" 3 100 (Some 100)))
    by (vm_compute; reflexivity).
  assert (Ho : orders w_shipped !! order (row Confirmed "0xabc" 3 100 (Some 100))
               = Some (mkOrder 7 "ORD-1A2B3C4D" OShipped (mkDecimal false 4900 (-2))
                         100 (Some 100)))
    by (vm_compute; reflexivity).
  assert (Hle : required_confirmations (row Confirmed "0xabc" 3 100 (Some 100))
                <= wh_confirmations (payload "0xabc" 3))
    by (vm_compute; discriminate).
  split; [repeat split; assumption|].
  exact (proj1 (confirmation_marks_order_paid 200 "provider" (payload "0xabc" 3)
                  w_shipped _ _ Hp Ho Hle)).
Defined.

End Webhook.

(** ** Wallet release, expiry after an observed transaction, re-initiation *)

Section Lifecycle.

Import Facts Scenario.

Lemma no_wallet_marked_used_same (w w' : World) :
  wallets w' = wallets w -> no_wallet_marked_used w w'.
Proof. intros E k c' Hk _. rewrite <- E. exact Hk. Qed.

Lemma monitor_transaction_confirmations_wallets now id tx_info w :
  wallets (monitor_transaction_confirmations now id tx_info w) = wallets w.
Proof.
  unfold monitor_transaction_confirmations, mark_confirmed.
  destruct (payments w !! id) as [p|]; [|reflexivity].
  destruct (_ || _); [reflexivity|].
  destruct tx_info as [confs|]; [|reflexivity].
  destruct (_ <=? _); [|reflexivity].
  cbn [order set_confirmations].
  destruct (orders w !! order p); reflexivity.
Qed.

Lemma monitor_crypto_payment_wallets now id w :
  wallets (monitor_crypto_payment now id w).2 = wallets w.
Proof.
  unfold monitor_crypto_payment.
  destruct (payments w !! id) as [p|]; [|reflexivity].
  destruct (negb _); [reflexivity|].
  destruct (expires_at p) as [t|]; [|reflexivity].
  destruct (t <? now); reflexivity.
Qed.

Lemma initiate_payment_no_wallet_marked_used now auth data wallet_data w :
  no_wallet_marked_used w (initiate_payment now auth data wallet_data w).2.
Proof.
  destruct (initiate_payment now auth data wallet_data w) as [[body|code detail] w'] eqn:E.
  - destruct (initiate_payment_ok _ _ _ _ _ _ _ E)
      as (o & processor & cur & crypto & id & p & w1 & w2
          & _ & _ & _ & _ & Hp & Hw & _ & ->).
    unfold create_payment in Hp.
    destruct (order_payment (order_id data) w); [discriminate|].
    inversion Hp; subst id p w1. clear Hp.
    unfold create_wallet in Hw. destruct (decide _); [discriminate|].
    inversion Hw; subst w2. clear Hw.
    intros k c' Hk Hu. cbn [snd send_task wallets] in Hk.
    rewrite lookup_insert in Hk. destruct (decide _) as [_|_]; [|exact Hk].
    inversion Hk; subst c'. discriminate.
  - assert (w' = w); [|subst w'; apply no_wallet_marked_used_same; reflexivity].
    revert E. unfold initiate_payment.
    repeat match goal with
           | |- context [match ?x with _ => _ end] => destruct x
           end; intros E; inversion E; reflexivity.
Qed.

(** *** C3 *)

(** C3, as stated, fails: the payment saw transaction 0xabc (one
    confirmation, reported by a webhook) and stayed pending; the sweep
    expires it and its wallet ends with [is_used = False]. *)
Lemma sweep_releases_wallet_after_transaction :
  ~ (forall now w id p k c,
       payments w !! id = Some p ->
       is_expired_pending now p = true ->
       transaction_hash p <> ""%string ->
       wallets (check_expired_payments now w) !! k = Some c ->
       payment c = id ->
       is_used c = true).
Proof.
  intros H.
  assert (Hp : payments w_seen !! pid = Some (row Pending "0xabc" 1 60 None))
    by (vm_compute; reflexivity).
  assert (Hw : wallets (check_expired_payments 1860 w_seen) !! 0
               = Some (mkCryptoWallet pid "BTC" "tb1qreceive" "wif"
                         "m/84'/1'/0'/0/1" false 0))
    by (vm_compute; reflexivity).
  assert (Hh : transaction_hash (row Pending "0xabc" 1 60 None) <> ""%string)
    by (cbn; discriminate).
  specialize (H 1860 w_seen pid _ 0 _ Hp eq_refl Hh Hw eq_refl).
  cbn in H. discriminate H.
Qed.

(** C3, amended.  For every payment that the expiry sweep takes from
    pending to expired, each wallet record of the payment has
    [is_used = False] afterwards, whether or not a transaction hash was
    recorded on the payment; and no operation of the workflow (initiation,
    webhook, detection callback, confirmation task, sweep) ever sets
    [is_used] to true. *)
Theorem expiry_sweep_releases_wallets now w id p :
  payments w !! id = Some p ->
  is_expired_pending now p = true ->
  let w' := check_expired_payments now w in
  status <$> payments w' !! id = Some Expired
  /\ (forall k c, wallets w' !! k = Some c -> payment c = id -> is_used c = false)
  /\ no_wallet_marked_used w w'
  /\ (forall t provider data,
        no_wallet_marked_used w (payment_webhook t provider data w).2)
  /\ (forall t i, no_wallet_marked_used w (monitor_crypto_payment t i w).2)
  /\ (forall t i q tx_hash, no_wallet_marked_used w (payment_detected t i q tx_hash w))
  /\ (forall t i tx_info,
        no_wallet_marked_used w (monitor_transaction_confirmations t i tx_info w))
  /\ (forall t auth data wallet_data,
        no_wallet_marked_used w (initiate_payment t auth data wallet_data w).2).
Proof.
  intros Hp He w'. subst w'.
  split; [rewrite (sweep_payment_expired _ _ _ _ Hp He); reflexivity|].
  split.
  { intros k c Hk Hc. rewrite sweep_wallets in Hk.
    destruct (wallets w !! k) as [c0|]; [|discriminate].
    cbn in Hk. inversion Hk as [Hc0]. clear Hk.
    destruct (decide (payment c0 ∈ (expired_payments now w).*1)) as [_|Hn].
    - subst c. reflexivity.
    - subst c. exfalso. apply Hn. rewrite Hc.
      apply expired_payments_keys. exists p. split; assumption. }
  split; [apply sweep_no_wallet_marked_used|].
  split; [intros; apply no_wallet_marked_used_same, payment_webhook_wallets|].
  split; [intros; apply no_wallet_marked_used_same, monitor_crypto_payment_wallets|].
  split; [intros; apply no_wallet_marked_used_same; reflexivity|].
  split; [intros; apply no_wallet_marked_used_same,
                        monitor_transaction_confirmations_wallets|].
  intros. apply initiate_payment_no_wallet_marked_used.
Qed.

Lemma expiry_sweep_releases_wallets_witness :
  (payments w_seen !! pid = Some (row Pending "0xabc" 1 60 None)
   /\ is_expired_pending 1860 (row Pending "0xabc" 1 60 None) = true)
  /\ status <$> payments (check_expired_payments 1860 w_seen) !! pid = Some Expired.
Proof.
  assert (Hp : payments w_seen !! pid = Some (row Pending "0xabc" 1 60 None))
    by (vm_compute; reflexivity).
  split; [split; [exact Hp | reflexivity]|].
  exact (proj1 (expiry_sweep_releases_wallets 1860 w_seen pid _ Hp eq_refl)).
Defined.

(** *** C10 *)

(** C10, as stated, fails: a payload whose count lies below the range of
    the [confirmations] column (and so below the threshold) is delivered
    for the pending payment of the scenario; [payment.save()] raises and
    neither the hash nor the count is recorded. *)
Lemma unstorable_count_is_not_recorded :
  ~ (forall now provider data w p p',
       payments w !! payment_id data = Some p ->
       status p = Pending ->
       wh_confirmations data < required_confirmations p ->
       payments (payment_webhook now provider data w).2 !! payment_id data = Some p' ->
       transaction_hash p' = wh_transaction_hash data
       /\ confirmations p' = wh_confirmations data
       /\ status p' = Pending).
Proof.
  intros H. pose (d := payload "0xabc" (-10000000000000000000)).
  assert (Hp : payments w_initiated !! payment_id d = Some (row Pending "" 0 0 None))
    by (vm_compute; reflexivity).
  assert (Hlt : wh_confirmations d < required_confirmations (row Pending "" 0 0 None))
    by (vm_compute; reflexivity).
  assert (Hp' : payments (payment_webhook 60 "provider" d w_initiated).2 !! payment_id d
                = Some (row Pending "" 0 0 None)) by (vm_compute; reflexivity).
  destruct (H 60 "provider"%string d w_initiated _ _ Hp eq_refl Hlt Hp') as [Hh _].
  cbn in Hh. discriminate Hh.
Qed.

(** C10, amended.  A webhook payload below the threshold whose hash and
    count fit their columns, delivered for a pending payment, records its
    hash and count and leaves the payment pending; the payment then still
    matches the sweep's filter once [expires_at] has passed, and the sweep
    expires it. *)
Theorem pending_payment_with_transaction_can_expire now provider data w p :
  payments w !! payment_id data = Some p ->
  status p = Pending ->
  wh_confirmations data < required_confirmations p ->
  payload_fits data = true ->
  let w' := (payment_webhook now provider data w).2 in
  let p' := webhook_row now data p in
  payments w' !! payment_id data = Some p'
  /\ transaction_hash p' = wh_transaction_hash data
  /\ confirmations p' = wh_confirmations data
  /\ status p' = Pending
  /\ (forall later t,
        expires_at p = Some t -> t < later ->
        is_expired_pending later p' = true
        /\ status <$> payments (check_expired_payments later w') !! payment_id data
           = Some Expired).
Proof.
  intros Hp Hs Hlt Hfit w' p'. subst w' p'.
  destruct (webhook_row_fields now data p) as (Hh & Hc & _ & _ & Hexp & Hst).
  destruct (Z.leb_spec (required_confirmations p) (wh_confirmations data)); [lia|].
  rewrite (payment_webhook_below _ _ _ _ _ Hp Hlt Hfit). cbn [snd].
  assert (Hrow : payments
                   (mkWorld (orders w)
                      (<[ payment_id data := webhook_row now data p ]> (payments w))
                      (wallets w) (queue w)) !! payment_id data
                 = Some (webhook_row now data p)).
  { cbn [payments]. apply lookup_insert_eq. }
  split; [exact Hrow|]. split; [exact Hh|]. split; [exact Hc|].
  split; [congruence|].
  intros later t Ht Hlater.
  assert (He : is_expired_pending later (webhook_row now data p) = true).
  { apply is_expired_pending_true. split; [congruence|].
    exists t. split; [congruence | exact Hlater]. }
  split; [exact He|].
  rewrite (sweep_payment_expired _ _ _ _ Hrow He). reflexivity.
Qed.

Lemma pending_payment_with_transaction_can_expire_witness :
  (payments w_initiated !! payment_id (payload "0xabc" 1)
   = Some (row Pending "" 0 0 None)
   /\ status (row Pending "" 0 0 None) = Pending
   /\ wh_confirmations (payload "0xabc" 1)
      < required_confirmations (row Pending "" 0 0 None)
   /\ payload_fits (payload "0xabc" 1) = true)
  /\ payments (payment_webhook 60 "provider" (payload "0xabc" 1) w_initiated).2
       !! payment_id (payload "0xabc" 1)
     = Some (webhook_row 60 (payload "0xabc" 1) (row Pending "" 0 0 None)).
Proof.
  assert (Hp : payments w_initiated !! payment_id (payload "0xabc" 1)
               = Some (row Pending "" 0 0 None)) by (vm_compute; reflexivity).
  assert (Hlt : wh_confirmations (payload "0xabc" 1)
                < required_confirmations (row Pending "" 0 0 None))
    by (vm_compute; reflexivity).
  assert (Hfit : payload_fits (payload "0xabc" 1) = true) by (vm_compute; reflexivity).
  split; [repeat split; assumption|].
  exact (proj1 (pending_payment_with_transaction_can_expire 60 "provider"
                  (payload "0xabc" 1) w_initiated _ Hp eq_refl Hlt Hfit)).
Defined.

(** *** C7 *)

(** An order that has a payment which is not failed takes the duplicate
    branch: the call of [router.create_response] raises, the answer is a
    500 and nothing is written. *)
Lemma initiate_payment_duplicate now auth data wallet_data w o id p :
  schema_accepts (pi_payment_method data) = true ->
  orders w !! order_id data = Some o -> order_user o = auth ->
  order_payment (order_id data) w = Some (id, p) -> status p <> Failed ->
  initiate_payment now auth data wallet_data w
  = (Error 500 "Internal Server Error", w).
Proof.
  intros Hm Ho Hu Hop Hf. unfold initiate_payment. rewrite Hm, Ho. cbn [negb].
  rewrite bool_decide_eq_true_2 by exact Hu. cbn [negb].
  rewrite Hop, (bool_decide_eq_false_2 _ Hf). reflexivity.
Qed.

(** While an order has a payment row, failed or not, no initiation for it
    succeeds: the UNIQUE constraint of [Payment.order] rejects the insert. *)
Lemma initiate_payment_never_replaces now auth data wallet_data w id p body w' :
  order_payment (order_id data) w = Some (id, p) ->
  initiate_payment now auth data wallet_data w <> (Ok body, w').
Proof.
  intros Hop E.
  destruct (initiate_payment_ok _ _ _ _ _ _ _ E)
    as (o & processor & cur & crypto & id' & p' & w1 & w2
        & _ & _ & _ & _ & Hc & _).
  unfold create_payment in Hc. rewrite Hop in Hc. discriminate.
Qed.

(** C7 at its failing input: the order's only payment has been failed, and
    a fresh initiation (new wallet, 2000 s later) ends in a server error
    that leaves every table as it was; no new pending payment exists. *)
Theorem reinitiation_after_failure_is_rejected :
  order_payment 1 w_failed = Some (pid, row Failed "" 0 0 None)
  /\ initiate_payment 2000 7 request1 wallet2 w_failed
     = (Error 500 "Internal Server Error", w_failed)
  /\ map_to_list (payments w_failed) = [(pid, row Failed "" 0 0 None)].
Proof.
  split; [vm_compute; reflexivity|].
  split; vm_compute; reflexivity.
Qed.

End Lifecycle.

(** * Further properties of the payment code *)

(** ** The expiry sweep as a whole *)

Section SweepAsAMap.

Import Facts Invariants Scenario.

Lemma sweep_payments_map (now : Z) (w : World) :
  payments (check_expired_payments now w) = sweep_row now <$> payments w.
Proof.
  apply map_eq. intros id. rewrite lookup_fmap.
  destruct (payments w !! id) as [p|] eqn:Hp; cbn.
  - unfold sweep_row. destruct (is_expired_pending now p) eqn:He.
    + apply sweep_payment_expired; assumption.
    + rewrite sweep_payment_kept; [exact Hp|].
      intros q Hq. rewrite Hp in Hq. inversion Hq; subst q. exact He.
  - rewrite sweep_payment_kept; [exact Hp|].
    intros q Hq. rewrite Hp in Hq. discriminate.
Qed.

Lemma sweep_wallets_map (now : Z) (w : World) :
  wallets (check_expired_payments now w) = sweep_wallet now w <$> wallets w.
Proof.
  apply map_eq. intros k. rewrite sweep_wallets, lookup_fmap.
  destruct (wallets w !! k) as [c|]; [|reflexivity]. cbn. f_equal.
  unfold sweep_wallet.
  destruct (decide (payment c ∈ (expired_payments now w).*1)) as [Hin|Hin].
  - apply expired_payments_keys in Hin. destruct Hin as (p & -> & ->). reflexivity.
  - destruct (payments w !! payment c) as [p|] eqn:Hp; [|reflexivity].
    destruct (is_expired_pending now p) eqn:He; [|reflexivity].
    exfalso. apply Hin. apply expired_payments_keys. exists p. split; assumption.
Qed.

(** X1.  The sweep is one pass of [sweep_row] over the payment table and of
    [sweep_wallet] over the wallet table: exactly the pending rows whose
    [expires_at] lies strictly before the clock get status expired and a
    new [updated_at] (a row expiring exactly now, or without [expires_at],
    is kept as it is), exactly their wallets get [is_used = False], and
    neither an order nor the queue changes. *)
Theorem check_expired_payments_is_a_map (now : Z) (w : World) :
  check_expired_payments now w
  = mkWorld (orders w) (sweep_row now <$> payments w)
      (sweep_wallet now w <$> wallets w) (queue w).
Proof.
  apply world_eq; cbn [orders payments wallets queue].
  - apply foldl_expire_orders.
  - apply sweep_payments_map.
  - apply sweep_wallets_map.
  - apply foldl_expire_orders.
Qed.

Lemma is_expired_pending_sweep_row (now now' : Z) (p : Payment) :
  now' <= now -> is_expired_pending now' (sweep_row now p) = false.
Proof.
  intros Hle. unfold sweep_row.
  destruct (is_expired_pending now p) eqn:He.
  - unfold is_expired_pending. cbn. reflexivity.
  - apply not_true_is_false. intros H'. apply not_true_iff_false in He. apply He.
    apply is_expired_pending_true in H'. destruct H' as (Hs & t & Ht & Hlt).
    apply is_expired_pending_true. split; [exact Hs|]. exists t. split; [exact Ht | lia].
Qed.

(** X2.  Running the sweep again, at the same or an earlier clock, changes
    nothing: no row it has expired or kept is selected a second time. *)
Theorem check_expired_payments_idempotent (now now' : Z) (w : World) :
  now' <= now ->
  check_expired_payments now' (check_expired_payments now w)
  = check_expired_payments now w.
Proof.
  intros Hle. unfold check_expired_payments at 1.
  assert (E : expired_payments now' (check_expired_payments now w) = []).
  { unfold expired_payments. apply map_to_list_empty_iff.
    apply map_empty_filter_2. intros id q Hq. cbn.
    rewrite sweep_payments_map, lookup_fmap in Hq.
    destruct (payments w !! id) as [p|]; [|discriminate].
    cbn in Hq. inversion Hq; subst q.
    rewrite is_expired_pending_sweep_row by exact Hle. discriminate. }
  rewrite E. reflexivity.
Qed.

Lemma check_expired_payments_idempotent_witness :
  1800 <= 1860
  /\ check_expired_payments 1800 (check_expired_payments 1860 w_seen)
     = check_expired_payments 1860 w_seen.
Proof.
  assert (H : 1800 <= 1860) by (vm_compute; discriminate).
  split; [exact H|].
  exact (check_expired_payments_idempotent 1860 1800 w_seen H).
Defined.

(** X3.  The watcher and the sweep agree on when a pending payment is over: at
    any clock the watcher takes the payment up exactly when the sweep's
    filter does not select it (both compare [expires_at < now], so a
    payment expiring exactly now is still watched and not yet expired);
    and once the sweep has run past [expires_at], no later start of the
    watcher takes the payment up. *)
Theorem watcher_and_sweep_agree (now id : Z) (w : World) (p : Payment) (t : Z) :
  payments w !! id = Some p -> status p = Pending -> expires_at p = Some t ->
  ((monitor_crypto_payment now id w).1 = Some p <-> is_expired_pending now p = false)
  /\ (is_expired_pending t p = false)
  /\ (t < now ->
      forall later,
        (monitor_crypto_payment later id (check_expired_payments now w)).1 = None).
Proof.
  intros Hp Hs Ht. split; [|split].
  - unfold monitor_crypto_payment, is_expired_pending.
    rewrite Hp, Hs, Ht. rewrite bool_decide_eq_true_2 by reflexivity. cbn.
    destruct (t <? now); split; intros H; try reflexivity; discriminate.
  - unfold is_expired_pending. rewrite Hs, Ht, Z.ltb_irrefl.
    rewrite bool_decide_eq_true_2 by reflexivity. reflexivity.
  - intros Hlt later. unfold monitor_crypto_payment.
    rewrite sweep_payments_map, lookup_fmap, Hp. cbn.
    assert (He : is_expired_pending now p = true).
    { apply is_expired_pending_true. split; [exact Hs|]. exists t. split; [exact Ht | lia]. }
    unfold sweep_row. rewrite He. cbn. reflexivity.
Qed.

Lemma watcher_and_sweep_agree_witness :
  (payments w_initiated !! pid = Some (row Pending "" 0 0 None)
   /\ status (row Pending "" 0 0 None) = Pending
   /\ expires_at (row Pending "" 0 0 None) = Some 1800)
  /\ ((monitor_crypto_payment 1800 pid w_initiated).1 = Some (row Pending "" 0 0 None)
      <-> is_expired_pending 1800 (row Pending "" 0 0 None) = false).
Proof.
  assert (Hp : payments w_initiated !! pid = Some (row Pending "" 0 0 None))
    by (vm_compute; reflexivity).
  split; [split; [exact Hp | split; reflexivity]|].
  exact (proj1 (watcher_and_sweep_agree 1800 pid w_initiated _ 1800 Hp eq_refl eq_refl)).
Defined.

End SweepAsAMap.

(** ** Initiation *)

Section Initiation.

Import Facts Invariants Scenario.

Lemma order_payment_None (oid : Z) (w : World) :
  order_payment oid w = None
  <-> forall i p, payments w !! i = Some p -> order p <> oid.
Proof.
  unfold order_payment.
  rewrite head_None, map_to_list_empty_iff, map_empty_filter.
  unfold map_Forall. cbn. reflexivity.
Qed.

Lemma address_unused_iff (a : string) (w : World) :
  ~ map_Exists (fun _ c => address c = a) (wallets w)
  <-> forall k c, wallets w !! k = Some c -> address c <> a.
Proof.
  rewrite map_Exists_lookup. split.
  - intros H k c Hk Ha. apply H. exists k, c. split; assumption.
  - intros H (k & c & Hk & Ha). exact (H k c Hk Ha).
Qed.

(** The row and the wallet a successful initiation inserts. *)
Lemma initiate_payment_inserts now auth data wallet_data w body w' :
  initiate_payment now auth data wallet_data w = (Ok body, w') ->
  exists o cur crypto,
    orders w !! order_id data = Some o
    /\ order_user o = auth
    /\ (exists processor,
          select_processor (pi_payment_method data) = Some (processor, cur)
          /\ Api.calculate_crypto_amount processor (total o) = Some crypto)
    /\ (forall i p, payments w !! i = Some p -> order p <> order_id data)
    /\ (forall k c, wallets w !! k = Some c -> address c <> wd_address wallet_data)
    /\ body = mkCryptoPaymentResponse (fresh (dom (payments w))) (order_number o)
                (total o) crypto cur (wd_address wallet_data) (now + 30 * 60)
    /\ w' = mkWorld (orders w)
              (<[ fresh (dom (payments w)) :=
                    mkPayment (order_id data) auth (pi_payment_method data) Pending
                      (total o) "EUR" (Some crypto) cur (wd_address wallet_data)
                      "" 0 3 "" now now None (Some (now + 30 * 60)) ]> (payments w))
              (<[ fresh (dom (wallets w)) :=
                    mkCryptoWallet (fresh (dom (payments w))) cur
                      (wd_address wallet_data) (wd_private_key wallet_data)
                      (default ""%string (wd_derivation_path wallet_data)) false now ]>
                 (wallets w))
              (queue w ++ [monitor_crypto_payment_task (fresh (dom (payments w)))]).
Proof.
  intros E.
  destruct (initiate_payment_ok _ _ _ _ _ _ _ E)
    as (o & processor & cur & crypto & id & p & w1 & w2
        & Ho & Hu & Hsel & Hcalc & Hp & Hw & -> & ->).
  unfold create_payment in Hp.
  destruct (order_payment (order_id data) w) eqn:Hop; [discriminate|].
  inversion Hp; subst id p w1. clear Hp.
  unfold create_wallet in Hw. cbn [wallets] in Hw.
  destruct (decide _) as [|Hfree]; [discriminate|].
  inversion Hw; subst w2. clear Hw.
  exists o, cur, crypto.
  split; [exact Ho|]. split; [exact Hu|].
  split; [exists processor; split; assumption|].
  split; [apply order_payment_None; exact Hop|].
  split; [apply address_unused_iff; exact Hfree|].
  split; reflexivity.
Qed.

Lemma initiate_payment_error now auth data wallet_data w code detail w' :
  initiate_payment now auth data wallet_data w = (Error code detail, w') -> w' = w.
Proof.
  unfold initiate_payment.
  repeat match goal with
         | |- context [match ?x with _ => _ end] => destruct x
         end; intros E; inversion E; reflexivity.
Qed.

(** X4.  An initiation either fails and leaves every table and the queue as
    they were (the handler is atomic), or it adds exactly one payment row
    under a key that was free (pending, no hash, 0 of 3 confirmations,
    expiring 30 minutes after creation), exactly one wallet row under a
    free key (for that payment, not used), and one watcher task at the end
    of the queue; no existing row changes. *)
Theorem initiate_payment_effect now auth data wallet_data w :
  (exists code detail,
     initiate_payment now auth data wallet_data w = (Error code detail, w))
  \/ (exists body p c,
        initiate_payment now auth data wallet_data w
        = (Ok body,
           mkWorld (orders w)
             (<[ r_payment_id body := p ]> (payments w))
             (<[ fresh (dom (wallets w)) := c ]> (wallets w))
             (queue w ++ [monitor_crypto_payment_task (r_payment_id body)]))
        /\ payments w !! r_payment_id body = None
        /\ wallets w !! fresh (dom (wallets w)) = None
        /\ order p = order_id data /\ user p = auth
        /\ status p = Pending /\ transaction_hash p = ""%string
        /\ confirmations p = 0 /\ required_confirmations p = 3
        /\ confirmed_at p = None
        /\ created_at p = now /\ expires_at p = Some (now + 30 * 60)
        /\ r_expires_at body = now + 30 * 60
        /\ crypto_amount p = Some (r_crypto_amount body)
        /\ wallet_address p = wd_address wallet_data
        /\ payment c = r_payment_id body
        /\ address c = wd_address wallet_data
        /\ is_used c = false).
Proof.
  destruct (initiate_payment now auth data wallet_data w) as [[body|code detail] w'] eqn:E.
  - right.
    destruct (initiate_payment_inserts _ _ _ _ _ _ _ E)
      as (o & cur & crypto & _ & _ & _ & _ & _ & Hb & Hw).
    exists body,
      (mkPayment (order_id data) auth (pi_payment_method data) Pending
         (total o) "EUR" (Some crypto) cur (wd_address wallet_data)
         "" 0 3 "" now now None (Some (now + 30 * 60))),
      (mkCryptoWallet (fresh (dom (payments w))) cur
         (wd_address wallet_data) (wd_private_key wallet_data)
         (default ""%string (wd_derivation_path wallet_data)) false now).
    rewrite Hw, Hb. cbn [r_payment_id r_expires_at r_crypto_amount].
    split; [reflexivity|].
    split; [apply not_elem_of_dom, is_fresh|].
    split; [apply not_elem_of_dom, is_fresh|].
    cbn. repeat split.
  - left. exists code, detail. f_equal.
    exact (initiate_payment_error _ _ _ _ _ _ _ _ E).
Qed.

(** X5.  For an order whose total is an amount in cents of at most ten digits,
    the initiation succeeds exactly when the caller owns the order, no
    payment row at all references the order (a failed one blocks as
    well), the method is one of the three crypto methods, and no wallet
    row already holds the generated address. *)
Theorem initiate_payment_succeeds_iff now auth data wallet_data w o n :
  orders w !! order_id data = Some o ->
  total o = mkDecimal false n (-2) -> 0 <= n < 10 ^ 10 ->
  (exists body w', initiate_payment now auth data wallet_data w = (Ok body, w'))
  <-> order_user o = auth
      /\ (forall i p, payments w !! i = Some p -> order p <> order_id data)
      /\ (pi_payment_method data <> stripe /\ pi_payment_method data <> paypal)
      /\ (forall k c, wallets w !! k = Some c -> address c <> wd_address wallet_data).
Proof.
  intros Ho Ht Hn. split.
  - intros (body & w' & E).
    destruct (initiate_payment_inserts _ _ _ _ _ _ _ E)
      as (o' & cur & crypto & Ho' & Hu & (processor & Hsel & _) & Hnone & Hfree & _).
    rewrite Ho in Ho'. inversion Ho'; subst o'.
    split; [exact Hu|]. split; [exact Hnone|]. split; [|exact Hfree].
    destruct (pi_payment_method data); try discriminate; split; discriminate.
  - intros (Hu & Hnone & [Hs Hp] & Hfree).
    apply order_payment_None in Hnone. apply address_unused_iff in Hfree.
    assert (Hacc : schema_accepts (pi_payment_method data) = true)
      by (destruct (pi_payment_method data); try contradiction; reflexivity).
    unfold initiate_payment. rewrite Hacc, Ho. cbn [negb].
    rewrite bool_decide_eq_true_2 by exact Hu. cbn [negb].
    rewrite Hnone.
    assert (Hsel : exists processor cur,
               select_processor (pi_payment_method data) = Some (processor, cur)).
    { destruct (pi_payment_method data); try contradiction; cbn; eauto. }
    destruct Hsel as (processor & cur & ->).
    rewrite Ht, (calculate_crypto_amount_processor processor n Hn).
    unfold create_payment. rewrite Hnone.
    unfold create_wallet. cbn [wallets].
    destruct (decide _) as [Hex|_]; [contradiction|].
    eexists _, _. reflexivity.
Qed.

Lemma initiate_payment_succeeds_iff_witness :
  (orders w_order !! order_id request1 = Some order1
   /\ total order1 = mkDecimal false 4900 (-2)
   /\ 0 <= 4900 < 10 ^ 10)
  /\ exists body w', initiate_payment 0 7 request1 wallet1 w_order = (Ok body, w').
Proof.
  assert (Ho : orders w_order !! order_id request1 = Some order1)
    by (vm_compute; reflexivity).
  assert (Hn : 0 <= 4900 < 10 ^ 10)
    by (vm_compute; split; [discriminate | reflexivity]).
  split; [split; [exact Ho | split; [reflexivity | exact Hn]]|].
  apply (initiate_payment_succeeds_iff 0 7 request1 wallet1 w_order order1 4900
           Ho eq_refl Hn).
  split; [reflexivity|]. split; [|split].
  - intros i p Hi. cbn in Hi. rewrite lookup_empty in Hi. discriminate.
  - split; discriminate.
  - intros k c Hk. cbn in Hk. rewrite lookup_empty in Hk. discriminate.
Defined.

(** *** One payment per order *)

Lemma one_payment_per_order_columns (w w' : World) :
  order <$> payments w' = order <$> payments w ->
  one_payment_per_order w -> one_payment_per_order w'.
Proof.
  intros E H i j p q Hi Hj Ho.
  assert (Hi' : (order <$> payments w) !! i = Some (order p)).
  { rewrite <- E, lookup_fmap, Hi. reflexivity. }
  assert (Hj' : (order <$> payments w) !! j = Some (order q)).
  { rewrite <- E, lookup_fmap, Hj. reflexivity. }
  rewrite lookup_fmap in Hi', Hj'.
  destruct (payments w !! i) as [p0|] eqn:Hp0; [|discriminate].
  destruct (payments w !! j) as [q0|] eqn:Hq0; [|discriminate].
  cbn in Hi', Hj'. inversion Hi'. inversion Hj'.
  apply (H i j p0 q0 Hp0 Hq0). congruence.
Qed.

Lemma order_column_insert (m : gmap Z Payment) (id : Z) (q q' : Payment) :
  m !! id = Some q -> order q' = order q ->
  order <$> <[ id := q' ]> m = order <$> m.
Proof.
  intros Hq Ho. rewrite fmap_insert. apply insert_id.
  rewrite lookup_fmap, Hq, Ho. reflexivity.
Qed.

Lemma payment_webhook_order_column now provider data w :
  order <$> payments (payment_webhook now provider data w).2 = order <$> payments w.
Proof.
  destruct (payment_webhook_payments now provider data w) as [->|(p & Hp & _ & ->)];
    [reflexivity|].
  destruct (webhook_row_fields now data p) as (_ & _ & _ & Hord & _ & _).
  apply (order_column_insert _ _ p); assumption.
Qed.

Lemma monitor_transaction_confirmations_order_column now id tx_info w :
  order <$> payments (monitor_transaction_confirmations now id tx_info w)
  = order <$> payments w.
Proof.
  unfold monitor_transaction_confirmations, mark_confirmed.
  destruct (payments w !! id) as [p|] eqn:Hp; [|reflexivity].
  destruct (_ || _); [reflexivity|].
  destruct tx_info as [confs|]; [|reflexivity].
  cbn [required_confirmations set_confirmations order].
  destruct (_ <=? _).
  - destruct (orders w !! order p); [|reflexivity].
    cbn [mbind option_bind save_payment save_order send_task payments].
    apply (order_column_insert _ _ p); [exact Hp | reflexivity].
  - cbn [save_payment send_task payments].
    apply (order_column_insert _ _ p); [exact Hp | reflexivity].
Qed.

Lemma sweep_order_column now w :
  order <$> payments (check_expired_payments now w) = order <$> payments w.
Proof.
  rewrite sweep_payments_map, <- map_fmap_compose.
  apply map_fmap_ext. intros i p _. cbn. unfold sweep_row.
  destruct (is_expired_pending now p); reflexivity.
Qed.

(** X6.  The one-to-one link between payments and orders is an invariant of
    the workflow: if no two payment rows reference the same order, this
    still holds after an initiation (successful or not), a webhook
    delivery, a run of the confirmation task, an expiry sweep, and a
    detection callback whose instance belongs to the row's order. *)
Theorem one_payment_per_order_preserved (w : World) :
  one_payment_per_order w ->
  (forall now auth data wallet_data,
     one_payment_per_order (initiate_payment now auth data wallet_data w).2)
  /\ (forall now provider data,
        one_payment_per_order (payment_webhook now provider data w).2)
  /\ (forall now id tx_info,
        one_payment_per_order (monitor_transaction_confirmations now id tx_info w))
  /\ (forall ledger now id,
        one_payment_per_order (run_monitor_transaction_confirmations ledger now id w))
  /\ (forall now, one_payment_per_order (check_expired_payments now w))
  /\ (forall now id p tx_hash,
        order <$> payments w !! id = Some (order p) ->
        one_payment_per_order (payment_detected now id p tx_hash w)).
Proof.
  intros H. repeat split.
  - intros now auth data wallet_data.
    destruct (initiate_payment now auth data wallet_data w) as [[body|code detail] w'] eqn:E.
    + destruct (initiate_payment_inserts _ _ _ _ _ _ _ E)
        as (o & cur & crypto & _ & _ & _ & Hnone & _ & _ & ->).
      cbn [snd]. intros i j p q Hi Hj Ho. cbn [payments] in Hi, Hj.
      rewrite lookup_insert in Hi, Hj.
      destruct (decide (fresh (dom (payments w)) = i)) as [<-|Hni];
        destruct (decide (fresh (dom (payments w)) = j)) as [<-|Hnj].
      * reflexivity.
      * inversion Hi; subst p. cbn in Ho. symmetry in Ho.
        exfalso. exact (Hnone j q Hj Ho).
      * inversion Hj; subst q. cbn in Ho.
        exfalso. exact (Hnone i p Hi Ho).
      * exact (H i j p q Hi Hj Ho).
    + cbn [snd]. rewrite (initiate_payment_error _ _ _ _ _ _ _ _ E). exact H.
  - intros. apply (one_payment_per_order_columns w); [|exact H].
    apply payment_webhook_order_column.
  - intros. apply (one_payment_per_order_columns w); [|exact H].
    apply monitor_transaction_confirmations_order_column.
  - intros ledger now id. unfold run_monitor_transaction_confirmations.
    destruct (payments w !! id); [|exact H].
    apply (one_payment_per_order_columns w); [|exact H].
    apply monitor_transaction_confirmations_order_column.
  - intros. apply (one_payment_per_order_columns w); [|exact H].
    apply sweep_order_column.
  - intros now id p tx_hash _. exact H.
Qed.

Lemma one_payment_per_order_preserved_witness :
  one_payment_per_order w_order /\ one_payment_per_order w_initiated.
Proof.
  assert (H : one_payment_per_order w_order).
  { intros i j p q Hi. cbn in Hi. rewrite lookup_empty in Hi. discriminate. }
  split; [exact H|].
  exact (proj1 (one_payment_per_order_preserved w_order H) 0 7 request1 wallet1).
Defined.

End Initiation.

(** ** The webhook, the status endpoint and the confirmation task *)

Section WebhookAndTask.

Import Facts Invariants Scenario LedgerScenario.

(** *** Reading back what was written *)

(** X7.  After a webhook delivery for an existing payment, with a payload
    whose hash and count fit their columns, the payment's owner reads from
    the status endpoint the payload's hash and count, the status confirmed
    (with [confirmed_at] the delivery time) if the count reached the
    threshold and the old status and [confirmed_at] otherwise; any other
    user gets a 404. *)
Theorem webhook_then_get_payment_status now provider data w p o :
  payments w !! payment_id data = Some p ->
  orders w !! order p = Some o ->
  payload_fits data = true ->
  let w' := (payment_webhook now provider data w).2 in
  let reached := required_confirmations p <=? wh_confirmations data in
  get_payment_status (user p) (payment_id data) w'
  = Ok (mkPaymentStatus (payment_id data)
          (if reached then Confirmed else status p)
          (wh_confirmations data) (required_confirmations p)
          (wh_transaction_hash data)
          (if reached then Some now else confirmed_at p))
  /\ (forall other, other <> user p ->
      get_payment_status other (payment_id data) w' = Error 404 "Not Found").
Proof.
  intros Hp Ho Hfit w' reached. subst w' reached.
  assert (Hrow : payments (payment_webhook now provider data w).2 !! payment_id data
                 = Some (webhook_row now data p)).
  { destruct (Z.le_gt_cases (required_confirmations p) (wh_confirmations data)).
    - rewrite (payment_webhook_reached _ _ _ _ _ _ Hp Ho) by assumption.
      cbn [snd payments]. apply lookup_insert_eq.
    - rewrite (payment_webhook_below _ _ _ _ _ Hp) by (lia || exact Hfit).
      cbn [snd payments]. apply lookup_insert_eq. }
  assert (Hu : user (webhook_row now data p) = user p).
  { unfold webhook_row. destruct (_ <=? _); reflexivity. }
  unfold get_payment_status. rewrite Hrow, Hu. split.
  - rewrite bool_decide_eq_true_2 by reflexivity.
    unfold webhook_row.
    cbn [required_confirmations set_confirmations set_transaction_hash].
    destruct (required_confirmations p <=? wh_confirmations data); reflexivity.
  - intros other Hne. rewrite bool_decide_eq_false_2 by congruence. reflexivity.
Qed.

Lemma webhook_then_get_payment_status_witness :
  (payments w_initiated !! payment_id (payload "0xabc" 3)
   = Some (row Pending "" 0 0 None)
   /\ orders w_initiated !! order (row Pending "" 0 0 None) = Some order1
   /\ payload_fits (payload "0xabc" 3) = true)
  /\ get_payment_status 7 pid w_confirmed
     = Ok (mkPaymentStatus pid Confirmed 3 3 "0xabc" (Some 100)).
Proof.
  assert (Hp : payments w_initiated !! payment_id (payload "0xabc" 3)
               = Some (row Pending "" 0 0 None)) by (vm_compute; reflexivity).
  assert (Ho : orders w_initiated !! order (row Pending "" 0 0 None) = Some order1)
    by (vm_compute; reflexivity).
  assert (Hfit : payload_fits (payload "0xabc" 3) = true) by (vm_compute; reflexivity).
  split; [split; [exact Hp | split; [exact Ho | exact Hfit]]|].
  exact (proj1 (webhook_then_get_payment_status 100 "provider" (payload "0xabc" 3)
                  w_initiated _ _ Hp Ho Hfit)).
Defined.

(** X8.  After a successful initiation the caller reads a pending payment with
    no hash, 0 of 3 confirmations and no [confirmed_at]; any other user
    gets a 404. *)
Theorem initiate_then_get_payment_status now auth data wallet_data w body w' :
  initiate_payment now auth data wallet_data w = (Ok body, w') ->
  get_payment_status auth (r_payment_id body) w'
  = Ok (mkPaymentStatus (r_payment_id body) Pending 0 3 "" None)
  /\ (forall other, other <> auth ->
      get_payment_status other (r_payment_id body) w' = Error 404 "Not Found").
Proof.
  intros E.
  destruct (initiate_payment_inserts _ _ _ _ _ _ _ E)
    as (o & cur & crypto & _ & _ & _ & _ & _ & -> & ->).
  unfold get_payment_status. cbn [r_payment_id payments].
  rewrite lookup_insert_eq. cbn [user status confirmations required_confirmations
                                 transaction_hash confirmed_at].
  split.
  - rewrite bool_decide_eq_true_2 by reflexivity. reflexivity.
  - intros other Hne. rewrite bool_decide_eq_false_2 by congruence. reflexivity.
Qed.

Lemma initiate_then_get_payment_status_witness :
  initiate_payment 0 7 request1 wallet1 w_order
  = (Ok (mkCryptoPaymentResponse 0 "ORD-1A2B3C4D" (mkDecimal false 4900 (-2))
           (mkDecimal false 140000 (-8)) "BTC" "tb1qreceive" 1800),
     w_initiated)
  /\ get_payment_status 7 0 w_initiated
     = Ok (mkPaymentStatus 0 Pending 0 3 "" None).
Proof.
  assert (E : initiate_payment 0 7 request1 wallet1 w_order
              = (Ok (mkCryptoPaymentResponse 0 "ORD-1A2B3C4D" (mkDecimal false 4900 (-2))
                       (mkDecimal false 140000 (-8)) "BTC" "tb1qreceive" 1800),
                 w_initiated)) by (vm_compute; reflexivity).
  split; [exact E|].
  exact (proj1 (initiate_then_get_payment_status 0 7 request1 wallet1 w_order _ _ E)).
Defined.

(** *** What the webhook does not look at, and does not write *)

(** X9.  The webhook reads only [payment_id], [transaction_hash] and
    [confirmations]: the provider name, the payload's [amount] and its
    [from_address] have no influence on the response or on what is
    stored. *)
Theorem webhook_ignores_amount_and_sender now provider provider' data data' w :
  payment_id data' = payment_id data ->
  wh_transaction_hash data' = wh_transaction_hash data ->
  wh_confirmations data' = wh_confirmations data ->
  payment_webhook now provider' data' w = payment_webhook now provider data w.
Proof.
  intros Hi Hh Hc. unfold payment_webhook. rewrite Hi, Hh, Hc. reflexivity.
Qed.

Lemma webhook_ignores_amount_and_sender_witness :
  payment_webhook 100 "other"
    (mkWebhookPayload pid "0xabc" 3 (mkDecimal false 0 0) "") w_initiated
  = payment_webhook 100 "provider" (payload "0xabc" 3) w_initiated.
Proof.
  apply (webhook_ignores_amount_and_sender 100 "provider" "other" (payload "0xabc" 3)
           (mkWebhookPayload pid "0xabc" 3 (mkDecimal false 0 0) "") w_initiated);
    reflexivity.
Defined.

Lemma fixed_columns_webhook_row now data p :
  fixed_columns (webhook_row now data p) = fixed_columns p.
Proof. unfold webhook_row. destruct (_ <=? _); reflexivity. Qed.

Lemma fixed_columns_insert (m : gmap Z Payment) (id : Z) (q q' : Payment) :
  m !! id = Some q -> fixed_columns q' = fixed_columns q ->
  fixed_columns <$> <[ id := q' ]> m = fixed_columns <$> m.
Proof.
  intros Hq Hf. rewrite fmap_insert. apply insert_id.
  rewrite lookup_fmap, Hq, Hf. reflexivity.
Qed.

Lemma fixed_order_columns_insert (m : gmap Z Order) (id now : Z) (o : Order) :
  m !! id = Some o ->
  fixed_order_columns <$> <[ id := paid_order now o ]> m = fixed_order_columns <$> m.
Proof.
  intros Ho. rewrite fmap_insert. apply insert_id.
  rewrite lookup_fmap, Ho. reflexivity.
Qed.

(** X10.  A webhook delivery creates and deletes nothing and writes at most the
    columns [status], [transaction_hash], [confirmations], [updated_at],
    [confirmed_at] of the one payment it names and [status], [paid_at],
    [updated_at] of that payment's order: every other column, every other
    payment and order row, and every wallet is as before. *)
Theorem webhook_writes_only_its_columns now provider data w :
  let w' := (payment_webhook now provider data w).2 in
  fixed_columns <$> payments w' = fixed_columns <$> payments w
  /\ delete (payment_id data) (payments w') = delete (payment_id data) (payments w)
  /\ fixed_order_columns <$> orders w' = fixed_order_columns <$> orders w
  /\ match payments w !! payment_id data with
     | Some p => delete (order p) (orders w') = delete (order p) (orders w)
     | None => orders w' = orders w
     end
  /\ wallets w' = wallets w.
Proof.
  intros w'. subst w'.
  split; [|split; [|split; [|split; [|apply payment_webhook_wallets]]]].
  - destruct (payment_webhook_payments now provider data w) as [->|(p & Hp & _ & ->)];
      [reflexivity|].
    apply (fixed_columns_insert _ _ p); [exact Hp | apply fixed_columns_webhook_row].
  - destruct (payment_webhook_payments now provider data w) as [->|(p & Hp & _ & ->)];
      [reflexivity|].
    apply delete_insert_eq.
  - destruct (payment_webhook_orders now provider data w)
      as [->|(p & o & Hp & Ho & _ & ->)]; [reflexivity|].
    apply fixed_order_columns_insert; exact Ho.
  - destruct (payment_webhook_orders now provider data w)
      as [E|(p & o & Hp & Ho & _ & E)]; rewrite E.
    + destruct (payments w !! payment_id data); reflexivity.
    + rewrite Hp. apply delete_insert_eq.
Qed.

(** *** The confirmation task *)

(** X11.  The confirmation task does nothing at all (no row written, nothing
    queued) when the payment is unknown, is not in status processing, has
    no transaction hash, or the ledger gave no answer. *)
Theorem confirmation_task_guard now id tx_info w :
  payments w !! id = None
  \/ tx_info = None
  \/ (exists p, payments w !! id = Some p
                /\ (status p <> Processing \/ transaction_hash p = ""%string)) ->
  monitor_transaction_confirmations now id tx_info w = w.
Proof.
  unfold monitor_transaction_confirmations.
  intros [Hn|[Hn|(p & Hp & Hg)]].
  - rewrite Hn. reflexivity.
  - subst tx_info. destruct (payments w !! id); [|reflexivity].
    destruct (_ || _); reflexivity.
  - rewrite Hp. destruct Hg as [Hs|Hh].
    + rewrite bool_decide_eq_false_2 by exact Hs. reflexivity.
    + rewrite (bool_decide_eq_true_2 _ Hh), orb_true_r. reflexivity.
Qed.

Lemma confirmation_task_guard_witness :
  (exists p, payments w_swept !! pid = Some p
             /\ (status p <> Processing \/ transaction_hash p = ""%string))
  /\ monitor_transaction_confirmations 2000 pid (Some 6) w_swept = w_swept.
Proof.
  assert (Hp : payments w_swept !! pid = Some (row Expired "0xabc" 1 1860 None))
    by (vm_compute; reflexivity).
  assert (H : exists p, payments w_swept !! pid = Some p
                        /\ (status p <> Processing \/ transaction_hash p = ""%string)).
  { exists (row Expired "0xabc" 1 1860 None). split; [exact Hp|]. left. discriminate. }
  split; [exact H|].
  apply (confirmation_task_guard 2000 pid (Some 6) w_swept). right. right. exact H.
Defined.

(** X12.  A run of the confirmation task on a processing payment with a hash
    and a ledger answer has one of two outcomes.  At or above the
    threshold: the payment is confirmed at the current time, its order is
    paid, one confirmation e-mail is queued, and every later run of the
    task, whatever the ledger says then, changes nothing.  Below the
    threshold: only the count is stored, the order is not touched, and
    the task queues itself again with a countdown of 60 seconds. *)
Theorem confirmation_task_outcome now id confs w p o :
  payments w !! id = Some p -> orders w !! order p = Some o ->
  status p = Processing -> transaction_hash p <> ""%string ->
  let w' := monitor_transaction_confirmations now id (Some confs) w in
  (required_confirmations p <= confs ->
   payments w' !! id
   = Some (set_updated_at now
             (set_confirmed_at (Some now)
                (set_status Confirmed (set_confirmations confs p))))
   /\ orders w' !! order p = Some (paid_order now o)
   /\ queue w' = queue w ++ [send_payment_confirmation_email_task id]
   /\ forall later tx_info,
        monitor_transaction_confirmations later id tx_info w' = w')
  /\ (confs < required_confirmations p ->
      payments w' !! id = Some (set_updated_at now (set_confirmations confs p))
      /\ orders w' = orders w
      /\ queue w' = queue w ++ [monitor_transaction_confirmations_task id 60]).
Proof.
  intros Hp Ho Hs Hh w'. subst w'.
  rewrite (monitor_transaction_confirmations_applied _ _ _ _ _ Hp Hs Hh), Ho.
  split.
  - intros Hle.
    destruct (Z.leb_spec (required_confirmations p) confs); [|lia].
    cbn [payments orders queue].
    split; [apply lookup_insert_eq|]. split; [apply lookup_insert_eq|].
    split; [reflexivity|].
    intros later tx_info. unfold monitor_transaction_confirmations at 1.
    cbn [payments]. rewrite lookup_insert_eq. reflexivity.
  - intros Hlt.
    destruct (Z.leb_spec (required_confirmations p) confs); [lia|].
    cbn [payments orders queue].
    split; [apply lookup_insert_eq|]. split; reflexivity.
Qed.

Lemma confirmation_task_outcome_witness :
  (payments w_processing !! pid = Some (row Processing "0xabc" 0 60 None)
   /\ orders w_processing !! order (row Processing "0xabc" 0 60 None) = Some order1
   /\ status (row Processing "0xabc" 0 60 None) = Processing
   /\ transaction_hash (row Processing "0xabc" 0 60 None) <> ""%string
   /\ required_confirmations (row Processing "0xabc" 0 60 None) <= 3)
  /\ payments (monitor_transaction_confirmations 600 pid (Some 3) w_processing) !! pid
     = Some (row Confirmed "0xabc" 3 600 (Some 600)).
Proof.
  assert (Hp : payments w_processing !! pid = Some (row Processing "0xabc" 0 60 None))
    by (vm_compute; reflexivity).
  assert (Ho : orders w_processing !! order (row Processing "0xabc" 0 60 None)
               = Some order1) by (vm_compute; reflexivity).
  assert (Hh : transaction_hash (row Processing "0xabc" 0 60 None) <> ""%string)
    by (cbn; discriminate).
  assert (Hle : required_confirmations (row Processing "0xabc" 0 60 None) <= 3)
    by (vm_compute; discriminate).
  split; [repeat split; assumption|].
  exact (proj1 (proj1 (confirmation_task_outcome 600 pid 3 w_processing _ _
                         Hp Ho eq_refl Hh) Hle)).
Defined.

(** X13.  For a processing payment in a currency other than BTC whose
    transaction and receipt the node returns, one run of the confirmation
    task stores the depth [block_number - receipt.blockNumber] and
    confirms the payment exactly when that depth reaches the threshold;
    the receipt's status plays no part, so a transaction that was mined
    but reverted confirms the payment as well. *)
Theorem ethereum_confirmation_depth ledger now id w p o tx receipt :
  payments w !! id = Some p -> orders w !! order p = Some o ->
  status p = Processing -> transaction_hash p <> ""%string ->
  crypto_currency p <> "BTC"%string ->
  eth_get_transaction ledger (transaction_hash p) = Some tx ->
  eth_get_transaction_receipt ledger (transaction_hash p) = Some receipt ->
  let depth := eth_block_number ledger - EthereumPaymentProcessor.blockNumber receipt in
  let w' := run_monitor_transaction_confirmations ledger now id w in
  confirmations <$> payments w' !! id = Some depth
  /\ (status <$> payments w' !! id = Some Confirmed
      <-> required_confirmations p <= depth).
Proof.
  intros Hp Ho Hs Hh Hc Htx Hr depth w'. subst w'.
  unfold run_monitor_transaction_confirmations, check_transaction,
    EthereumPaymentProcessor.check_transaction.
  rewrite Hp, (bool_decide_eq_false_2 _ Hc), Htx, Hr. cbn [fmap option_fmap option_map
    EthereumPaymentProcessor.info_confirmations].
  fold depth.
  rewrite (monitor_transaction_confirmations_applied _ _ _ _ _ Hp Hs Hh), Ho.
  destruct (Z.leb_spec (required_confirmations p) depth) as [Hle|Hgt];
    cbn [payments]; rewrite lookup_insert_eq; cbn.
  - split; [reflexivity|]. split; [intros _; exact Hle | reflexivity].
  - split; [reflexivity|]. split; [|lia].
    rewrite Hs. intros H. discriminate.
Qed.

Lemma ethereum_confirmation_depth_witness :
  (payments w_eth !! 5 = Some eth_row
   /\ orders w_eth !! order eth_row
      = Some (mkOrder 7 "ORD-5E6F7A8B" OPending (mkDecimal false 4900 (-2)) 0 None)
   /\ eth_get_transaction_receipt ledger105 (transaction_hash eth_row)
      = Some (EthereumPaymentProcessor.mkReceipt 100 0))
  /\ confirmations <$> payments (run_monitor_transaction_confirmations ledger105 600 5 w_eth) !! 5
     = Some 5.
Proof.
  assert (Hp : payments w_eth !! 5 = Some eth_row) by (vm_compute; reflexivity).
  assert (Ho : orders w_eth !! order eth_row
               = Some (mkOrder 7 "ORD-5E6F7A8B" OPending (mkDecimal false 4900 (-2)) 0 None))
    by (vm_compute; reflexivity).
  assert (Hh : transaction_hash eth_row <> ""%string) by (cbn; discriminate).
  assert (Hc : crypto_currency eth_row <> "BTC"%string) by (cbn; discriminate).
  assert (Hr : eth_get_transaction_receipt ledger105 (transaction_hash eth_row)
               = Some (EthereumPaymentProcessor.mkReceipt 100 0))
    by reflexivity.
  split; [repeat split; assumption|].
  exact (proj1 (ethereum_confirmation_depth ledger105 600 5 w_eth eth_row _ _ _
                  Hp Ho eq_refl Hh Hc eq_refl Hr)).
Defined.

End WebhookAndTask.

(** ** The watcher *)

Section Watcher.

Import Facts Invariants Scenario.

Lemma monitor_crypto_payment_started now id w p :
  (monitor_crypto_payment now id w).1 = Some p ->
  payments w !! id = Some p /\ status p = Pending
  /\ exists t, expires_at p = Some t /\ now <= t.
Proof.
  unfold monitor_crypto_payment.
  destruct (payments w !! id) as [q|]; [|discriminate].
  destruct (bool_decide (status q = Pending)) eqn:Hs; cbn [negb]; [|discriminate].
  apply bool_decide_eq_true in Hs.
  destruct (expires_at q) as [t|] eqn:Ht; [|discriminate].
  destruct (Z.ltb_spec t now); [discriminate|].
  cbn. intros E. inversion E; subst q.
  split; [reflexivity|]. split; [exact Hs|]. exists t. split; [exact Ht | lia].
Qed.

(** *** One pass of the Bitcoin watcher *)

Lemma monitor_address_pass_all_checked address e txs :
  forall checked,
    (forall tx, tx ∈ txs -> BitcoinPaymentProcessor.txid tx ∈ checked) ->
    BitcoinPaymentProcessor.monitor_address_pass address e checked txs = (None, checked).
Proof.
  induction txs as [|tx txs IH]; intros checked Hall; [reflexivity|].
  cbn [BitcoinPaymentProcessor.monitor_address_pass].
  rewrite decide_True by (apply Hall; left).
  apply IH. intros tx' Hin. apply Hall. right. exact Hin.
Qed.

Lemma monitor_address_pass_spec address e txs :
  forall checked,
    let r := BitcoinPaymentProcessor.monitor_address_pass address e checked txs in
    (checked ⊆ r.2)
    /\ match r.1 with
       | Some h =>
           (h ∉ checked) /\ (h ∈ r.2)
           /\ exists tx, tx ∈ txs /\ BitcoinPaymentProcessor.txid tx = h
                         /\ BitcoinPaymentProcessor.tx_pays address e tx = true
       | None =>
           (forall tx, tx ∈ txs -> BitcoinPaymentProcessor.txid tx ∈ r.2)
           /\ (forall tx, tx ∈ txs -> BitcoinPaymentProcessor.txid tx ∉ checked ->
               exists tx', tx' ∈ txs
                           /\ BitcoinPaymentProcessor.txid tx' = BitcoinPaymentProcessor.txid tx
                           /\ BitcoinPaymentProcessor.tx_pays address e tx' = false)
       end.
Proof.
  induction txs as [|tx txs IH]; intros checked; cbn zeta.
  - cbn. split; [reflexivity|]. split; intros tx Hin; apply elem_of_nil in Hin;
      contradiction.
  - cbn [BitcoinPaymentProcessor.monitor_address_pass].
    destruct (decide (BitcoinPaymentProcessor.txid tx ∈ checked)) as [Hin|Hnin].
    + specialize (IH checked). cbn zeta in IH. destruct IH as [Hsub IH].
      split; [exact Hsub|].
      destruct (BitcoinPaymentProcessor.monitor_address_pass address e checked txs).1
        as [h|].
      * destruct IH as (Hh & Hh' & tx' & Hin' & Hid & Hpays).
        split; [exact Hh|]. split; [exact Hh'|].
        exists tx'. split; [right; exact Hin' | split; assumption].
      * destruct IH as [Hall Hrej]. split.
        -- intros tx' Hin'. apply elem_of_cons in Hin'. destruct Hin' as [->|Hin'].
           ++ apply Hsub. exact Hin.
           ++ apply Hall. exact Hin'.
        -- intros tx' Hin' Hn. apply elem_of_cons in Hin'. destruct Hin' as [->|Hin'].
           ++ contradiction.
           ++ destruct (Hrej tx' Hin' Hn) as (tx'' & H1 & H2 & H3).
              exists tx''. split; [right; exact H1 | split; assumption].
    + destruct (BitcoinPaymentProcessor.tx_pays address e tx) eqn:Hpays.
      * cbn [fst snd]. split; [apply union_subseteq_r|].
        split; [exact Hnin|].
        split; [apply elem_of_union; left; apply elem_of_singleton; reflexivity|].
        exists tx. split; [left | split; [reflexivity | exact Hpays]].
      * specialize (IH ({[BitcoinPaymentProcessor.txid tx]} ∪ checked)).
        cbn zeta in IH. destruct IH as [Hsub IH].
        split; [etrans; [apply union_subseteq_r | exact Hsub]|].
        destruct (BitcoinPaymentProcessor.monitor_address_pass address e
                    ({[BitcoinPaymentProcessor.txid tx]} ∪ checked) txs).1 as [h|].
        -- destruct IH as (Hh & Hh' & tx' & Hin' & Hid & Hp').
           split; [intros Hc; apply Hh; apply elem_of_union; right; exact Hc|].
           split; [exact Hh'|].
           exists tx'. split; [right; exact Hin' | split; assumption].
        -- destruct IH as [Hall Hrej]. split.
           ++ intros tx' Hin'. apply elem_of_cons in Hin'. destruct Hin' as [->|Hin'].
              ** apply Hsub. apply elem_of_union; left.
                 apply elem_of_singleton. reflexivity.
              ** apply Hall. exact Hin'.
           ++ intros tx' Hin' Hn.
              destruct (decide (BitcoinPaymentProcessor.txid tx'
                                = BitcoinPaymentProcessor.txid tx)) as [Heq|Hne].
              ** exists tx. split; [left | split; [symmetry; exact Heq | exact Hpays]].
              ** apply elem_of_cons in Hin'. destruct Hin' as [->|Hin'];
                   [contradiction|].
                 destruct (Hrej tx' Hin') as (tx'' & H1 & H2 & H3).
                 { rewrite elem_of_union, elem_of_singleton. tauto. }
                 exists tx''. split; [right; exact H1 | split; assumption].
Qed.

(** X14.  One pass of the Bitcoin watcher never reports a transaction that was
    already in [checked_txs] and only reports one that pays (an output to
    the address within tolerance); [checked_txs] only grows; and when the
    pass reports nothing, every listed transaction is in [checked_txs]
    afterwards, each one that was not there before was rejected, and a
    second pass over the same list looks at none of them again. *)
Theorem bitcoin_watcher_pass address e checked txs :
  let r := BitcoinPaymentProcessor.monitor_address_pass address e checked txs in
  (checked ⊆ r.2)
  /\ match r.1 with
     | Some h =>
         (h ∉ checked) /\ (h ∈ r.2)
         /\ exists tx, tx ∈ txs /\ BitcoinPaymentProcessor.txid tx = h
                       /\ BitcoinPaymentProcessor.tx_pays address e tx = true
     | None =>
         (forall tx, tx ∈ txs -> BitcoinPaymentProcessor.txid tx ∈ r.2)
         /\ (forall tx, tx ∈ txs -> BitcoinPaymentProcessor.txid tx ∉ checked ->
             exists tx', tx' ∈ txs
                         /\ BitcoinPaymentProcessor.txid tx' = BitcoinPaymentProcessor.txid tx
                         /\ BitcoinPaymentProcessor.tx_pays address e tx' = false)
         /\ BitcoinPaymentProcessor.monitor_address_pass address e r.2 txs = (None, r.2)
     end.
Proof.
  intros r. subst r.
  pose proof (monitor_address_pass_spec address e txs checked) as H. cbn zeta in H.
  destruct H as [Hsub H]. split; [exact Hsub|].
  destruct (BitcoinPaymentProcessor.monitor_address_pass address e checked txs).1
    as [h|]; [exact H|].
  destruct H as [Hall Hrej]. split; [exact Hall|]. split; [exact Hrej|].
  apply monitor_address_pass_all_checked. exact Hall.
Qed.

Lemma bitcoin_watcher_pass_witness :
  BitcoinPaymentProcessor.monitor_address_pass "tb1qreceive"
    (mkDecimal false 140000 (-8)) ∅ LedgerScenario.btc_txs
  = (Some "cc"%string, {[ "cc"%string ]} ∪ ({[ "bb"%string ]} ∪ ({[ "aa"%string ]} ∪ ∅)))
  /\ (∅ : gset string)
     ⊆ (BitcoinPaymentProcessor.monitor_address_pass "tb1qreceive"
          (mkDecimal false 140000 (-8)) ∅ LedgerScenario.btc_txs).2.
Proof.
  split; [vm_compute; reflexivity|].
  exact (proj1 (bitcoin_watcher_pass "tb1qreceive" (mkDecimal false 140000 (-8)) ∅
                  LedgerScenario.btc_txs)).
Defined.

(** *** Detection *)

(** A pass never reports a transaction that is in [checked_txs]. *)
Lemma monitor_address_pass_fresh address e checked txs h :
  h ∈ checked ->
  (BitcoinPaymentProcessor.monitor_address_pass address e checked txs).1 <> Some h.
Proof.
  intros Hin E.
  pose proof (monitor_address_pass_spec address e txs checked) as Hspec.
  cbn zeta in Hspec. rewrite E in Hspec.
  destruct Hspec as (_ & Hfresh & _). exact (Hfresh Hin).
Qed.

(** X15.  A detection by the Bitcoin watcher is lost.  When the watcher,
    started on a pending BTC payment, finds a paying transaction in a
    pass, the callback stores nothing: every table and the queue are as
    before, so the payment is still pending and no confirmation task is
    queued; the transaction is in [checked_txs], so no later pass reports
    it again; and once [expires_at] has passed, the sweep expires the
    payment and releases its wallets although it was paid. *)
Theorem detected_payment_still_expires t0 t1 id w p e checked txs tx_hash :
  (monitor_crypto_payment t0 id w).1 = Some p ->
  crypto_currency p = "BTC"%string ->
  crypto_amount p = Some e ->
  (BitcoinPaymentProcessor.monitor_address_pass (wallet_address p) e checked txs).1
  = Some tx_hash ->
  let checked' :=
    (BitcoinPaymentProcessor.monitor_address_pass (wallet_address p) e checked txs).2 in
  let w' := monitor_crypto_payment_detection t1 id p tx_hash w in
  (exists tx, tx ∈ txs /\ BitcoinPaymentProcessor.txid tx = tx_hash
              /\ BitcoinPaymentProcessor.tx_pays (wallet_address p) e tx = true)
  /\ w' = w
  /\ payments w' !! id = Some p /\ status p = Pending
  /\ (forall txs',
        (BitcoinPaymentProcessor.monitor_address_pass (wallet_address p) e checked' txs').1
        <> Some tx_hash)
  /\ (forall later t,
        expires_at p = Some t -> t < later ->
        status <$> payments (check_expired_payments later w') !! id = Some Expired
        /\ forall k c,
             wallets (check_expired_payments later w') !! k = Some c ->
             payment c = id -> is_used c = false).
Proof.
  intros Hstart Hcur He Hpass checked' w'. subst checked' w'.
  pose proof (monitor_address_pass_spec (wallet_address p) e txs checked) as Hspec.
  cbn zeta in Hspec. rewrite Hpass in Hspec.
  destruct Hspec as (_ & _ & Hin & Htx).
  destruct (monitor_crypto_payment_started _ _ _ _ Hstart) as (Hp & Hs & _).
  assert (Hw : monitor_crypto_payment_detection t1 id p tx_hash w = w).
  { unfold monitor_crypto_payment_detection, payment_detected, task_processor.
    rewrite (bool_decide_eq_true_2 _ Hcur). reflexivity. }
  rewrite Hw.
  split; [exact Htx|]. split; [reflexivity|]. split; [exact Hp|]. split; [exact Hs|].
  split; [intros txs'; apply monitor_address_pass_fresh; exact Hin|].
  intros later t Ht Hlater.
  assert (Hexp : is_expired_pending later p = true).
  { apply is_expired_pending_true. split; [exact Hs|]. exists t. split; assumption. }
  split; [rewrite (sweep_payment_expired _ _ _ _ Hp Hexp); reflexivity|].
  intros k c Hk Hc. rewrite sweep_wallets in Hk.
  destruct (wallets w !! k) as [c0|]; [|discriminate].
  cbn in Hk. inversion Hk as [Hc0]. clear Hk.
  destruct (decide (payment c0 ∈ (expired_payments later w).*1)) as [_|Hn].
  - subst c. reflexivity.
  - subst c. exfalso. apply Hn. rewrite Hc.
    apply expired_payments_keys. exists p. split; assumption.
Qed.

Lemma detected_payment_still_expires_witness :
  ((monitor_crypto_payment 30 pid w_initiated).1 = Some (row Pending "" 0 0 None)
   /\ crypto_currency (row Pending "" 0 0 None) = "BTC"%string
   /\ crypto_amount (row Pending "" 0 0 None) = Some (mkDecimal false 140000 (-8))
   /\ (BitcoinPaymentProcessor.monitor_address_pass
         (wallet_address (row Pending "" 0 0 None)) (mkDecimal false 140000 (-8))
         ∅ LedgerScenario.btc_txs).1 = Some "cc"%string)
  /\ monitor_crypto_payment_detection 60 pid (row Pending "" 0 0 None) "cc" w_initiated
     = w_initiated.
Proof.
  assert (Hs : (monitor_crypto_payment 30 pid w_initiated).1
               = Some (row Pending "" 0 0 None)) by (vm_compute; reflexivity).
  assert (Hp : (BitcoinPaymentProcessor.monitor_address_pass
                  (wallet_address (row Pending "" 0 0 None))
                  (mkDecimal false 140000 (-8)) ∅ LedgerScenario.btc_txs).1
               = Some "cc"%string) by (vm_compute; reflexivity).
  split; [split; [exact Hs | split; [reflexivity | split; [reflexivity | exact Hp]]]|].
  exact (proj1 (proj2 (detected_payment_still_expires 30 60 pid w_initiated _ _ ∅
                         LedgerScenario.btc_txs "cc" Hs eq_refl eq_refl Hp))).
Defined.

(** *** The status processing *)

Lemma no_processing_payments (w w' : World) :
  payments w' = payments w -> no_processing w -> no_processing w'.
Proof. intros E H i p Hi. rewrite E in Hi. exact (H i p Hi). Qed.

Lemma no_processing_insert (w : World) (id : Z) (q : Payment) :
  no_processing w -> status q <> Processing ->
  forall i p, <[ id := q ]> (payments w) !! i = Some p -> status p <> Processing.
Proof.
  intros H Hq i p Hi. rewrite lookup_insert in Hi.
  destruct (decide (id = i)) as [_|_].
  - inversion Hi; subst p. exact Hq.
  - exact (H i p Hi).
Qed.

Lemma monitor_crypto_payment_payments now id w :
  payments (monitor_crypto_payment now id w).2 = payments w.
Proof.
  unfold monitor_crypto_payment.
  destruct (payments w !! id) as [p|]; [|reflexivity].
  destruct (negb _); [reflexivity|].
  destruct (expires_at p) as [t|]; [|reflexivity].
  destruct (t <? now); reflexivity.
Qed.

Lemma monitor_crypto_payment_detection_payments now id p tx_hash w :
  payments (monitor_crypto_payment_detection now id p tx_hash w) = payments w.
Proof.
  unfold monitor_crypto_payment_detection, payment_detected.
  destruct (task_processor _); reflexivity.
Qed.

(** X16.  No operation of the workflow puts a payment in status
    processing.  If no payment row is processing, none is after an
    initiation, a webhook delivery, a start of the watcher, a detection by
    the watcher or an expiry sweep; and as long as that is so, a run of
    the confirmation task, whatever the ledger answers, changes nothing. *)
Theorem processing_is_never_reached (w : World) :
  no_processing w ->
  (forall now auth data wallet_data,
     no_processing (initiate_payment now auth data wallet_data w).2)
  /\ (forall now provider data, no_processing (payment_webhook now provider data w).2)
  /\ (forall now id, no_processing (monitor_crypto_payment now id w).2)
  /\ (forall now id p tx_hash,
        no_processing (monitor_crypto_payment_detection now id p tx_hash w))
  /\ (forall now, no_processing (check_expired_payments now w))
  /\ (forall now id tx_info, monitor_transaction_confirmations now id tx_info w = w)
  /\ (forall ledger now id, run_monitor_transaction_confirmations ledger now id w = w).
Proof.
  intros H.
  assert (Htask : forall now id tx_info,
             monitor_transaction_confirmations now id tx_info w = w).
  { intros now id tx_info. unfold monitor_transaction_confirmations.
    destruct (payments w !! id) as [p|] eqn:Hp; [|reflexivity].
    rewrite (bool_decide_eq_false_2 _ (H id p Hp)). reflexivity. }
  split; [|split; [|split; [|split; [|split; [|split]]]]].
  - intros now auth data wallet_data.
    destruct (initiate_payment now auth data wallet_data w) as [[body|code detail] w'] eqn:E.
    + destruct (initiate_payment_inserts _ _ _ _ _ _ _ E)
        as (o & cur & crypto & _ & _ & _ & _ & _ & _ & ->).
      cbn [snd]. intros i p Hi. cbn [payments] in Hi.
      apply (no_processing_insert w _ _ H) in Hi; [exact Hi|].
      cbn. discriminate.
    + cbn [snd]. rewrite (initiate_payment_error _ _ _ _ _ _ _ _ E). exact H.
  - intros now provider data.
    destruct (payment_webhook_payments now provider data w) as [E|(p & Hp & _ & E)].
    + exact (no_processing_payments _ _ E H).
    + intros i q Hi. rewrite E in Hi.
      apply (no_processing_insert w _ _ H) in Hi; [exact Hi|].
      destruct (webhook_row_fields now data p) as (_ & _ & _ & _ & _ & ->).
      destruct (_ <=? _); [discriminate | exact (H _ _ Hp)].
  - intros now id. apply (no_processing_payments w); [|exact H].
    apply monitor_crypto_payment_payments.
  - intros now id p tx_hash. apply (no_processing_payments w); [|exact H].
    apply monitor_crypto_payment_detection_payments.
  - intros now i p Hi. rewrite sweep_payments_map, lookup_fmap in Hi.
    destruct (payments w !! i) as [q|] eqn:Hq; [|discriminate].
    cbn in Hi. inversion Hi; subst p. unfold sweep_row.
    destruct (is_expired_pending now q); [discriminate | exact (H _ _ Hq)].
  - exact Htask.
  - intros ledger now id. unfold run_monitor_transaction_confirmations.
    destruct (payments w !! id); [apply Htask | reflexivity].
Qed.

Lemma processing_is_never_reached_witness :
  no_processing w_order /\ no_processing w_initiated.
Proof.
  assert (H : no_processing w_order).
  { intros i p Hi. cbn in Hi. rewrite lookup_empty in Hi. discriminate. }
  split; [exact H|].
  exact (proj1 (processing_is_never_reached w_order H) 0 7 request1 wallet1).
Defined.

End Watcher.

(** ** Quotes and payments *)

Section Quotes.

Lemma round_half_even_floor (x d : Z) :
  0 < d -> x / d <= round_half_even x d <= x / d + 1.
Proof.
  intros Hd.
  destruct (round_half_even_cases x d Hd) as [[_ ->]|[[_ ->]|[_ ->]]];
    [lia | lia | destruct (Z.even _); lia].
Qed.

Lemma round_half_even_mono (x y d : Z) :
  0 < d -> x <= y -> round_half_even x d <= round_half_even y d.
Proof.
  intros Hd Hxy.
  destruct (Z.le_gt_cases (round_half_even x d) (round_half_even y d)) as [H|H];
    [exact H|].
  exfalso.
  pose proof (round_half_even_spec x d Hd) as Hx.
  pose proof (round_half_even_spec y d Hd) as Hy. cbn zeta in Hx, Hy.
  set (zx := round_half_even x d) in *. set (zy := round_half_even y d) in *.
  assert (Hz : zx = zy + 1) by (destruct Hx as [Hx|[[Hx|Hx] _]];
                                 destruct Hy as [Hy|[[Hy|Hy] _]]; nia).
  destruct Hx as [Hx|[[Hx|Hx] Hex]]; destruct Hy as [Hy|[[Hy|Hy] Hey]]; try nia.
  rewrite Hz, Z.even_add, Hey in Hex. discriminate.
Qed.

Lemma quote_btc (n m : Z) :
  0 <= n < 10 ^ 10 -> 0 < m ->
  BitcoinPaymentProcessor.calculate_crypto_amount_at
    (mkDecimal false m (-2)) (mkDecimal false n (-2))
  = Some (mkDecimal false (round_half_even (n * 10 ^ 8) m) (-8)).
Proof. intros Hn Hm. apply (quote_correct n m (-2) 8); lia. Qed.

Lemma quote_eth (n m : Z) :
  0 <= n < 10 ^ 10 -> 0 < m ->
  EthereumPaymentProcessor.calculate_crypto_amount_at
    (mkDecimal false m (-2)) (mkDecimal false n (-2))
  = Some (mkDecimal false (round_half_even (n * 10 ^ 6) m) (-6)).
Proof. intros Hn Hm. apply (quote_correct n m (-2) 6); lia. Qed.

(** X17.  Quotes are monotone and tight: for totals [n <= n'] (in cents) and a
    positive price in cents, both processors quote no less for the larger
    total, and the quoted amount times the price differs from the total
    by at most the price of half a unit of the last quoted digit
    (0.5e-8 BTC, 0.5e-6 ETH). *)
Theorem quotes_are_monotone_and_tight (n n' m : Z) :
  0 <= n -> n <= n' -> n' < 10 ^ 10 -> 0 < m ->
  let price := mkDecimal false m (-2) in
  exists b b' h h',
    BitcoinPaymentProcessor.calculate_crypto_amount_at price (mkDecimal false n (-2))
    = Some (mkDecimal false b (-8))
    /\ BitcoinPaymentProcessor.calculate_crypto_amount_at price (mkDecimal false n' (-2))
       = Some (mkDecimal false b' (-8))
    /\ EthereumPaymentProcessor.calculate_crypto_amount_at price (mkDecimal false n (-2))
       = Some (mkDecimal false h (-6))
    /\ EthereumPaymentProcessor.calculate_crypto_amount_at price (mkDecimal false n' (-2))
       = Some (mkDecimal false h' (-6))
    /\ 0 <= b <= b' /\ 0 <= h <= h'
    /\ (- (to_Q price * (1 # 200000000))
        <= to_Q (mkDecimal false b (-8)) * to_Q price - to_Q (mkDecimal false n (-2))
        <= to_Q price * (1 # 200000000))%Q
    /\ (- (to_Q price * (1 # 2000000))
        <= to_Q (mkDecimal false h (-6)) * to_Q price - to_Q (mkDecimal false n (-2))
        <= to_Q price * (1 # 2000000))%Q.
Proof.
  intros Hn0 Hnn Hn' Hm price. subst price.
  exists (round_half_even (n * 10 ^ 8) m), (round_half_even (n' * 10 ^ 8) m),
         (round_half_even (n * 10 ^ 6) m), (round_half_even (n' * 10 ^ 6) m).
  split; [apply quote_btc; lia|]. split; [apply quote_btc; lia|].
  split; [apply quote_eth; lia|]. split; [apply quote_eth; lia|].
  assert (H8 : 10 ^ 8 = 100000000) by reflexivity.
  assert (H6 : 10 ^ 6 = 1000000) by reflexivity.
  split.
  { split; [apply round_half_even_nonneg; lia|]. apply round_half_even_mono; lia. }
  split.
  { split; [apply round_half_even_nonneg; lia|]. apply round_half_even_mono; lia. }
  pose proof (round_half_even_spec (n * 10 ^ 8) m Hm) as Hb.
  pose proof (round_half_even_spec (n * 10 ^ 6) m Hm) as Hh. cbn zeta in Hb, Hh.
  set (b := round_half_even (n * 10 ^ 8) m) in *.
  set (h := round_half_even (n * 10 ^ 6) m) in *.
  rewrite H8 in Hb. rewrite H6 in Hh.
  unfold to_Q, signed; cbn [dsign dint dexp Z.leb Z.compare Z.opp Z.pow Z.pow_pos
                            Pos.iter Z.mul Pos.mul Z.to_pos].
  unfold Qle, Qminus, Qplus, Qmult, Qopp; cbn [Qnum Qden].
  rewrite !Pos2Z.inj_mul.
  repeat split; destruct Hb as [Hb|[[Hb|Hb] _]]; destruct Hh as [Hh|[[Hh|Hh] _]]; lia.
Qed.

Lemma quotes_are_monotone_and_tight_witness :
  (0 <= 4900 /\ 4900 <= 4901 /\ 4901 < 10 ^ 10 /\ 0 < 3500000)
  /\ exists b b' h h',
       BitcoinPaymentProcessor.calculate_crypto_amount_at
         (mkDecimal false 3500000 (-2)) (mkDecimal false 4900 (-2))
       = Some (mkDecimal false b (-8))
       /\ BitcoinPaymentProcessor.calculate_crypto_amount_at
            (mkDecimal false 3500000 (-2)) (mkDecimal false 4901 (-2))
          = Some (mkDecimal false b' (-8))
       /\ EthereumPaymentProcessor.calculate_crypto_amount_at
            (mkDecimal false 3500000 (-2)) (mkDecimal false 4900 (-2))
          = Some (mkDecimal false h (-6))
       /\ EthereumPaymentProcessor.calculate_crypto_amount_at
            (mkDecimal false 3500000 (-2)) (mkDecimal false 4901 (-2))
          = Some (mkDecimal false h' (-6))
       /\ 0 <= b <= b' /\ 0 <= h <= h'.
Proof.
  assert (H1 : 0 <= 4900) by (vm_compute; discriminate).
  assert (H2 : 4900 <= 4901) by (vm_compute; discriminate).
  assert (H3 : 4901 < 10 ^ 10) by (vm_compute; reflexivity).
  assert (H4 : 0 < 3500000) by reflexivity.
  split; [repeat split; assumption|].
  destruct (quotes_are_monotone_and_tight 4900 4901 3500000 H1 H2 H3 H4)
    as (b & b' & h & h' & E1 & E2 & E3 & E4 & Hb & Hh & _).
  exists b, b', h, h'. repeat split; try assumption; lia.
Defined.

Ltac q_to_z :=
  unfold Spec.within_tolerance, Spec.btc_of_satoshi, Spec.eth_of_wei, to_Q, signed;
  cbn [dsign dint dexp Z.leb Z.compare Z.opp Z.pow Z.pow_pos Pos.iter Z.mul Pos.mul
       Z.to_pos];
  unfold Qle, Qminus, Qplus, Qmult, Qopp; cbn [Qnum Qden];
  rewrite ?Pos2Z.inj_mul.

(** At the code's price of 2500.00 the Ethereum quote is exact. *)
Lemma quote_eth_exact (n : Z) :
  0 <= n < 10 ^ 10 ->
  EthereumPaymentProcessor.calculate_crypto_amount (mkDecimal false n (-2))
  = Some (mkDecimal false (4 * n) (-6)).
Proof.
  intros Hn.
  assert (H6 : 10 ^ 6 = 1000000) by reflexivity.
  unfold EthereumPaymentProcessor.calculate_crypto_amount,
    EthereumPaymentProcessor.get_eth_price.
  rewrite quote_eth by lia. do 2 f_equal.
  replace (n * 10 ^ 6) with (250000 * (4 * n)) by lia.
  apply round_half_even_exact. lia.
Qed.

Lemma amount_accepted_btc_8 (v b : Z) :
  0 <= v < 10 ^ 27 -> 0 <= b < 10 ^ 26 ->
  BitcoinPaymentProcessor.amount_accepted v (mkDecimal false b (-8)) = true
  <-> 99 * b <= 100 * v.
Proof. intros Hv Hb. rewrite amount_accepted_btc by lia. q_to_z. lia. Qed.

Lemma amount_accepted_eth_6 (v h : Z) :
  0 <= h < 10 ^ 26 ->
  EthereumPaymentProcessor.amount_accepted v (mkDecimal false h (-6)) = true
  <-> 99 * h * 10 ^ 12 <= 100 * v.
Proof.
  intros Hh. rewrite amount_accepted_eth by lia.
  assert (H12 : 10 ^ 12 = 1000000000000) by reflexivity.
  q_to_z. lia.
Qed.

(** X18.  Paying what was quoted always satisfies the watcher, and paying
    nothing never does: for every order total (in cents, at most ten
    digits) the amount each processor quotes at its own price is accepted
    by that processor's amount test when exactly that amount arrives; the
    Ethereum quote is the exact quotient (4 micro-ether per cent, no
    rounding); and for a positive total the quotes are positive and a
    transaction of value 0 is rejected. *)
Theorem paying_the_quote_is_accepted (n : Z) :
  0 <= n < 10 ^ 10 ->
  exists b,
    BitcoinPaymentProcessor.calculate_crypto_amount (mkDecimal false n (-2))
    = Some (mkDecimal false b (-8))
    /\ EthereumPaymentProcessor.calculate_crypto_amount (mkDecimal false n (-2))
       = Some (mkDecimal false (4 * n) (-6))
    /\ BitcoinPaymentProcessor.amount_accepted b (mkDecimal false b (-8)) = true
    /\ EthereumPaymentProcessor.amount_accepted (4 * n * 10 ^ 12)
         (mkDecimal false (4 * n) (-6)) = true
    /\ (0 < n ->
        0 < b
        /\ BitcoinPaymentProcessor.amount_accepted 0 (mkDecimal false b (-8)) = false
        /\ EthereumPaymentProcessor.amount_accepted 0 (mkDecimal false (4 * n) (-6))
           = false).
Proof.
  intros Hn.
  assert (H8 : 10 ^ 8 = 100000000) by reflexivity.
  assert (H10 : 10 ^ 10 = 10000000000) by reflexivity.
  assert (H12 : 10 ^ 12 = 1000000000000) by reflexivity.
  assert (H26 : 10 ^ 26 = 100000000000000000000000000) by reflexivity.
  assert (H27 : 10 ^ 27 = 1000000000000000000000000000) by reflexivity.
  set (b := round_half_even (n * 10 ^ 8) 3500000).
  assert (Hb : 0 <= b <= n * 10 ^ 8 + 1).
  { split; [apply round_half_even_nonneg; lia | apply round_half_even_le; lia]. }
  exists b.
  split; [apply quote_btc; lia|].
  split; [apply quote_eth_exact; lia|].
  split; [apply amount_accepted_btc_8; lia|].
  split; [apply amount_accepted_eth_6; lia|].
  intros Hpos.
  assert (Hb1 : 28 <= b).
  { pose proof (round_half_even_floor (n * 10 ^ 8) 3500000 ltac:(lia)) as Hf.
    fold b in Hf.
    assert (28 <= n * 10 ^ 8 / 3500000) by (apply Z.div_le_lower_bound; lia). lia. }
  split; [lia|].
  split; apply not_true_is_false; intros Hacc.
  - apply amount_accepted_btc_8 in Hacc; lia.
  - apply amount_accepted_eth_6 in Hacc; lia.
Qed.

Lemma paying_the_quote_is_accepted_witness :
  0 <= 4900 < 10 ^ 10
  /\ exists b,
       BitcoinPaymentProcessor.calculate_crypto_amount (mkDecimal false 4900 (-2))
       = Some (mkDecimal false b (-8))
       /\ BitcoinPaymentProcessor.amount_accepted b (mkDecimal false b (-8)) = true.
Proof.
  assert (H : 0 <= 4900 < 10 ^ 10) by (vm_compute; split; [discriminate | reflexivity]).
  split; [exact H|].
  destruct (paying_the_quote_is_accepted 4900 H) as (b & E & _ & Hacc & _).
  exists b. split; assumption.
Defined.

End Quotes.

(** ** Ledger lookups and token payments *)

Section LedgersAndTokens.

Import Facts Invariants Scenario LedgerScenario.

(** *** The confirmation task on the two ledgers *)

(** X19.  When the ledger lookup fails (the Bitcoin service returns no
    transaction or raises; the Ethereum node does not know the transaction
    or has no receipt for it yet), a run of the confirmation task changes
    nothing: no row is written and, in particular, the task does not queue
    itself again. *)
Theorem failed_lookup_ends_confirmation_monitoring ledger now id w p :
  payments w !! id = Some p ->
  (crypto_currency p = "BTC"%string
   /\ btc_gettransaction ledger (transaction_hash p) = None)
  \/ (crypto_currency p <> "BTC"%string
      /\ (eth_get_transaction ledger (transaction_hash p) = None
          \/ eth_get_transaction_receipt ledger (transaction_hash p) = None)) ->
  run_monitor_transaction_confirmations ledger now id w = w.
Proof.
  intros Hp Hfail.
  assert (Hn : check_transaction ledger (crypto_currency p) (transaction_hash p) = None).
  { unfold check_transaction. destruct Hfail as [[Hc Hb]|[Hc He]].
    - rewrite (bool_decide_eq_true_2 _ Hc), Hb. reflexivity.
    - rewrite (bool_decide_eq_false_2 _ Hc).
      unfold EthereumPaymentProcessor.check_transaction.
      destruct He as [-> | ->]; [reflexivity|].
      destruct (eth_get_transaction ledger (transaction_hash p)); reflexivity. }
  unfold run_monitor_transaction_confirmations. rewrite Hp, Hn.
  unfold monitor_transaction_confirmations. rewrite Hp.
  destruct (_ || _); reflexivity.
Qed.

Lemma failed_lookup_ends_confirmation_monitoring_witness :
  (payments w_eth !! 5 = Some eth_row
   /\ crypto_currency eth_row <> "BTC"%string
   /\ eth_get_transaction_receipt ledger_pending (transaction_hash eth_row) = None)
  /\ run_monitor_transaction_confirmations ledger_pending 600 5 w_eth = w_eth.
Proof.
  assert (Hp : payments w_eth !! 5 = Some eth_row) by (vm_compute; reflexivity).
  assert (Hc : crypto_currency eth_row <> "BTC"%string) by (cbn; discriminate).
  assert (Hr : eth_get_transaction_receipt ledger_pending (transaction_hash eth_row)
               = None) by reflexivity.
  split; [split; [exact Hp | split; [exact Hc | exact Hr]]|].
  apply (failed_lookup_ends_confirmation_monitoring ledger_pending 600 5 w_eth eth_row Hp).
  right. split; [exact Hc | right; exact Hr].
Defined.

(** X20.  For a processing BTC payment whose transaction the Bitcoin service
    returns, one run of the confirmation task stores the service's
    confirmation count and confirms the payment exactly when that count
    reaches the threshold; below it the task queues itself again with a
    countdown of 60 seconds. *)
Theorem bitcoin_confirmation_count ledger now id w p o tx :
  payments w !! id = Some p -> orders w !! order p = Some o ->
  status p = Processing -> transaction_hash p <> ""%string ->
  crypto_currency p = "BTC"%string ->
  btc_gettransaction ledger (transaction_hash p) = Some tx ->
  let n := BitcoinPaymentProcessor.ledger_confirmations tx in
  let w' := run_monitor_transaction_confirmations ledger now id w in
  confirmations <$> payments w' !! id = Some n
  /\ (status <$> payments w' !! id = Some Confirmed <-> required_confirmations p <= n)
  /\ (n < required_confirmations p ->
      queue w' = queue w ++ [monitor_transaction_confirmations_task id 60]).
Proof.
  intros Hp Ho Hs Hh Hc Htx n w'. subst w'.
  unfold run_monitor_transaction_confirmations, check_transaction,
    BitcoinPaymentProcessor.check_transaction.
  rewrite Hp, (bool_decide_eq_true_2 _ Hc), Htx.
  cbn [fmap option_fmap option_map BitcoinPaymentProcessor.info_confirmations].
  fold n.
  rewrite (monitor_transaction_confirmations_applied _ _ _ _ _ Hp Hs Hh), Ho.
  destruct (Z.leb_spec (required_confirmations p) n) as [Hle|Hgt];
    cbn [payments queue]; rewrite lookup_insert_eq; cbn.
  - split; [reflexivity|]. split; [split; [intros _; exact Hle | reflexivity]|]. lia.
  - split; [reflexivity|]. split; [|reflexivity]. split; [|lia].
    rewrite Hs. intros H. discriminate.
Qed.

Lemma bitcoin_confirmation_count_witness :
  (payments w_processing !! pid = Some (row Processing "0xabc" 0 60 None)
   /\ orders w_processing !! order (row Processing "0xabc" 0 60 None) = Some order1
   /\ btc_gettransaction ledger_btc (transaction_hash (row Processing "0xabc" 0 60 None))
      = Some (BitcoinPaymentProcessor.mkLedgerTransaction 2 141000 200))
  /\ confirmations
       <$> payments (run_monitor_transaction_confirmations ledger_btc 600 pid w_processing)
           !! pid
     = Some 2.
Proof.
  assert (Hp : payments w_processing !! pid = Some (row Processing "0xabc" 0 60 None))
    by (vm_compute; reflexivity).
  assert (Ho : orders w_processing !! order (row Processing "0xabc" 0 60 None)
               = Some order1) by (vm_compute; reflexivity).
  assert (Hh : transaction_hash (row Processing "0xabc" 0 60 None) <> ""%string)
    by (cbn; discriminate).
  assert (Htx : btc_gettransaction ledger_btc
                  (transaction_hash (row Processing "0xabc" 0 60 None))
                = Some (BitcoinPaymentProcessor.mkLedgerTransaction 2 141000 200))
    by reflexivity.
  split; [split; [exact Hp | split; [exact Ho | exact Htx]]|].
  exact (proj1 (bitcoin_confirmation_count ledger_btc 600 pid w_processing _ _ _
                  Hp Ho eq_refl Hh eq_refl Htx)).
Defined.

(** *** One pass of the Ethereum watcher *)

Lemma find_first {A : Type} (f : A -> bool) (l : list A) (x : A) :
  List.find f l = Some x ->
  exists pre post, l = pre ++ x :: post /\ f x = true
                   /\ forall t, t ∈ pre -> f t = false.
Proof.
  induction l as [|a l IH]; cbn; [discriminate|].
  destruct (f a) eqn:Hfa.
  - intros E. inversion E; subst a. exists [], l.
    split; [reflexivity|]. split; [exact Hfa|].
    intros t Ht. apply elem_of_nil in Ht. contradiction.
  - intros E. destruct (IH E) as (pre & post & -> & Hx & Hpre).
    exists (a :: pre), post. split; [reflexivity|]. split; [exact Hx|].
    intros t Ht. apply elem_of_cons in Ht. destruct Ht as [->|Ht];
      [exact Hfa | exact (Hpre t Ht)].
Qed.

Lemma find_nothing {A : Type} (f : A -> bool) (l : list A) :
  List.find f l = None -> forall t, t ∈ l -> f t = false.
Proof.
  induction l as [|a l IH]; cbn.
  - intros _ t Ht. apply elem_of_nil in Ht. contradiction.
  - destruct (f a) eqn:Hfa; [discriminate|].
    intros E t Ht. apply elem_of_cons in Ht. destruct Ht as [->|Ht];
      [exact Hfa | exact (IH E t Ht)].
Qed.

Lemma find_append {A : Type} (f : A -> bool) (l l' : list A) :
  List.find f (l ++ l')
  = match List.find f l with Some x => Some x | None => List.find f l' end.
Proof.
  induction l as [|a l IH]; cbn; [reflexivity|].
  destruct (f a); [reflexivity | exact IH].
Qed.

Lemma find_pointwise {A : Type} (f g : A -> bool) (l : list A) :
  (forall x, f x = g x) -> List.find f l = List.find g l.
Proof.
  intros H. induction l as [|a l IH]; cbn; [reflexivity|].
  rewrite H, IH. reflexivity.
Qed.

(** X21.  One pass of the Ethereum watcher reports the first transaction, in
    block order, that is sent to the address and within tolerance, and
    nothing when there is none; a contract creation never pays; the
    address is compared without regard to case; and a pass over more
    blocks reports what the pass over the earlier ones reported, if
    anything. *)
Theorem ethereum_watcher_pass address e blocks :
  let r := EthereumPaymentProcessor.monitor_address_pass address e blocks in
  match r with
  | Some h =>
      exists pre tx post,
        concat blocks = pre ++ tx :: post
        /\ EthereumPaymentProcessor.tx_hash tx = h
        /\ EthereumPaymentProcessor.tx_pays address e tx = true
        /\ forall t, t ∈ pre -> EthereumPaymentProcessor.tx_pays address e t = false
  | None =>
      forall t, t ∈ concat blocks -> EthereumPaymentProcessor.tx_pays address e t = false
  end
  /\ (forall tx, EthereumPaymentProcessor.tx_to tx = None ->
      EthereumPaymentProcessor.tx_pays address e tx = false)
  /\ (forall address',
        EthereumPaymentProcessor.lower address' = EthereumPaymentProcessor.lower address ->
        EthereumPaymentProcessor.monitor_address_pass address' e blocks = r)
  /\ (forall later,
        EthereumPaymentProcessor.monitor_address_pass address e (blocks ++ later)
        = match r with
          | Some h => Some h
          | None => EthereumPaymentProcessor.monitor_address_pass address e later
          end).
Proof.
  intros r. subst r. unfold EthereumPaymentProcessor.monitor_address_pass.
  split; [|split; [|split]].
  - destruct (List.find _ _) as [tx|] eqn:E; cbn.
    + destruct (find_first _ _ _ E) as (pre & post & Hl & Hx & Hpre).
      exists pre, tx, post. repeat split; assumption.
    + apply find_nothing. exact E.
  - intros tx Hto. unfold EthereumPaymentProcessor.tx_pays. rewrite Hto. reflexivity.
  - intros address' Hl. f_equal. apply find_pointwise. intros tx.
    unfold EthereumPaymentProcessor.tx_pays. rewrite Hl. reflexivity.
  - intros later. rewrite concat_app, find_append.
    destruct (List.find _ (concat blocks)); reflexivity.
Qed.

(** *** Token payments *)

(** X22.  A payment initiated with method crypto_usdt is quoted and watched as
    an ether payment: for an order total of [n] cents the stored and
    returned amount is [n / 2500] to six places (exactly [4 n] millionths),
    labelled USDT; the watcher task runs the Ethereum processor's pass for
    it; and that pass takes a transaction as the payment exactly when it is
    sent to the payment's address and its ether value reaches 99% of that
    number. *)
Theorem usdt_payment_is_settled_in_ether now auth data wallet_data w body w' o n :
  initiate_payment now auth data wallet_data w = (Ok body, w') ->
  pi_payment_method data = crypto_usdt ->
  orders w !! order_id data = Some o ->
  total o = mkDecimal false n (-2) -> 0 <= n < 10 ^ 10 ->
  let e := mkDecimal false (4 * n) (-6) in
  exists p,
    payments w' !! r_payment_id body = Some p
    /\ crypto_currency p = "USDT"%string /\ r_crypto_currency body = "USDT"%string
    /\ crypto_amount p = Some e /\ r_crypto_amount body = e
    /\ wallet_address p = wd_address wallet_data
    /\ (forall checked txs blocks,
          watcher_pass (crypto_currency p) (wallet_address p) e checked txs blocks
          = EthereumPaymentProcessor.monitor_address_pass (wallet_address p) e blocks)
    /\ (forall tx,
          EthereumPaymentProcessor.tx_pays (wallet_address p) e tx = true
          <-> exists to,
                EthereumPaymentProcessor.tx_to tx = Some to
                /\ EthereumPaymentProcessor.lower to
                   = EthereumPaymentProcessor.lower (wd_address wallet_data)
                /\ 99 * (4 * n) * 10 ^ 12 <= 100 * EthereumPaymentProcessor.tx_value tx).
Proof.
  intros E Hm Ho Ht Hn e.
  assert (H10 : 10 ^ 10 = 10000000000) by reflexivity.
  assert (H26 : 10 ^ 26 = 100000000000000000000000000) by reflexivity.
  destruct (initiate_payment_inserts _ _ _ _ _ _ _ E)
    as (o' & cur & crypto & Ho' & _ & (processor & Hsel & Hcalc) & _ & _ & -> & ->).
  rewrite Ho in Ho'. inversion Ho'; subst o'.
  rewrite Hm in Hsel. cbn in Hsel. inversion Hsel; subst processor cur.
  rewrite Ht in Hcalc. cbn [Api.calculate_crypto_amount] in Hcalc.
  rewrite quote_eth_exact in Hcalc by exact Hn. inversion Hcalc; subst crypto.
  eexists. cbn [r_payment_id payments r_crypto_currency r_crypto_amount].
  split; [apply lookup_insert_eq|].
  cbn [crypto_currency crypto_amount wallet_address].
  split; [reflexivity|]. split; [reflexivity|]. split; [reflexivity|].
  split; [reflexivity|]. split; [reflexivity|]. split.
  - intros checked txs blocks. reflexivity.
  - intros tx. unfold EthereumPaymentProcessor.tx_pays.
    destruct (EthereumPaymentProcessor.tx_to tx) as [to|].
    + rewrite andb_true_iff, bool_decide_eq_true.
      unfold e. rewrite amount_accepted_eth_6 by lia. split.
      * intros [Hl Hv]. exists to. split; [reflexivity | split; assumption].
      * intros (to' & Hto & Hl & Hv). inversion Hto; subst to'. split; assumption.
    + split; [discriminate|]. intros (to & Hto & _). discriminate.
Qed.

Lemma usdt_payment_is_settled_in_ether_witness :
  (initiate_payment 0 7 request_usdt wallet_eth w_order
   = (Ok (mkCryptoPaymentResponse 0 "ORD-1A2B3C4D" (mkDecimal false 4900 (-2))
            (mkDecimal false 19600 (-6)) "USDT" "0xReceive" 1800),
      w_usdt)
   /\ orders w_order !! order_id request_usdt = Some order1
   /\ 0 <= 4900 < 10 ^ 10)
  /\ exists p,
       payments w_usdt !! 0 = Some p
       /\ crypto_currency p = "USDT"%string
       /\ crypto_amount p = Some (mkDecimal false (4 * 4900) (-6)).
Proof.
  assert (E : initiate_payment 0 7 request_usdt wallet_eth w_order
              = (Ok (mkCryptoPaymentResponse 0 "ORD-1A2B3C4D" (mkDecimal false 4900 (-2))
                       (mkDecimal false 19600 (-6)) "USDT" "0xReceive" 1800),
                 w_usdt)) by (vm_compute; reflexivity).
  assert (Ho : orders w_order !! order_id request_usdt = Some order1)
    by (vm_compute; reflexivity).
  assert (Hn : 0 <= 4900 < 10 ^ 10)
    by (vm_compute; split; [discriminate | reflexivity]).
  split; [split; [exact E | split; [exact Ho | exact Hn]]|].
  destruct (usdt_payment_is_settled_in_ether 0 7 request_usdt wallet_eth w_order _ _
              order1 4900 E eq_refl Ho eq_refl Hn)
    as (p & Hp & Hc & _ & Ha & _).
  exists p. split; [exact Hp | split; [exact Hc | exact Ha]].
Defined.

End LedgersAndTokens.
